(* ===== verification/_CoqProject ===== *)
-Q . S2P
Prelude.v
Resolution.v
Bars.v
Bucketer.v
Readiness.v
Streaming.v
Datafeed.v
Pagination.v
Chart.v
ChartEffect.v
Component.v
Page.v
Proxy.v
TxService.v
