(* ===== verification/Prelude.v ===== *)
(** * A verification development of the Raydium launchpad price chart

    This library models the chart data path of the Raydium UI
    (src/src/components/TradingView/): the datafeed adapter that turns
    upstream kline rows into OHLC bars ([datafeed.ts]), the resolution table
    ([type.ts]), and the stand-alone chart component ([TVChart.tsx]) with its
    two bucketing variants, its readiness polling loop and its live-update
    listener.  Everything is a shallow embedding: pure TypeScript functions
    become Rocq functions, the module-level mutable variables of
    [datafeed.ts] ([lastBarsCache], [nextPageKey]) and the socket of the
    streaming module become fields of explicit state records, and the
    asynchronous parts (an [await] between a request and its response, a
    [setInterval] whose probes resolve later) become step relations whose
    interleavings are explicit sequences of events.

    ** Program parts and how they interact

    - Resolution table ([type.ts] ResolutionToSeconds, [datafeed.ts]
      supported_resolutions and the interval strings built in getBars and
      fetchChartData): file [Resolution.v].
    - Bars and raw rows ([datafeed.ts] LightweightBar, TradeData; the
      birdeye rows read by fetchChartData): file [Bars.v], with the bar
      well-formedness predicate [low <= open, close <= high] and the bucket
      arithmetic [Math.floor(t / unit) * unit * 1000].
    - Bar bucketer: the [rows.forEach] accumulator loops of getBars
      (datafeed.ts 176-221) and of fetchChartData (TVChart.tsx 66-99 and
      112-140): file [Bucketer.v].  The kline variant opens a new bar when a
      row's bucket is strictly earlier than the open bar, the birdeye variant
      when it is strictly later.
    - Datafeed orchestrator ([datafeed.ts] class DataFeed: resolveSymbol,
      getBars, subscribeBars, unsubscribeBars): file [Datafeed.v], over a
      state record holding the pagination cursor, the last-bar cache (a
      stdpp [gmap] keyed by pool id) and the streaming state.
    - Streaming module (imported from ./streaming, which is not part of the
      sources: startSocket, closeSocket, subscribeOnStream,
      unsubscribeFromStream and the live bar merge): file [Streaming.v],
      modelled from the specification and marked so in the manifest.
    - Readiness gate (TVChart.tsx 191-217: the 1-second interval that probes
      for a first kline row and reloads the chart): file [Readiness.v].
    - Chart component (TVChart.tsx: fetchChartData, the load effect, the
      arrow listener): file [Chart.v]; the chart effect itself (its runs,
      the completion of the loads it starts, live bars and its cleanup) as
      a step relation over the component's refs: file [ChartEffect.v].
    - The TVChart instance (TVChart.tsx 144-384): its props, its two states
      [reloadChartTag] and [refreshChartMint], the subscription to
      [refreshChartSubject], and React's scheduling of the readiness, chart
      and connection effects on their dependencies: file [Component.v],
      whose step relation [hstep] drives the gate of [Readiness.v] and the
      chart effect of [ChartEffect.v] as the code's dependencies do (a
      probe's reload changes [reloadChartTag], which re-runs the chart
      effect).
    - Several chart instances and the streaming module's single arrow
      listener ([setArrowListener], which each kline effect run replaces
      and each cleanup unsets): file [Page.v], a list of the instances'
      chart effects with the owner of the listener, live bars going to the
      owner only.
    - Pagination session: the loop of getBars calls the charting library
      makes for one symbol, over the [getBars] of [Datafeed.v]: file
      [Pagination.v] (the loop itself is modelled from the specification).
    - CORS relay ([proxy.js]): the request handler (preflight, routing,
      outgoing headers and options, the catch answer) and the upstream's
      response, error and timeout callbacks as a step relation: file
      [Proxy.v].
    - Transaction service client ([api/txService.ts]: validateTxData,
      extendTxData), whose validation request is addressed to the relay:
      file [TxService.v].

    ** Representation choices

    - Prices are rationals [Q] (the JavaScript numbers the upstream returns
      are decimal prices such as 0.5); [Math.min]/[Math.max] are [Qmin] /
      [Qmax].  Times are integers [Z] (seconds from the upstream, the bar
      time in milliseconds).  A time that JavaScript computes as [NaN]
      (a resolution missing from the table makes [t / undefined] NaN) is
      [None] in the type [jstime] below, with every comparison against it
      false, as in JavaScript.
    - Optional fields ([nextPageKey], [volume], [vQuote]) are [option];
      JavaScript truthiness of a string ([!nextPageKey]) is [str_truthy].
    - Callbacks are replaced by values: a handler returns what it would pass
      to [onHistoryCallback] / [onErrorCallback] as an inductive outcome.
    - The network is a function argument ([fetch]), or, where the order of
      responses matters, an explicit event in a step relation.

    ** Interfaces

    - The bucketing loop is stated once, in Section [Accumulate] of
      [Bucketer.v], over the variant's guard, key, closing test, opening
      and folding functions; its invariants are proved once in Section
      [AccumulateFacts] and instantiated for both variants.
    - The lightweight-charts series is the class [CandleSeries] of
      [Chart.v] (setData rejects a series whose times are not strictly
      ascending, update accepts a bar at or after the last one); the chart
      component's theorems are proved against the class, and [list_series]
      is an instance that discharges its laws.
    - [Component.v] calls the gate's and the chart effect's operations
      ([gate_start], [on_tick], [on_result], [on_cleanup]; [run_effect],
      [cleanup], [effect_step]) and is proved against their lemmas, so
      that the chart effect's invariant carries over to the instance.
    - The datafeed's collaborators that are not part of the sources
      ([initPoolPriceDecimal], [wSolToSolString], [NATIVE_MINT]) are
      Section variables of [Datafeed.v], so its theorems hold for any of
      them.

    ** Theorems, by group

    - Bucketer ([Bucketer.v], modules [Kline] and [Birdeye]): on input in
      the feed's native newest-first order the kline loop refines the
      reference "one bar per maximal run of rows of one bucket"
      ([kline_ref], defined with Equations); bar well-formedness is kept by
      both variants and by the one-bar clamp; bar times are aligned to the
      bucket width and strictly monotone for any input order; birdeye bars
      stay in the requested window and their volumes add up to the items'
      vQuote; appending a row to any input either folds it into the last
      bar or opens a new one, as the variant's closing test says; and the
      departures from the spec (any row at or after the open bar's bucket
      folded into that bar, a birdeye item in a later bucket opening a
      second bar, a malformed row breaking [low <= close], an unknown
      resolution collapsing the page into one NaN-timed bar) are proved
      for every input on which they arise.
    - Datafeed ([Datafeed.v]): getBars is split at its [await] into
      [getBars_begin] and [getBars_complete].  A first request resets the
      cursor and sends one query; an exhausted cursor answers [noData]
      without a request and without a state change; the bars handed over
      are ascending and well formed; the cache is seeded with the newest
      bar; a failed request commits nothing; resolveSymbol leaves exactly
      one socket, or reports an error and changes nothing; subscribeBars
      seeds the subscription with the cached bar; unsubscribeBars is
      idempotent; and, from any state whose cursor is cleared, a response
      of one symbol that completes after another symbol's first request
      makes that symbol's next request use the stale cursor.
    - Readiness gate ([Readiness.v]): a step relation over ticks, probe
      results and cleanup with an invariant by rule induction; under the
      schedule where each probe resolves within its second the loop
      terminates after at most 16 probes (16 with no data, one more than
      the spec's 15) and stops at the first positive probe; from any gate,
      every probe in flight at a cleanup still reloads the chart, and k
      overlapping probes that find data reload it k times.
    - Streaming ([Streaming.v]): a stale live event is dropped, the bars
      handed to the chart never go back in time, the spec's live scenario.
    - Chart ([Chart.v]): the kline branch of the load effect hands
      newest-first bars to setData, which rejects them, while a birdeye
      load is shown as it is; the arrow listener keeps the series
      ascending.  [ChartEffect.v]: by rule induction over every order of
      effect runs, load completions, live bars and cleanups, a torn-down
      effect leaves no chart, listener or auto-save interval; a load that
      completes after its chart was removed never touches the chart
      shown; and [lastBarRef] survives the teardown, so after any cleanup
      and new run a live bar reaches the new chart before its history,
      while a reset ref would have dropped it.
    - TVChart instance ([Component.v]): by rule induction over every
      sequence of mounts, new props, publications, ticks, probe results,
      loads, live bars and unmounts, no chart, listener or interval
      outlives its run, and each effect's recorded dependencies are those
      of the current props and states; in every reachable state, a
      refresh request for a new mint starts one new readiness run (after
      tearing the old ones down) and the same request again is ignored; a
      probe that finds data, of any run, current or torn down, bumps
      [reloadChartTag] and recreates the chart of the current props; and
      every mount leaves its subscription to the subject behind.
    - Resolution table ([Resolution.v]): every width that
      ResolutionToSeconds returns is a positive whole number of minutes.
    - Pagination ([Pagination.v]): a session against an upstream serving a
      chain of pages terminates, requesting each cursor once and in order.
    - Relay ([Proxy.v]): routing by path prefix; the preflight grants any
      origin with credentials; the shape of the forwarded response
      headers; under every order in which Node's ClientRequest may emit
      its events, the status line is written at most once and no callback
      throws (an invariant by rule induction), and after the first event
      the client has its answer (the status of the response, 500 or 504).
    - Chart instances ([Page.v]): by rule induction over any interleaving
      of several instances' effect runs, loads, cleanups and live bars, the
      module's listener always belongs to a registered instance whose
      chart exists, and live bars reach that instance only; the cleanup of
      any other instance unsets the listener while the owner's chart stays
      on screen, so every later live bar is dropped.
    - Datafeed configuration: onReady advertises exactly the table's
      resolutions that getBars requests by name, every other one being
      requested as '5m'.
    - Transaction service ([TxService.v]): a rejected POST gives the
      failure record; a WalletConnect adapter without [_wallet] fails
      before sending.

    ** Fuel and bounds

    Loops over lists are structural.  The readiness loop [gate_loop] runs
    on fuel, one unit per tick; [gate_terminates] shows that 16 units
    suffice for every probe outcome, because the counter reaches its limit
    after 16 negative probes, so the result is not an artefact of fuel.
    Interleavings are finite lists of events ([run_events]); reachability
    is the inductive [gate_reach].  The pagination [session] runs on fuel,
    one unit per getBars call; [session_terminates] shows that the number
    of pages plus two units suffice (one call per page, one for the first
    page, one that answers noData), so the session is not cut by fuel.
    The relay's upstream events are finite lists ([run_upstream]) or the
    inductive [preach]; Node's timeout of 30 seconds bounds how long the
    first event can take.  The instance's events are finite lists
    ([hrun]) or the inductive [hreach]; [Date.now()] is a counter, since
    only its changing matters to the chart effect's dependencies.  A
    page's events are finite lists ([page_run]) or the inductive
    [page_reach].  Times are unbounded integers: the program's times are
    JavaScript doubles holding millisecond timestamps, far below 2^53, so
    no overflow is modelled.

    ** What the modelling showed

    The manifest lists these as findings, each with the theorem that
    proves it: the birdeye scenario of the spec yields two bars, not one;
    the readiness gate sends 16 probes, not 15; a probe in flight reloads
    the chart after teardown and overlapping probes reload twice; a stale
    getBars response overwrites the global cursor of the next symbol; the
    cache is seeded with the newest bar where the spec says the earliest;
    out-of-order kline rows are folded into the wrong bar rather than
    fragmenting a bucket; a malformed row breaks bar well-formedness; the
    chart component's kline branch never reverses its bars, so setData
    rejects any page spanning two buckets; an unknown resolution yields
    NaN bar times; and the two fetch paths derive different upstream
    intervals for the same resolution ([Resolution.frames_disagree]).  In
    the relay: the preflight and the responses allow any origin with
    credentials, and the upstream's lower-case
    access-control-allow-credentials is not removed, so it can be sent
    twice.  In the transaction service: [._wallet._session] lacks optional
    chaining, so validation fails locally for a WalletConnect adapter
    without [_wallet].  In the chart effect: [lastBarRef] is not reset by
    the cleanup, so bar state crosses a symbol switch; the price format's
    [minMove] is NaN without mint info, the [?? 2] default being dead.
    In the TVChart instance: the subscription to [refreshChartSubject] is
    never removed; [refreshChartMint] is never reset, so only the first
    refresh request for a mint reloads the chart; a probe of the previous
    pool's run reloads the new pool's chart.  Across instances: every
    cleanup unsets the module's single arrow listener, whoever set it, so
    one chart's teardown stops another chart's live updates.

    ** Not modelled

    Rendering and theming (TvTheme, createChart options, tick formatters,
    the Box element): they only style what the chart shows.  The periodic
    save of the chart configuration and saveChartConfig's store update,
    which write the saved configuration and nothing the modelled code
    reads back within a mount.  The relay's byte piping, logging and
    [server.listen].  The effect of [closeSocket] on the streaming module's sockets is not
    linked to [Component.v], which records the sockets its connection
    effect closes.  The streaming module itself is not part of the
    sources: its operations are modelled from the specification, and its
    socket transport is outside the specification's scope (a black box
    that delivers events), so nothing more of it can be modelled
    faithfully.  The remaining unmapped lines of the sources are imports,
    type-only declarations, console logging and JSX.

    This file holds the shared vocabulary: the JavaScript number helpers,
    JavaScript objects as association lists in insertion order,
    the rational min/max lemmas, the list lemmas the components share, the
    [chart] hint database and the tactics. *)

From Stdlib Require Import ZArith QArith Qminmax List Lia Lqa String Bool.
Import ListNotations.

Declare Scope chart_scope.
Delimit Scope chart_scope with chart.
Open Scope chart_scope.

Create HintDb chart.

(** ** JavaScript numbers used as times *)

(** A time computed in JavaScript: a finite integer or [NaN]. *)
Definition jstime := option Z.

Abbreviation NaN := (@None Z) (only parsing).

(** [a < b] on JavaScript numbers: false as soon as one side is NaN. *)
Definition js_lt (a b : jstime) : bool :=
  match a, b with
  | Some x, Some y => (x <? y)%Z
  | _, _ => false
  end.

Definition js_gt (a b : jstime) : bool := js_lt b a.

Notation "a <js b" := (js_lt a b) (at level 70, no associativity) : chart_scope.

(** JavaScript truthiness of an optional string: [undefined] and [""] are
    falsy. *)
Definition str_truthy (o : option string) : bool :=
  match o with
  | Some s => negb (String.eqb s "")
  | None => false
  end.

(** [x || 0] on an optional number. *)
Definition or0 (o : option Q) : Q :=
  match o with Some q => q | None => 0%Q end.

(** [Math.floor(t / u) * u] for a positive integer width [u]: [Z.div] is
    floor division, as [Math.floor] of the exact quotient. *)
Definition floor_mul (t u : Z) : Z := (t / u * u)%Z.

(** A list whose consecutive elements are related by [R]. *)
Fixpoint chain {A} (R : A -> A -> Prop) (l : list A) : Prop :=
  match l with
  | [] => True
  | x :: l' =>
      match l' with
      | [] => True
      | y :: _ => R x y /\ chain R l'
      end
  end.

(** The list of an optional value. *)
Definition opt_list {A} (o : option A) : list A :=
  match o with Some x => [x] | None => [] end.

(** [l[l.length - 1]], [undefined] on an empty list. *)
Definition last_opt {A} (l : list A) : option A :=
  match rev l with x :: _ => Some x | [] => None end.

(** [a || d] on an optional string: [d] when [a] is undefined or empty. *)
Definition or_str (o : option string) (d : string) : string :=
  match o with
  | Some s => if String.eqb s "" then d else s
  | None => d
  end.

(** ** JavaScript objects with string keys

    An object literal, a header object or a JSON body is the list of its
    own properties in insertion order.  Assigning an existing key keeps its
    position, assigning a new key appends it, [delete] removes it; keys are
    compared exactly (JavaScript property names are case-sensitive). *)
Definition jsobj (V : Type) := list (string * V).

Fixpoint obj_get {V} (k : string) (o : jsobj V) : option V :=
  match o with
  | [] => None
  | (k', v) :: o' => if String.eqb k k' then Some v else obj_get k o'
  end.

Fixpoint obj_set {V} (k : string) (v : V) (o : jsobj V) : jsobj V :=
  match o with
  | [] => [(k, v)]
  | (k', v') :: o' => if String.eqb k k' then (k, v) :: o' else (k', v') :: obj_set k v o'
  end.

Fixpoint obj_del {V} (k : string) (o : jsobj V) : jsobj V :=
  match o with
  | [] => []
  | (k', v') :: o' => if String.eqb k k' then obj_del k o' else (k', v') :: obj_del k o'
  end.

(** [{...base, k1: v1, ...}]: the properties of [over] assigned in order. *)
Definition obj_spread {V} (base over : jsobj V) : jsobj V :=
  fold_left (fun acc kv => obj_set (fst kv) (snd kv) acc) over base.

(** The keys of an object, each once: the invariant of every object. *)
Definition obj_wf {V} (o : jsobj V) : Prop := NoDup (map fst o).

Lemma js_lt_some (x y : Z) : js_lt (Some x) (Some y) = (x <? y)%Z.
Proof. reflexivity. Qed.

(** ** Rational min and max *)

(** [Qmin] and [Qmax] return one of their arguments: the case split that
    every min/max argument starts with. *)
Lemma Qmin_cases (a b : Q) :
  (Qmin a b = a /\ a <= b)%Q \/ (Qmin a b = b /\ b <= a)%Q.
Proof.
  unfold Qmin, GenericMinMax.gmin.
  destruct (a ?= b)%Q eqn:E.
  - left. split; [reflexivity|]. apply Qeq_alt in E. rewrite E. apply Qle_refl.
  - left. split; [reflexivity|]. apply Qlt_le_weak, Qlt_alt, E.
  - right. split; [reflexivity|]. apply Qlt_le_weak, Qgt_alt, E.
Qed.

Lemma Qmax_cases (a b : Q) :
  (Qmax a b = b /\ a <= b)%Q \/ (Qmax a b = a /\ b <= a)%Q.
Proof.
  unfold Qmax, GenericMinMax.gmax.
  destruct (a ?= b)%Q eqn:E.
  - right. split; [reflexivity|]. apply Qeq_alt in E. rewrite E. apply Qle_refl.
  - left. split; [reflexivity|]. apply Qlt_le_weak, Qlt_alt, E.
  - right. split; [reflexivity|]. apply Qlt_le_weak, Qgt_alt, E.
Qed.

(** Case on every [if], [option] match and pair the hypothesis [H] scrutinises,
    conditionals first, recording each case as an equation; cases that make
    [H] an equation [None = Some _] are closed. *)
Ltac destr_in H :=
  repeat match type of H with
         | context [if ?b then _ else _] =>
             let E := fresh "E" in destruct b eqn:E; cbv beta iota in H; try discriminate H
         | context [match ?x with Some _ => _ | None => _ end] =>
             let E := fresh "E" in destruct x eqn:E; cbv beta iota in H; try discriminate H
         | context [match ?x with pair _ _ => _ end] =>
             let E := fresh "E" in destruct x eqn:E; cbv beta iota in H
         end.

(** Replace every [Qmin]/[Qmax] of the goal and the hypotheses by one of
    its arguments with the matching order fact, then close with [lra]. *)
Ltac qminmax :=
  repeat match goal with
         | |- context [Qmin ?a ?b] =>
             let H := fresh "Hm" in
             destruct (Qmin_cases a b) as [[-> H] | [-> H]]
         | |- context [Qmax ?a ?b] =>
             let H := fresh "Hm" in
             destruct (Qmax_cases a b) as [[-> H] | [-> H]]
         | H0 : context [Qmin ?a ?b] |- _ =>
             let H := fresh "Hm" in
             destruct (Qmin_cases a b) as [[Heq H] | [Heq H]];
             rewrite Heq in H0; clear Heq
         | H0 : context [Qmax ?a ?b] |- _ =>
             let H := fresh "Hm" in
             destruct (Qmax_cases a b) as [[Heq H] | [Heq H]];
             rewrite Heq in H0; clear Heq
         end; lra.

Lemma Qmin_le_l (a b : Q) : (Qmin a b <= a)%Q.
Proof. qminmax. Qed.
Lemma Qmin_le_r (a b : Q) : (Qmin a b <= b)%Q.
Proof. qminmax. Qed.
Lemma Qmax_ge_l (a b : Q) : (a <= Qmax a b)%Q.
Proof. qminmax. Qed.
Lemma Qmax_ge_r (a b : Q) : (b <= Qmax a b)%Q.
Proof. qminmax. Qed.

#[export] Hint Resolve Qmin_le_l Qmin_le_r Qmax_ge_l Qmax_ge_r Qle_refl : chart.

(** ** Integer buckets *)

Lemma floor_mul_le (t u : Z) : (0 < u)%Z -> (floor_mul t u <= t)%Z.
Proof.
  intros Hu. unfold floor_mul.
  pose proof (Z.mul_div_le t u Hu). lia.
Qed.

Lemma floor_mul_gt (t u : Z) : (0 < u)%Z -> (t < floor_mul t u + u)%Z.
Proof.
  intros Hu. unfold floor_mul.
  pose proof (Z.mod_pos_bound t u Hu). pose proof (Z.div_mod t u). lia.
Qed.

Lemma floor_mul_mod (t u : Z) : (0 < u)%Z -> (floor_mul t u mod u = 0)%Z.
Proof. intros Hu. unfold floor_mul. apply Z.mod_mul. lia. Qed.

(** Flooring is monotone: a later time never lands in an earlier bucket. *)
Lemma floor_mul_mono (t1 t2 u : Z) :
  (0 < u)%Z -> (t1 <= t2)%Z -> (floor_mul t1 u <= floor_mul t2 u)%Z.
Proof.
  intros Hu Ht. unfold floor_mul.
  apply Z.mul_le_mono_nonneg_r; [lia|]. apply Z.div_le_mono; lia.
Qed.

(** ** Lists *)


Lemma chain_cons_inv {A} (R : A -> A -> Prop) x l :
  chain R (x :: l) -> chain R l.
Proof. destruct l; simpl; tauto. Qed.

Lemma chain_app_single {A} (R : A -> A -> Prop) l x y :
  chain R (l ++ [x]) -> R x y -> chain R (l ++ [x; y]).
Proof.
  induction l as [|a l IH]; simpl; [tauto|].
  destruct l as [|b l]; simpl in *; intuition.
Qed.

#[export] Hint Resolve chain_cons_inv : chart.

(** Replacing the last element by one that every predecessor still relates
    to keeps the chain. *)
Lemma chain_replace_last {A} (R : A -> A -> Prop) l x y :
  chain R (l ++ [x]) -> (forall z, R z x -> R z y) -> chain R (l ++ [y]).
Proof.
  intros Hc Hxy. induction l as [|a l IH]; simpl in *; [tauto|].
  destruct l as [|b l]; simpl in *; intuition.
Qed.

(** An invariant of the loop body is an invariant of [fold_left]: the
    [forEach] loops of the program are folds over the rows. *)
Lemma fold_left_invariant {A B} (P : A -> Prop) (f : A -> B -> A)
      (l : list B) (s : A) :
  (forall s x, In x l -> P s -> P (f s x)) -> P s -> P (fold_left f l s).
Proof.
  revert s. induction l as [|x l IH]; simpl; intros s Hstep Hs; [exact Hs|].
  apply IH; [intros; apply Hstep; auto | apply Hstep; auto].
Qed.


(** In a chain of a transitive relation, the head relates to every later
    element. *)
Lemma chain_head_forall {A} (R : A -> A -> Prop) x l :
  (forall a b c, R a b -> R b c -> R a c) ->
  chain R (x :: l) -> Forall (R x) l.
Proof.
  intros Htr. revert x. induction l as [|y l IH]; intros x Hc; [constructor|].
  destruct Hc as [Hxy Hc]. constructor; [exact Hxy|].
  specialize (IH y Hc). eapply Forall_impl; [|exact IH]. intros z. apply Htr, Hxy.
Qed.

(** Reversing a chain reverses its relation. *)
Lemma chain_rev {A} (R : A -> A -> Prop) l :
  chain R l -> chain (fun x y => R y x) (rev l).
Proof.
  induction l as [|x l IH]; [simpl; auto|].
  destruct l as [|y l']; [simpl; auto|].
  intros [Hxy Hc]. specialize (IH Hc).
  change (rev (x :: y :: l')) with (rev (y :: l') ++ [x]).
  change (rev (y :: l')) with (rev l' ++ [y]) in *.
  rewrite <- app_assoc. simpl. apply chain_app_single; assumption.
Qed.

(** ** Object lemmas *)

Lemma obj_get_set_eq {V} (k : string) (v : V) (o : jsobj V) :
  obj_get k (obj_set k v o) = Some v.
Proof.
  induction o as [|[k' v'] o IH]; simpl; [rewrite String.eqb_refl; reflexivity|].
  destruct (String.eqb_spec k k'); simpl; [rewrite String.eqb_refl; reflexivity|].
  destruct (String.eqb_spec k k'); [contradiction|exact IH].
Qed.

Lemma obj_get_set_ne {V} (k j : string) (v : V) (o : jsobj V) :
  j <> k -> obj_get j (obj_set k v o) = obj_get j o.
Proof.
  intros Hne. induction o as [|[k' v'] o IH]; simpl.
  - destruct (String.eqb_spec j k); [contradiction|reflexivity].
  - destruct (String.eqb_spec k k') as [<-|]; simpl.
    + destruct (String.eqb_spec j k); [contradiction|reflexivity].
    + destruct (String.eqb j k'); [reflexivity|exact IH].
Qed.

Lemma obj_get_del_eq {V} (k : string) (o : jsobj V) : obj_get k (obj_del k o) = None.
Proof.
  induction o as [|[k' v'] o IH]; simpl; [reflexivity|].
  destruct (String.eqb_spec k k'); simpl; [exact IH|].
  destruct (String.eqb_spec k k'); [contradiction|exact IH].
Qed.

Lemma obj_get_del_ne {V} (k j : string) (o : jsobj V) :
  j <> k -> obj_get j (obj_del k o) = obj_get j o.
Proof.
  intros Hne. induction o as [|[k' v'] o IH]; simpl; [reflexivity|].
  destruct (String.eqb_spec k k') as [<-|]; simpl.
  - destruct (String.eqb_spec j k); [contradiction|exact IH].
  - destruct (String.eqb j k'); [reflexivity|exact IH].
Qed.

Lemma obj_keys_set {V} (k : string) (v : V) (o : jsobj V) :
  forall j, In j (map fst (obj_set k v o)) <-> j = k \/ In j (map fst o).
Proof.
  induction o as [|[k' v'] o IH]; intros j; simpl; [intuition congruence|].
  destruct (String.eqb_spec k k') as [<-|]; simpl; [intuition congruence|].
  rewrite IH. intuition congruence.
Qed.

Lemma obj_wf_set {V} (k : string) (v : V) (o : jsobj V) :
  obj_wf o -> obj_wf (obj_set k v o).
Proof.
  unfold obj_wf. induction o as [|[k' v'] o IH]; simpl; intros Hnd.
  - constructor; [intros []|constructor].
  - inversion Hnd as [|? ? Hnin Hnd']; subst.
    destruct (String.eqb_spec k k') as [<-|]; simpl; [constructor; assumption|].
    constructor; [|apply IH, Hnd'].
    rewrite obj_keys_set. intros [->|]; [congruence|contradiction].
Qed.

Lemma obj_keys_del {V} (k : string) (o : jsobj V) :
  forall j, In j (map fst (obj_del k o)) -> In j (map fst o).
Proof.
  induction o as [|[k' v'] o IH]; intros j; simpl; [tauto|].
  destruct (String.eqb k k'); simpl; [intros; right; auto|].
  intros [|]; [left; assumption|right; auto].
Qed.

Lemma obj_wf_del {V} (k : string) (o : jsobj V) : obj_wf o -> obj_wf (obj_del k o).
Proof.
  unfold obj_wf. induction o as [|[k' v'] o IH]; simpl; intros Hnd; [constructor|].
  inversion Hnd as [|? ? Hnin Hnd']; subst.
  destruct (String.eqb k k'); simpl; [apply IH, Hnd'|].
  constructor; [|apply IH, Hnd']. intros Hin. apply Hnin, (obj_keys_del k), Hin.
Qed.

Lemma obj_wf_spread {V} (base over : jsobj V) : obj_wf base -> obj_wf (obj_spread base over).
Proof.
  unfold obj_spread. intros Hb. apply fold_left_invariant; [|exact Hb].
  intros acc kv _ H. apply obj_wf_set, H.
Qed.

#[export] Hint Resolve obj_wf_set obj_wf_del obj_wf_spread : chart.
