(* ===== verification/Resolution.v ===== *)
(** * The resolution table

    [type.ts] ResolutionToSeconds (lines 47-56) maps a chart resolution label
    to its bucket width in seconds; [datafeed.ts] declares the resolutions it
    advertises (line 49) and derives the upstream interval string from the
    label in getBars (line 163); [TVChart.tsx] derives it in fetchChartData
    for both feeds (lines 56 and 103).  The table is a JavaScript object, so
    a label outside it reads as [undefined]: [None] here. *)

From Stdlib Require Import ZArith List Lia String Bool.
From S2P Require Import Prelude.
Import ListNotations.
Open Scope string_scope.

Module Resolution.

(** The labels of the table, as the spec's ResolutionSpec. *)
Inductive res := R1 | R5 | R15 | R60 | R240 | R1D | R1W | R1M.

Definition res_label (r : res) : string :=
  match r with
  | R1 => "1" | R5 => "5" | R15 => "15" | R60 => "60" | R240 => "240"
  | R1D => "1D" | R1W => "1W" | R1M => "1M"
  end.

Definition res_seconds (r : res) : Z :=
  match r with
  | R1 => 60 | R5 => 5 * 60 | R15 => 15 * 60 | R60 => 60 * 60
  | R240 => 60 * 60 * 4 | R1D => 60 * 60 * 24
  | R1W => 60 * 60 * 24 * 7 | R1M => 60 * 60 * 24 * 30
  end%Z.

Definition all_res : list res := [R1; R5; R15; R60; R240; R1D; R1W; R1M].

(** Property lookup on the object literal: the numeric keys 1, 5, 15, 60
    and 240 are the strings "1", "5", ... *)
Definition res_of_label (s : string) : option res :=
  find (fun r => String.eqb (res_label r) s) all_res.

Definition ResolutionToSeconds (s : string) : option Z :=
  option_map res_seconds (res_of_label s).

(** [DataFeed.configurationData.supported_resolutions]. *)
Definition supported_resolutions : list string := ["1"; "5"; "15"].

(** [Array.prototype.includes] on strings. *)
Definition includes (l : list string) (s : string) : bool :=
  existsb (String.eqb s) l.

(** getBars: [supported_resolutions.includes(resolution) ? `${resolution}m` : '5m']. *)
Definition getBars_frame (resolution : string) : string :=
  if includes supported_resolutions resolution then resolution ++ "m" else "5m".

(** fetchChartData, kline feed: [ResolutionToSeconds[resolution] ? `${resolution}m` : '5m']
    (every width of the table is non-zero, so truthy). *)
Definition kline_frame (resolution : string) : string :=
  match ResolutionToSeconds resolution with
  | Some u => if (u =? 0)%Z then "5m" else resolution ++ "m"
  | None => "5m"
  end.

(** fetchChartData, birdeye feed:
    [timeUnit >= ResolutionToSeconds['1D'] ? resolution
       : timeUnit <= ResolutionToSeconds['15'] ? `${resolution}m` : '15m'];
    comparisons with [undefined] are false. *)
Definition birdeye_frame (resolution : string) : string :=
  match ResolutionToSeconds resolution with
  | Some u =>
      if (res_seconds R1D <=? u)%Z then resolution
      else if (u <=? res_seconds R15)%Z then resolution ++ "m"
      else "15m"
  | None => "15m"
  end.

(** ** Lemmas *)

Lemma res_label_inj (r1 r2 : res) : res_label r1 = res_label r2 -> r1 = r2.
Proof. destruct r1, r2; simpl; congruence. Qed.

Lemma res_of_label_sound (s : string) (r : res) :
  res_of_label s = Some r -> res_label r = s.
Proof.
  unfold res_of_label. intros H. apply find_some in H as [_ H].
  apply String.eqb_eq, H.
Qed.

Lemma res_seconds_pos (r : res) : (0 < res_seconds r)%Z.
Proof. destruct r; simpl; lia. Qed.

Lemma res_seconds_minutes (r : res) : (res_seconds r mod 60 = 0)%Z.
Proof. destruct r; reflexivity. Qed.

Lemma ResolutionToSeconds_some (s : string) (u : Z) :
  ResolutionToSeconds s = Some u -> exists r, res_of_label s = Some r /\ u = res_seconds r.
Proof.
  unfold ResolutionToSeconds. destruct (res_of_label s) as [r|]; simpl; [|discriminate].
  intros [= <-]. eauto.
Qed.

Lemma ResolutionToSeconds_pos (s : string) (u : Z) :
  ResolutionToSeconds s = Some u -> (0 < u)%Z.
Proof. intros (r & _ & ->)%ResolutionToSeconds_some. apply res_seconds_pos. Qed.

#[export] Hint Resolve res_seconds_pos : chart.

(** ** Properties *)

(** Every width the table gives is a positive whole number of
    minutes, so bucket starts are whole minutes. *)
Theorem ResolutionToSeconds_minutes (s : string) (u : Z) :
  ResolutionToSeconds s = Some u -> (0 < u /\ u mod 60 = 0)%Z.
Proof.
  intros H. split; [exact (ResolutionToSeconds_pos s u H)|].
  destruct (ResolutionToSeconds_some s u H) as (r & _ & ->). apply res_seconds_minutes.
Qed.

(** The two fetch paths of the program disagree on the upstream interval
    for the same label: getBars asks for 5-minute klines at resolution 60
    and 1D, fetchChartData asks for the intervals "60m" and "1Dm". *)
Lemma frames_disagree :
  getBars_frame "60" = "5m" /\ kline_frame "60" = "60m" /\
  getBars_frame "1D" = "5m" /\ kline_frame "1D" = "1Dm".
Proof. repeat split; reflexivity. Qed.

(** ** Witnesses *)

Lemma ResolutionToSeconds_minutes_witness :
  ResolutionToSeconds "240" = Some 14400%Z /\ (0 < 14400 /\ 14400 mod 60 = 0)%Z.
Proof.
  split; [reflexivity|]. exact (ResolutionToSeconds_minutes "240" 14400 eq_refl).
Defined.

End Resolution.
