(* ===== verification/Bars.v ===== *)
(** * Bars and raw rows

    The records the bucketer reads and writes: [LightweightBar]
    (datafeed.ts 31-38, TVChart.tsx 33-40), the kline row [TradeData]
    (datafeed.ts 13-23) and the birdeye OHLCV item that fetchChartData reads
    (TVChart.tsx 69-96: [unixTime, o, h, l, c, vQuote]); the bucket
    arithmetic [Math.floor(t / timeUnit) * timeUnit] and its conversion to
    milliseconds; and the well-formedness of a bar,
    [low <= open, close <= high], with its boolean decision procedure. *)

From Stdlib Require Import ZArith QArith Qminmax List Lia Lqa String Bool.
From S2P Require Import Prelude.
Import ListNotations.

(** [LightweightBar]: [time] is a JavaScript number (NaN when the
    resolution is not in the table), [volume] is optional. *)
Record LightweightBar := mkBar {
  time : jstime;
  open : Q;
  high : Q;
  low : Q;
  close : Q;
  volume : option Q
}.

(** The kline row of the history host ([interface TradeData]). *)
Module TradeData.
Record TradeData := mkTradeData {
  c : Q; h : Q; l : Q; o : Q;
  poolId : string;
  t : Z;
  vA : Q; vB : Q; vU : Q
}.
End TradeData.

(** The birdeye OHLCV item; [vQuote] may be missing. *)
Module BirdeyeItem.
Record BirdeyeItem := mkBirdeyeItem {
  unixTime : Z;
  o : Q; h : Q; l : Q; c : Q;
  vQuote : option Q
}.
End BirdeyeItem.

(** [Math.floor(t / timeUnit) * timeUnit], with [timeUnit] read from the
    resolution table ([None] is [undefined], which makes it NaN). *)
Definition barTime (t : Z) (timeUnit : option Z) : jstime :=
  match timeUnit with
  | Some u => Some (floor_mul t u)
  | None => NaN
  end.

(** [barTime * 1000]. *)
Definition ms (x : jstime) : jstime := option_map (fun z => (z * 1000)%Z) x.

(** [Math.min(a, b, c, d)] and [Math.max(a, b, c, d)]. *)
Definition Qmin4 (a b c d : Q) : Q := Qmin (Qmin (Qmin a b) c) d.
Definition Qmax4 (a b c d : Q) : Q := Qmax (Qmax (Qmax a b) c) d.

(** ** Well-formedness *)

Definition bar_wf (b : LightweightBar) : Prop :=
  (low b <= open b <= high b /\ low b <= close b <= high b)%Q.

Definition bar_wfb (b : LightweightBar) : bool :=
  Qle_bool (low b) (open b) && Qle_bool (open b) (high b) &&
  Qle_bool (low b) (close b) && Qle_bool (close b) (high b).

(** A kline row is well formed when its low and high bound its open and
    close. *)
Definition row_wf (r : TradeData.TradeData) : Prop :=
  (TradeData.l r <= TradeData.o r <= TradeData.h r /\
   TradeData.l r <= TradeData.c r <= TradeData.h r)%Q.

Definition item_wf (r : BirdeyeItem.BirdeyeItem) : Prop :=
  (BirdeyeItem.l r <= BirdeyeItem.o r <= BirdeyeItem.h r /\
   BirdeyeItem.l r <= BirdeyeItem.c r <= BirdeyeItem.h r)%Q.

Definition row_wfb (r : TradeData.TradeData) : bool :=
  Qle_bool (TradeData.l r) (TradeData.o r) && Qle_bool (TradeData.o r) (TradeData.h r) &&
  Qle_bool (TradeData.l r) (TradeData.c r) && Qle_bool (TradeData.c r) (TradeData.h r).

Definition item_wfb (r : BirdeyeItem.BirdeyeItem) : bool :=
  Qle_bool (BirdeyeItem.l r) (BirdeyeItem.o r) && Qle_bool (BirdeyeItem.o r) (BirdeyeItem.h r) &&
  Qle_bool (BirdeyeItem.l r) (BirdeyeItem.c r) && Qle_bool (BirdeyeItem.c r) (BirdeyeItem.h r).

(** ** Lemmas *)

Lemma bar_wfb_spec (b : LightweightBar) : bar_wfb b = true <-> bar_wf b.
Proof.
  unfold bar_wfb, bar_wf.
  rewrite !andb_true_iff, !Qle_bool_iff. tauto.
Qed.

Lemma row_wfb_spec (r : TradeData.TradeData) : row_wfb r = true <-> row_wf r.
Proof.
  unfold row_wfb, row_wf.
  rewrite !andb_true_iff, !Qle_bool_iff. tauto.
Qed.

Lemma item_wfb_spec (r : BirdeyeItem.BirdeyeItem) : item_wfb r = true <-> item_wf r.
Proof.
  unfold item_wfb, item_wf.
  rewrite !andb_true_iff, !Qle_bool_iff. tauto.
Qed.

(** A list of values all satisfying a decided predicate. *)
Lemma forallb_Forall_iff {A} (P : A -> Prop) (p : A -> bool) (l : list A) :
  (forall x, p x = true <-> P x) -> forallb p l = true <-> Forall P l.
Proof.
  intros Hp. rewrite forallb_forall, Forall_forall.
  split; intros H x Hx; apply Hp, H, Hx.
Qed.

Lemma ms_barTime_some (t u : Z) :
  ms (barTime t (Some u)) = Some (floor_mul t u * 1000)%Z.
Proof. reflexivity. Qed.

Lemma Qmin4_le (a b c d : Q) :
  (Qmin4 a b c d <= a /\ Qmin4 a b c d <= b /\
   Qmin4 a b c d <= c /\ Qmin4 a b c d <= d)%Q.
Proof. unfold Qmin4. repeat split; qminmax. Qed.

Lemma Qmax4_ge (a b c d : Q) :
  (a <= Qmax4 a b c d /\ b <= Qmax4 a b c d /\
   c <= Qmax4 a b c d /\ d <= Qmax4 a b c d)%Q.
Proof. unfold Qmax4. repeat split; qminmax. Qed.

(** A bar time computed from a known positive width is a whole number of
    buckets, in milliseconds. *)
Lemma ms_barTime_aligned (t u : Z) :
  (0 < u)%Z ->
  exists z, ms (barTime t (Some u)) = Some z /\ (z mod (u * 1000) = 0)%Z.
Proof.
  intros Hu. eexists. split; [reflexivity|].
  unfold floor_mul. rewrite <- Z.mul_assoc. apply Z.mod_mul. lia.
Qed.

(** Two times land in the same bucket iff their floors agree; a time is at
    or after its bucket start and before the next one. *)
Lemma barTime_bounds (t u : Z) :
  (0 < u)%Z ->
  exists z, barTime t (Some u) = Some z /\ (z <= t < z + u)%Z.
Proof.
  intros Hu. exists (floor_mul t u). split; [reflexivity|].
  split; [apply floor_mul_le | apply floor_mul_gt]; assumption.
Qed.

(** Flooring to milliseconds is monotone in the time. *)
Lemma ms_barTime_mono (t1 t2 u : Z) :
  (0 < u)%Z -> (t1 <= t2)%Z ->
  js_lt (ms (barTime t2 (Some u))) (ms (barTime t1 (Some u))) = false.
Proof.
  intros Hu Ht. simpl. apply Z.ltb_ge.
  pose proof (floor_mul_mono t1 t2 u Hu Ht). lia.
Qed.

#[export] Hint Resolve Qmin4_le Qmax4_ge : chart.
