(* ===== verification/Bucketer.v ===== *)
(** * The bar bucketer

    The [rows.forEach] accumulator loops that fold upstream rows into bars:
    - the kline loop of DataFeed.getBars (datafeed.ts 176-217), repeated
      verbatim in fetchChartData's kline branch (TVChart.tsx 112-139);
    - the birdeye loop of fetchChartData (TVChart.tsx 66-98), which also
      filters rows to [from <= unixTime < to], scales prices by a
      multiplier and sums volumes;
    - the one-bar clamp of getBars (datafeed.ts 218-221).

    Both loops keep one [currentBar]; a row whose bucket compares to the
    open bar in the loop's direction pushes the open bar and opens a new
    one, any other row is folded into the open bar.  Section [Accumulate]
    states that loop once, over the variant's guard, key, closing test,
    opening and folding functions; [kline_bars] and [birdeye_bars] are its
    two instances.  Section [AccumulateFacts] proves the loop's invariants
    once (the chain of bar times, properties kept by opening and folding,
    the provenance of bar times); modules [Kline] and [Birdeye] hold the
    properties of the two variants.  [kline_ref] is the reference
    specification of the kline variant on input in the feed's native
    (newest-first) order: one bar per maximal run of rows of one bucket. *)

From Stdlib Require Import ZArith QArith Qminmax List Lia Lqa Bool.
From Stdlib Require Import String.
From Equations Require Import Equations.
From S2P Require Import Prelude Bars Resolution.
Import ListNotations.
Open Scope list_scope.

(** The loop state: the bars pushed so far and the open bar. *)
Record acc := mkAcc {
  bars : list LightweightBar;
  currentBar : option LightweightBar
}.

Definition acc_list (a : acc) : list LightweightBar :=
  bars a ++ opt_list (currentBar a).

Module Accumulate.
Section Accumulate.

Context {Row : Type}.
(** The guard of the loop body (the birdeye time-range test). *)
Variable keep : Row -> bool.
(** The row's bar time, [barTime * 1000]. *)
Variable key : Row -> jstime.
(** [closes k t]: the row's time [k] against the open bar's time [t]
    ([<] for klines, [>] for birdeye). *)
Variable closes : jstime -> jstime -> bool.
Variable open_bar : Row -> LightweightBar.
Variable fold_bar : LightweightBar -> Row -> LightweightBar.

(** One iteration of the [forEach] body. *)
Definition step (a : acc) (r : Row) : acc :=
  if keep r then
    let a' :=
      match currentBar a with
      | Some cb =>
          if closes (key r) (time cb) then mkAcc (bars a ++ [cb]) None else a
      | None => a
      end in
    match currentBar a' with
    | None => mkAcc (bars a') (Some (open_bar r))
    | Some cb => mkAcc (bars a') (Some (fold_bar cb r))
    end
  else a.

(** The loop, then [if (currentBar) bars.push(currentBar)]. *)
Definition run (rows : list Row) : list LightweightBar :=
  acc_list (fold_left step rows (mkAcc [] None)).

End Accumulate.
End Accumulate.

(** ** The kline variant (DataFeed.getBars) *)

(** A new bar (datafeed.ts 199-207): the low and high are the extremes of
    all four prices of the row, the open and close are the row's. *)
Definition kline_open (timeUnit : option Z) (bar : TradeData.TradeData)
  : LightweightBar :=
  {| time := ms (barTime (TradeData.t bar) timeUnit);
     low := Qmin4 (TradeData.o bar) (TradeData.l bar) (TradeData.h bar) (TradeData.c bar);
     high := Qmax4 (TradeData.o bar) (TradeData.l bar) (TradeData.h bar) (TradeData.c bar);
     open := TradeData.o bar;
     close := TradeData.c bar;
     volume := None |}.

(** Folding a row into the open bar (datafeed.ts 209-214): only the row's
    low and high enter the extremes. *)
Definition kline_fold (currentBar : LightweightBar) (bar : TradeData.TradeData)
  : LightweightBar :=
  {| time := time currentBar;
     open := open currentBar;
     volume := volume currentBar;
     close := TradeData.c bar;
     low := Qmin (TradeData.l bar) (low currentBar);
     high := Qmax (TradeData.h bar) (high currentBar) |}.

(** The loop of datafeed.ts 176-217: [barTime * 1000 < currentBar.time]
    closes the open bar. *)
Definition kline_bars (timeUnit : option Z) (rows : list TradeData.TradeData)
  : list LightweightBar :=
  Accumulate.run (fun _ => true)
    (fun bar => ms (barTime (TradeData.t bar) timeUnit))
    js_lt (kline_open timeUnit) kline_fold rows.

(** The one-bar clamp (datafeed.ts 218-221). *)
Definition clamp_single (initPoolPriceDecimal : Q) (bars : list LightweightBar)
  : list LightweightBar :=
  match bars with
  | [b] => [{| time := time b; open := Qmin initPoolPriceDecimal (open b);
               high := high b; low := Qmin initPoolPriceDecimal (low b);
               close := close b; volume := volume b |}]
  | _ => bars
  end.

(** ** Reference specification of the kline variant *)

Definition bucket_of (u : Z) (r : TradeData.TradeData) : Z :=
  floor_mul (TradeData.t r) u.

(** The longest prefix of rows in bucket [k], and the rest. *)
Fixpoint span_bucket (u k : Z) (rows : list TradeData.TradeData)
  : list TradeData.TradeData * list TradeData.TradeData :=
  match rows with
  | [] => ([], [])
  | r :: rs =>
      if (bucket_of u r =? k)%Z
      then let '(g, rest) := span_bucket u k rs in (r :: g, rest)
      else ([], rows)
  end.

(** One bar per maximal run of one bucket: opened by the run's first row,
    the others folded in. *)
Equations? kline_ref (u : Z) (rows : list TradeData.TradeData)
  : list LightweightBar by wf (List.length rows) lt :=
  kline_ref u [] := [];
  kline_ref u (r :: rs) :=
    fold_left kline_fold (fst (span_bucket u (bucket_of u r) rs))
              (kline_open (Some u) r)
    :: kline_ref u (snd (span_bucket u (bucket_of u r) rs)).
Proof.
  simpl. apply Nat.lt_succ_r. clear kline_ref.
  generalize (bucket_of u r) as k. induction rs as [|x rs IH]; intros k;
    simpl; [lia|].
  destruct (bucket_of u x =? k)%Z; simpl; [|lia].
  specialize (IH k). destruct (span_bucket u k rs); simpl in *; lia.
Defined.

(** ** The birdeye variant (fetchChartData) *)

(** [bar.unixTime >= from && bar.unixTime < to] *)
Definition in_range (from to_ : Z) (bar : BirdeyeItem.BirdeyeItem) : bool :=
  (from <=? BirdeyeItem.unixTime bar)%Z && (BirdeyeItem.unixTime bar <? to_)%Z.

(** A new bar (TVChart.tsx 78-87): prices scaled by the multiplier, the
    volume is the row's [vQuote]. *)
Definition birdeye_open (timeUnit : option Z) (multiplier : Q)
  (bar : BirdeyeItem.BirdeyeItem) : LightweightBar :=
  {| time := ms (barTime (BirdeyeItem.unixTime bar) timeUnit);
     low := BirdeyeItem.l bar * multiplier;
     high := BirdeyeItem.h bar * multiplier;
     open := BirdeyeItem.o bar * multiplier;
     close := BirdeyeItem.c bar * multiplier;
     volume := BirdeyeItem.vQuote bar |}%Q.

(** Folding (TVChart.tsx 89-95):
    [volume: (currentBar.volume || 0) + (bar.vQuote || 0)]. *)
Definition birdeye_fold (multiplier : Q) (currentBar : LightweightBar)
  (bar : BirdeyeItem.BirdeyeItem) : LightweightBar :=
  {| time := time currentBar;
     open := open currentBar;
     volume := Some (or0 (volume currentBar) + or0 (BirdeyeItem.vQuote bar));
     close := BirdeyeItem.c bar * multiplier;
     low := Qmin (BirdeyeItem.l bar * multiplier) (low currentBar);
     high := Qmax (BirdeyeItem.h bar * multiplier) (high currentBar) |}%Q.

(** The loop of TVChart.tsx 66-98: [barTime * 1000 > currentBar.time]
    closes the open bar. *)
Definition birdeye_bars (from to_ : Z) (timeUnit : option Z) (multiplier : Q)
  (items : list BirdeyeItem.BirdeyeItem) : list LightweightBar :=
  Accumulate.run (in_range from to_)
    (fun bar => ms (barTime (BirdeyeItem.unixTime bar) timeUnit))
    js_gt (birdeye_open timeUnit multiplier) (birdeye_fold multiplier) items.

(** Total volume of a list of bars, missing volumes counting 0. *)
Definition total_volume (bs : list LightweightBar) : Q :=
  fold_right (fun b s => or0 (volume b) + s)%Q 0%Q bs.

Definition total_vQuote (items : list BirdeyeItem.BirdeyeItem) : Q :=
  fold_right (fun it s => or0 (BirdeyeItem.vQuote it) + s)%Q 0%Q items.

(** A kline row with only the fields the loop reads. *)
Definition kline_row (t : Z) (o h l c : Q) : TradeData.TradeData :=
  TradeData.mkTradeData c h l o "pool"%string t 0 0 0.

Definition birdeye_item (unixTime : Z) (o h l c : Q) (vQuote : Q)
  : BirdeyeItem.BirdeyeItem :=
  BirdeyeItem.mkBirdeyeItem unixTime o h l c (Some vQuote).

(** ** Facts about the accumulator loop *)

Section AccumulateFacts.

Context {Row : Type}.
Variable keep : Row -> bool.
Variable key : Row -> jstime.
Variable closes : jstime -> jstime -> bool.
Variable open_bar : Row -> LightweightBar.
Variable fold_bar : LightweightBar -> Row -> LightweightBar.

Abbreviation step := (Accumulate.step keep key closes open_bar fold_bar).
Abbreviation run := (Accumulate.run keep key closes open_bar fold_bar).

(** The three outcomes of an iteration that passes the guard: open the
    first bar, push the open bar and open a new one, fold into the open
    bar. *)
Lemma step_cases (a : acc) (r : Row) :
  step a r =
  if keep r then
    match currentBar a with
    | Some cb =>
        if closes (key r) (time cb)
        then mkAcc (bars a ++ [cb]) (Some (open_bar r))
        else mkAcc (bars a) (Some (fold_bar cb r))
    | None => mkAcc (bars a) (Some (open_bar r))
    end
  else a.
Proof.
  unfold Accumulate.step. destruct (keep r); [|reflexivity].
  destruct (currentBar a) as [cb|] eqn:E; [destruct (closes (key r) (time cb))|];
    simpl; rewrite ?E; reflexivity.
Qed.

(** An open bar always exists once a bar has been pushed. *)
Lemma fold_open (rows : list Row) :
  currentBar (fold_left step rows (mkAcc [] None)) = None ->
  bars (fold_left step rows (mkAcc [] None)) = [].
Proof.
  apply fold_left_invariant with (P := fun a => currentBar a = None -> bars a = []); [|reflexivity].
  intros a r _ Ha. rewrite step_cases.
  destruct (keep r); [destruct (currentBar a); [destruct (closes _ _)|]; discriminate|exact Ha].
Qed.

(** One more row that passes the guard: it either closes the open bar
    and opens its own, or is folded into the open bar. *)
Lemma run_snoc (rows : list Row) (r : Row) (bs : list LightweightBar) (cb : LightweightBar) :
  run rows = bs ++ [cb] -> keep r = true ->
  run (rows ++ [r]) =
  if closes (key r) (time cb) then bs ++ [cb; open_bar r] else bs ++ [fold_bar cb r].
Proof.
  unfold Accumulate.run. rewrite fold_left_app. cbn [fold_left].
  pose proof (fold_open rows) as Hopen.
  destruct (fold_left step rows (mkAcc [] None)) as [bs0 [cb0|]]; unfold acc_list; cbn in *;
    intros Hrun Hk.
  - apply app_inj_tail in Hrun as [-> ->]. rewrite step_cases. cbn. rewrite Hk.
    destruct (closes (key r) (time cb)); cbn; [rewrite <- app_assoc|]; reflexivity.
  - rewrite Hopen, app_nil_r in Hrun by reflexivity. apply app_cons_not_nil in Hrun as [].
Qed.

Hypothesis open_time : forall r, time (open_bar r) = key r.
Hypothesis fold_time : forall cb r, time (fold_bar cb r) = time cb.

(** Consecutive bars are related by the closing test. *)
Definition closes_rel (x y : LightweightBar) : Prop :=
  closes (time y) (time x) = true.

Definition chain_inv (a : acc) : Prop :=
  (currentBar a = None -> bars a = []) /\ chain closes_rel (acc_list a).

Lemma step_chain_inv (a : acc) (r : Row) :
  chain_inv a -> chain_inv (step a r).
Proof.
  rewrite step_cases. unfold chain_inv, acc_list. intros [Hnone Hc].
  destruct (keep r); [|split; assumption].
  destruct (currentBar a) as [cb|]; simpl in *.
  - destruct (closes (key r) (time cb)) eqn:Ecl; simpl;
      (split; [discriminate|]).
    + rewrite <- app_assoc. apply chain_app_single; [assumption|].
      unfold closes_rel. rewrite open_time. exact Ecl.
    + apply (chain_replace_last _ _ cb); [assumption|].
      intros z. unfold closes_rel. rewrite fold_time. tauto.
  - rewrite Hnone by reflexivity. split; [discriminate|exact I].
Qed.

Lemma run_chain (rows : list Row) : chain closes_rel (run rows).
Proof.
  unfold Accumulate.run.
  enough (H : chain_inv (fold_left step rows (mkAcc [] None))) by apply H.
  apply fold_left_invariant.
  - intros s x _. apply step_chain_inv.
  - split; simpl; auto.
Qed.

(** Any property that every opened bar has and that folding keeps holds of
    every output bar. *)
Lemma run_forall (P : LightweightBar -> Prop) (rows : list Row) :
  (forall r, In r rows -> keep r = true -> P (open_bar r)) ->
  (forall cb r, In r rows -> keep r = true -> P cb -> P (fold_bar cb r)) ->
  Forall P (run rows).
Proof.
  intros Hopen Hfold. unfold Accumulate.run.
  apply fold_left_invariant with (P := fun a => Forall P (acc_list a)).
  - intros a r Hin. rewrite step_cases. unfold acc_list.
    destruct (keep r) eqn:Hk; [|tauto].
    rewrite !Forall_app.
    destruct (currentBar a) as [cb|]; simpl; intros [H1 H2].
    + destruct (closes (key r) (time cb)); simpl; rewrite ?Forall_app;
        inversion H2; subst; repeat split; auto.
    + split; auto.
  - constructor.
Qed.

(** Every bar time is the key of a row that passed the guard. *)
Lemma run_times (rows : list Row) :
  Forall (fun b => exists r, In r rows /\ keep r = true /\ time b = key r)
         (run rows).
Proof.
  apply run_forall.
  - intros r Hin Hk. exists r. rewrite open_time. auto.
  - intros cb r _ _ [r' Hr']. exists r'. rewrite fold_time. exact Hr'.
Qed.

(** When the closing test never fires for any row's key, the loop makes at
    most one bar. *)
Lemma run_single (rows : list Row) :
  (forall r t, closes (key r) t = false) -> (List.length (run rows) <= 1)%nat.
Proof.
  intros Hnever. unfold Accumulate.run.
  assert (Hb : bars (fold_left step rows (mkAcc [] None)) = []).
  { apply fold_left_invariant with (P := fun a => bars a = []); [|reflexivity].
    intros a r _ Ha. rewrite step_cases.
    destruct (keep r); [|exact Ha].
    destruct (currentBar a) as [cb|]; simpl; [rewrite Hnever|]; exact Ha. }
  unfold acc_list. rewrite Hb. destruct (currentBar _); simpl; lia.
Qed.

End AccumulateFacts.

(** ** The kline variant *)

Module Kline.

Import Resolution.

Abbreviation kstep u :=
  (Accumulate.step (fun _ => true)
     (fun bar => ms (barTime (TradeData.t bar) (Some u)))
     js_lt (kline_open (Some u)) kline_fold).

(** Opening a bar from any row gives a well-formed bar: its extremes are
    the extremes of all four prices. *)
Lemma kline_open_wf (tu : option Z) (r : TradeData.TradeData) :
  bar_wf (kline_open tu r).
Proof.
  unfold bar_wf, kline_open; simpl.
  destruct (Qmin4_le (TradeData.o r) (TradeData.l r) (TradeData.h r) (TradeData.c r))
    as (? & ? & ? & ?).
  destruct (Qmax4_ge (TradeData.o r) (TradeData.l r) (TradeData.h r) (TradeData.c r))
    as (? & ? & ? & ?).
  repeat split; assumption.
Qed.

(** Folding a well-formed row into a well-formed bar keeps it well formed. *)
Lemma kline_fold_wf (cb : LightweightBar) (r : TradeData.TradeData) :
  bar_wf cb -> row_wf r -> bar_wf (kline_fold cb r).
Proof.
  unfold bar_wf, row_wf, kline_fold; simpl. intros Hb Hr.
  repeat split; qminmax.
Qed.

Lemma kline_bars_cons_first (tu : option Z) (r : TradeData.TradeData) rows :
  kline_bars tu (r :: rows) =
  acc_list (fold_left (Accumulate.step (fun _ => true)
                         (fun bar => ms (barTime (TradeData.t bar) tu))
                         js_lt (kline_open tu) kline_fold)
              rows (mkAcc [] (Some (kline_open tu r)))).
Proof. reflexivity. Qed.

Lemma span_bucket_cons (u k : Z) (r : TradeData.TradeData) rs :
  span_bucket u k (r :: rs) =
  if (bucket_of u r =? k)%Z
  then let '(g, rest) := span_bucket u k rs in (r :: g, rest)
  else ([], r :: rs).
Proof. reflexivity. Qed.

(** Folding a run of rows of the open bar's bucket, then the rest of a
    newest-first input: the accumulator computes the reference. *)
Lemma kline_fold_run (u : Z) (Hu : (0 < u)%Z) (rows : list TradeData.TradeData) :
  forall bs cb k,
  time cb = Some (k * 1000)%Z ->
  Forall (fun r => bucket_of u r <= k)%Z rows ->
  chain (fun a b => TradeData.t b <= TradeData.t a)%Z rows ->
  acc_list (fold_left (kstep u) rows (mkAcc bs (Some cb))) =
  bs ++ fold_left kline_fold (fst (span_bucket u k rows)) cb
     :: kline_ref u (snd (span_bucket u k rows)).
Proof.
  induction rows as [|r rows IH]; intros bs cb k Hcb Hle Hsorted.
  - simpl. rewrite kline_ref_equation_1. reflexivity.
  - inversion Hle as [|? ? Hr Hle']; subst. cbn [fold_left].
    rewrite step_cases. cbn [currentBar bars]. rewrite Hcb, ms_barTime_some, js_lt_some.
    rewrite span_bucket_cons.
    pose proof (chain_cons_inv _ _ _ Hsorted) as Hsorted'.
    destruct (Z.eqb_spec (bucket_of u r) k) as [Heq|Hne].
    + replace (floor_mul (TradeData.t r) u * 1000 <? k * 1000)%Z with false
        by (symmetry; apply Z.ltb_ge; unfold bucket_of in Heq; lia).
      destruct (span_bucket u k rows) as [g rest] eqn:Esp. simpl.
      specialize (IH bs (kline_fold cb r) k Hcb Hle' Hsorted').
      rewrite Esp in IH. exact IH.
    + replace (floor_mul (TradeData.t r) u * 1000 <? k * 1000)%Z with true
        by (symmetry; apply Z.ltb_lt; unfold bucket_of in *; lia).
      cbn [fst snd fold_left]. rewrite kline_ref_equation_2.
      rewrite (IH (bs ++ [cb]) (kline_open (Some u) r) (bucket_of u r)).
      * rewrite <- app_assoc. reflexivity.
      * reflexivity.
      * apply chain_head_forall in Hsorted; [|intros; lia].
        eapply Forall_impl; [|exact Hsorted]. intros x Hx.
        apply floor_mul_mono; assumption.
      * exact Hsorted'.
Qed.

Lemma kline_chain (tu : option Z) (rows : list TradeData.TradeData) :
  chain (fun x y => js_lt (time y) (time x) = true) (kline_bars tu rows).
Proof. unfold kline_bars. apply run_chain; reflexivity. Qed.

Lemma kline_wf (tu : option Z) (rows : list TradeData.TradeData) :
  Forall row_wf rows -> Forall bar_wf (kline_bars tu rows).
Proof.
  intros Hrows. apply run_forall.
  - intros r _ _. apply kline_open_wf.
  - intros cb r Hin _ Hcb. apply kline_fold_wf; [exact Hcb|].
    rewrite Forall_forall in Hrows. auto.
Qed.

Lemma clamp_wf (initPoolPriceDecimal : Q) (bs : list LightweightBar) :
  Forall bar_wf bs -> Forall bar_wf (clamp_single initPoolPriceDecimal bs).
Proof.
  intros Hbs. destruct bs as [|b [|b' bs]]; try exact Hbs.
  inversion Hbs as [|? ? Hb _]; subst. constructor; [|constructor].
  unfold bar_wf in *; simpl. destruct Hb as [[? ?] [? ?]].
  repeat split; qminmax.
Qed.

(** Every bar time is the bucket of one of the rows. *)
Lemma kline_bars_times (tu : option Z) (rows : list TradeData.TradeData) :
  Forall (fun b => exists r, In r rows /\ time b = ms (barTime (TradeData.t r) tu))
         (kline_bars tu rows).
Proof.
  eapply Forall_impl; [|unfold kline_bars; apply run_times; reflexivity].
  intros b (r & Hin & _ & Ht). eauto.
Qed.

(** ** Properties *)

(** C2: When every kline row is well formed (its low and high bound its
    open and close), every bar getBars builds is well formed:
    low <= open <= high and low <= close <= high. *)
Theorem kline_bars_wf (tu : option Z) (rows : list TradeData.TradeData) :
  Forall row_wf rows -> Forall bar_wf (kline_bars tu rows).
Proof. apply kline_wf. Qed.

(** C3: Whatever the order of the rows, the bars of the kline loop have
    strictly decreasing times: a new bar is only opened for an earlier
    bucket, so no two bars share a bucket. *)
Theorem kline_bars_decreasing (tu : option Z) (rows : list TradeData.TradeData) :
  chain (fun x y => js_lt (time y) (time x) = true) (kline_bars tu rows).
Proof. apply kline_chain. Qed.

(** C16: For a resolution of the table with width u seconds, every bar time
    is a whole number of buckets in milliseconds, a multiple of u * 1000. *)
Theorem kline_bars_aligned (s : String.string) (u : Z) (rows : list TradeData.TradeData) :
  ResolutionToSeconds s = Some u ->
  Forall (fun b => exists z, time b = Some z /\ (z mod (u * 1000) = 0)%Z)
         (kline_bars (Some u) rows).
Proof.
  intros Hs. pose proof (ResolutionToSeconds_pos s u Hs) as Hu.
  eapply Forall_impl; [|apply kline_bars_times].
  intros b (r & _ & ->). apply ms_barTime_aligned, Hu.
Qed.

(** C17: For a resolution missing from the table, [t / undefined] is NaN,
    no comparison closes a bar, and the whole page collapses into at most
    one bar whose time is NaN. *)
Theorem kline_bars_unknown_resolution (s : String.string) (rows : list TradeData.TradeData) :
  ResolutionToSeconds s = None ->
  (List.length (kline_bars (ResolutionToSeconds s) rows) <= 1)%nat /\
  Forall (fun b => time b = NaN) (kline_bars (ResolutionToSeconds s) rows).
Proof.
  intros ->. split.
  - apply run_single. reflexivity.
  - eapply Forall_impl; [|apply kline_bars_times].
    intros b (r & _ & ->). reflexivity.
Qed.

(** C1: On rows in the feed's native newest-first order the single-pass
    accumulator computes the reference specification: one bar per maximal
    run of rows in one bucket, opened by the run's first row with the others
    folded in. *)
Theorem kline_bars_refines (s : String.string) (u : Z) (rows : list TradeData.TradeData) :
  ResolutionToSeconds s = Some u ->
  chain (fun a b => TradeData.t b <= TradeData.t a)%Z rows ->
  kline_bars (Some u) rows = kline_ref u rows.
Proof.
  intros Hs Hsorted. pose proof (ResolutionToSeconds_pos s u Hs) as Hu.
  destruct rows as [|r rows]; [reflexivity|].
  rewrite kline_bars_cons_first, kline_ref_equation_2.
  apply (kline_fold_run u Hu rows [] _ (bucket_of u r)); [reflexivity| |].
  - apply chain_head_forall in Hsorted; [|intros; lia].
    eapply Forall_impl; [|exact Hsorted]. intros x Hx.
    apply floor_mul_mono; assumption.
  - exact (chain_cons_inv _ _ _ Hsorted).
Qed.

(** The spec's kline scenario: rows arriving newest first at t = 120
    and t = 60 with a 60-second width make two bars, one per bucket. *)
Example kline_two_buckets :
  map time (kline_bars (ResolutionToSeconds "1")
              [kline_row 120 1 2 1 2; kline_row 60 2 3 1 1]) =
  [Some 120000%Z; Some 60000%Z].
Proof. vm_compute. reflexivity. Qed.

(** C18: The kline loop only closes a bar on an earlier bucket: whatever
    rows came before, a further row whose bucket is not earlier than the
    open bar's (a row out of the feed's newest-first order) is folded into
    the open bar, which keeps its time: that row's bucket gets no bar of
    its own. *)
Theorem kline_out_of_order_merges (tu : option Z) (rows : list TradeData.TradeData)
  (r : TradeData.TradeData) (bs : list LightweightBar) (cb : LightweightBar) (x y : Z) :
  kline_bars tu rows = bs ++ [cb] -> time cb = Some x ->
  ms (barTime (TradeData.t r) tu) = Some y -> (x <= y)%Z ->
  kline_bars tu (rows ++ [r]) = bs ++ [kline_fold cb r] /\ time (kline_fold cb r) = Some x.
Proof.
  intros Hrun Hx Hy Hle. split; [|exact Hx]. unfold kline_bars.
  rewrite (run_snoc _ _ _ _ _ _ _ _ _ Hrun eq_refl), Hx, Hy. cbn.
  destruct (Z.ltb_spec y x); [lia|reflexivity].
Qed.

(** Folding uses only the row's low and high for the extremes, so a
    row whose close lies below its low yields a bar with close < low: the
    well-formedness of C1 needs well-formed rows. *)
Theorem kline_malformed_row_breaks_wf :
  let rows := [kline_row 60 1 2 1 1; kline_row 70 1 2 1 0] in
  ~ Forall bar_wf (kline_bars (ResolutionToSeconds "1") rows).
Proof.
  intros rows Hwf.
  apply (forallb_Forall_iff bar_wf bar_wfb) in Hwf; [|apply bar_wfb_spec].
  vm_compute in Hwf. discriminate Hwf.
Qed.

(** The one-bar clamp lowers open and low to the initial pool price
    when the page has a single bar, and keeps every bar well formed,
    whatever that price. *)
Theorem clamp_single_wf (initPoolPriceDecimal : Q) (bs : list LightweightBar) :
  Forall bar_wf bs -> Forall bar_wf (clamp_single initPoolPriceDecimal bs).
Proof. apply clamp_wf. Qed.

(** A non-empty page makes at least one bar, so [bars[0]] exists. *)
Lemma kline_bars_nonempty (tu : option Z) (r : TradeData.TradeData) rows :
  kline_bars tu (r :: rows) <> [].
Proof.
  rewrite kline_bars_cons_first.
  assert (H : currentBar (fold_left (Accumulate.step (fun _ => true)
                         (fun bar => ms (barTime (TradeData.t bar) tu))
                         js_lt (kline_open tu) kline_fold)
              rows (mkAcc [] (Some (kline_open tu r)))) <> None).
  { apply fold_left_invariant; [|discriminate].
    intros a x _ _. rewrite step_cases.
    destruct (currentBar a); [destruct (js_lt _ _)|]; discriminate. }
  unfold acc_list. destruct (currentBar _); [|congruence].
  intros Happ. apply app_eq_nil in Happ. destruct Happ; discriminate.
Qed.

(** ** Witnesses *)

Lemma kline_bars_wf_witness :
  Forall row_wf [kline_row 130 1 2 0.5 1.5; kline_row 125 1.5 1.8 1 1.2; kline_row 60 2 3 1 2] /\
  Forall bar_wf (kline_bars (Some 60%Z)
    [kline_row 130 1 2 0.5 1.5; kline_row 125 1.5 1.8 1 1.2; kline_row 60 2 3 1 2]).
Proof.
  assert (H : Forall row_wf [kline_row 130 1 2 0.5 1.5; kline_row 125 1.5 1.8 1 1.2;
                             kline_row 60 2 3 1 2]).
  { apply (forallb_Forall_iff _ row_wfb); [apply row_wfb_spec | vm_compute; reflexivity]. }
  split; [exact H | exact (kline_bars_wf (Some 60%Z) _ H)].
Defined.

Lemma kline_bars_aligned_witness :
  ResolutionToSeconds "5" = Some 300%Z /\
  Forall (fun b => exists z, time b = Some z /\ (z mod (300 * 1000) = 0)%Z)
         (kline_bars (Some 300%Z) [kline_row 1000 1 1 1 1; kline_row 650 1 1 1 1]).
Proof.
  split; [reflexivity|].
  exact (kline_bars_aligned "5" 300 _ eq_refl).
Defined.

Lemma kline_bars_unknown_resolution_witness :
  ResolutionToSeconds "2" = None /\
  (List.length (kline_bars (ResolutionToSeconds "2")
                  [kline_row 120 1 1 1 1; kline_row 60 1 1 1 1]) <= 1)%nat /\
  Forall (fun b => time b = NaN)
         (kline_bars (ResolutionToSeconds "2") [kline_row 120 1 1 1 1; kline_row 60 1 1 1 1]).
Proof.
  split; [reflexivity|].
  exact (kline_bars_unknown_resolution "2" _ eq_refl).
Defined.

Lemma kline_bars_refines_witness :
  ResolutionToSeconds "1" = Some 60%Z /\
  chain (fun a b => TradeData.t b <= TradeData.t a)%Z
        [kline_row 130 1 2 0.5 1.5; kline_row 125 1.5 1.8 1 1.2; kline_row 60 2 3 1 2] /\
  kline_bars (Some 60%Z)
    [kline_row 130 1 2 0.5 1.5; kline_row 125 1.5 1.8 1 1.2; kline_row 60 2 3 1 2] =
  kline_ref 60
    [kline_row 130 1 2 0.5 1.5; kline_row 125 1.5 1.8 1 1.2; kline_row 60 2 3 1 2].
Proof.
  assert (Hs : chain (fun a b => TradeData.t b <= TradeData.t a)%Z
        [kline_row 130 1 2 0.5 1.5; kline_row 125 1.5 1.8 1 1.2; kline_row 60 2 3 1 2])
    by (simpl; lia).
  split; [reflexivity|]. split; [exact Hs|].
  exact (kline_bars_refines "1" 60 _ eq_refl Hs).
Defined.

Lemma clamp_single_wf_witness :
  Forall bar_wf [kline_open (Some 60%Z) (kline_row 60 2 3 1 2)] /\
  Forall bar_wf (clamp_single 0.5 [kline_open (Some 60%Z) (kline_row 60 2 3 1 2)]).
Proof.
  assert (H : Forall bar_wf [kline_open (Some 60%Z) (kline_row 60 2 3 1 2)]).
  { apply (forallb_Forall_iff _ bar_wfb); [apply bar_wfb_spec | vm_compute; reflexivity]. }
  split; [exact H | exact (clamp_single_wf 0.5 _ H)].
Defined.

Lemma kline_out_of_order_merges_witness :
  kline_bars (Some 60%Z) [kline_row 120 1 1 1 1; kline_row 180 2 2 2 2] =
  [kline_fold (kline_open (Some 60%Z) (kline_row 120 1 1 1 1)) (kline_row 180 2 2 2 2)].
Proof.
  exact (proj1 (kline_out_of_order_merges (Some 60%Z) [kline_row 120 1 1 1 1] (kline_row 180 2 2 2 2)
                  [] (kline_open (Some 60%Z) (kline_row 120 1 1 1 1)) 120000 180000
                  ltac:(reflexivity) eq_refl eq_refl ltac:(lia))).
Defined.

End Kline.

(** ** The birdeye variant *)

Module Birdeye.

Import Resolution.

Abbreviation bstep from to_ tu m :=
  (Accumulate.step (in_range from to_)
     (fun bar => ms (barTime (BirdeyeItem.unixTime bar) tu))
     js_gt (birdeye_open tu m) (birdeye_fold m)).

Lemma total_volume_app (l1 l2 : list LightweightBar) :
  (total_volume (l1 ++ l2) == total_volume l1 + total_volume l2)%Q.
Proof.
  induction l1 as [|b l1 IH]; simpl; [lra|]. rewrite IH. lra.
Qed.

(** One iteration adds the row's [vQuote || 0] to the total volume when the
    row is in range, and nothing otherwise. *)
Lemma bstep_volume from to_ tu m (a : acc) (it : BirdeyeItem.BirdeyeItem) :
  (total_volume (acc_list (bstep from to_ tu m a it)) ==
   total_volume (acc_list a) +
   (if in_range from to_ it then or0 (BirdeyeItem.vQuote it) else 0))%Q.
Proof.
  rewrite step_cases. unfold acc_list.
  destruct (in_range from to_ it); [|lra].
  destruct (currentBar a) as [cb|]; cbn [currentBar bars opt_list];
    [destruct (js_gt _ _)|]; cbn [currentBar bars opt_list];
    rewrite ?total_volume_app, ?total_volume_app; simpl; lra.
Qed.

Lemma birdeye_fold_volume from to_ tu m items (a : acc) :
  (total_volume (acc_list (fold_left (bstep from to_ tu m) items a)) ==
   total_volume (acc_list a) + total_vQuote (filter (in_range from to_) items))%Q.
Proof.
  revert a. induction items as [|it items IH]; intros a; simpl; [lra|].
  rewrite IH, bstep_volume.
  destruct (in_range from to_ it); simpl; lra.
Qed.

(** Scaling by a non-negative multiplier keeps the order of prices. *)
Lemma birdeye_open_wf tu (m : Q) (it : BirdeyeItem.BirdeyeItem) :
  (0 <= m)%Q -> item_wf it -> bar_wf (birdeye_open tu m it).
Proof.
  unfold item_wf, bar_wf, birdeye_open; simpl. intros Hm Hit.
  repeat split; apply Qmult_le_compat_r; tauto.
Qed.

Lemma birdeye_fold_wf (m : Q) (cb : LightweightBar) (it : BirdeyeItem.BirdeyeItem) :
  (0 <= m)%Q -> bar_wf cb -> item_wf it -> bar_wf (birdeye_fold m cb it).
Proof.
  unfold item_wf, bar_wf, birdeye_fold; simpl. intros Hm Hb Hit.
  assert (BirdeyeItem.l it * m <= BirdeyeItem.c it * m)%Q
    by (apply Qmult_le_compat_r; tauto).
  assert (BirdeyeItem.c it * m <= BirdeyeItem.h it * m)%Q
    by (apply Qmult_le_compat_r; tauto).
  repeat split; qminmax.
Qed.

Lemma birdeye_chain (from to_ : Z) (tu : option Z) (m : Q)
  (items : list BirdeyeItem.BirdeyeItem) :
  chain (fun x y => js_lt (time x) (time y) = true)
        (birdeye_bars from to_ tu m items).
Proof.
  exact (run_chain (in_range from to_)
           (fun bar => ms (barTime (BirdeyeItem.unixTime bar) tu))
           js_gt (birdeye_open tu m) (birdeye_fold m)
           (fun _ => eq_refl) (fun _ _ => eq_refl) items).
Qed.

(** ** Properties *)

(** With a non-negative multiplier (1, or the token supply for the
    market-cap chart) and well-formed items, every birdeye bar is well
    formed. *)
Theorem birdeye_bars_wf (from to_ : Z) (tu : option Z) (m : Q)
  (items : list BirdeyeItem.BirdeyeItem) :
  (0 <= m)%Q -> Forall item_wf items ->
  Forall bar_wf (birdeye_bars from to_ tu m items).
Proof.
  intros Hm Hitems. rewrite Forall_forall in Hitems. apply run_forall.
  - intros it Hin _. apply birdeye_open_wf; auto.
  - intros cb it Hin _ Hcb. apply birdeye_fold_wf; auto.
Qed.

(** Whatever the order of the items, the birdeye bars have strictly
    increasing times: a new bar is only opened for a later bucket. *)
Theorem birdeye_bars_increasing (from to_ : Z) (tu : option Z) (m : Q)
  (items : list BirdeyeItem.BirdeyeItem) :
  chain (fun x y => js_lt (time x) (time y) = true)
        (birdeye_bars from to_ tu m items).
Proof. apply birdeye_chain. Qed.

(** C30: No volume is lost or counted twice: the volumes of the bars add
    up to the [vQuote] of the items inside [from, to), a missing value
    counting 0. *)
Theorem birdeye_volume_conserved (from to_ : Z) (tu : option Z) (m : Q)
  (items : list BirdeyeItem.BirdeyeItem) :
  (total_volume (birdeye_bars from to_ tu m items) ==
   total_vQuote (filter (in_range from to_) items))%Q.
Proof.
  unfold birdeye_bars, Accumulate.run. rewrite birdeye_fold_volume.
  simpl. lra.
Qed.

(** Only items inside the requested window [from, to) contribute: every
    bar time is the bucket of such an item. *)
Theorem birdeye_bars_in_window (from to_ : Z) (tu : option Z) (m : Q)
  (items : list BirdeyeItem.BirdeyeItem) :
  Forall (fun b => exists it, In it items /\
            (from <= BirdeyeItem.unixTime it < to_)%Z /\
            time b = ms (barTime (BirdeyeItem.unixTime it) tu))
         (birdeye_bars from to_ tu m items).
Proof.
  eapply Forall_impl; [|unfold birdeye_bars; apply run_times; reflexivity].
  intros b (it & Hin & Hk & Ht). exists it. unfold in_range in Hk.
  rewrite andb_true_iff, Z.leb_le, Z.ltb_lt in Hk. auto.
Qed.

(** C19: How the birdeye loop takes one more item of the window: it opens
    a bar of its own exactly when its bucket is later than the open bar's,
    and is folded into the open bar otherwise.  So items at 1000 s and
    1030 s with a 60-second width, whose buckets are 960 s and 1020 s,
    make two bars, where the spec's scenario states one. *)
Theorem birdeye_later_bucket_opens (from to_ : Z) (tu : option Z) (m : Q)
  (items : list BirdeyeItem.BirdeyeItem) (it : BirdeyeItem.BirdeyeItem)
  (bs : list LightweightBar) (cb : LightweightBar) (x y : Z) :
  birdeye_bars from to_ tu m items = bs ++ [cb] -> in_range from to_ it = true ->
  time cb = Some x -> ms (barTime (BirdeyeItem.unixTime it) tu) = Some y ->
  birdeye_bars from to_ tu m (items ++ [it]) =
  if (x <? y)%Z then bs ++ [cb; birdeye_open tu m it] else bs ++ [birdeye_fold m cb it].
Proof.
  intros Hrun Hk Hx Hy. unfold birdeye_bars.
  rewrite (run_snoc _ _ _ _ _ _ _ _ _ Hrun Hk), Hx, Hy. reflexivity.
Qed.

(** The spec's birdeye scenario, items at 1000 s and 1030 s with a
    60-second width: 1000 s floors to 960 s but 1030 s floors to 1020 s, so
    the code makes two bars, 960000 ms (open 1, high 2, low 0.5, close 1.5,
    volume 10) and 1020000 ms (open 1.5, high 1.8, low 1.2, close 1.6,
    volume 5), not the single bar the spec's scenario states. *)
Example birdeye_scenario :
  let bs := birdeye_bars 0 2000 (ResolutionToSeconds "1") 1
              [birdeye_item 1000 1 2 0.5 1.5 10; birdeye_item 1030 1.5 1.8 1.2 1.6 5] in
  map time bs = [Some 960000%Z; Some 1020000%Z] /\
  map (fun b => [open b; high b; low b; close b; or0 (volume b)]) bs =
  [[1; 2; 0.5; 1.5; 10]; [1.5; 1.8; 1.2; 1.6; 5]]%Q.
Proof. vm_compute. split; reflexivity. Qed.

(** ** Witnesses *)

Lemma birdeye_bars_wf_witness :
  (0 <= 2)%Q /\
  Forall item_wf [birdeye_item 1000 1 2 0.5 1.5 10; birdeye_item 1030 1.5 1.8 1.2 1.6 5] /\
  Forall bar_wf (birdeye_bars 0 2000 (Some 60%Z) 2
                   [birdeye_item 1000 1 2 0.5 1.5 10; birdeye_item 1030 1.5 1.8 1.2 1.6 5]).
Proof.
  assert (Hm : (0 <= 2)%Q) by (vm_compute; discriminate).
  assert (H : Forall item_wf [birdeye_item 1000 1 2 0.5 1.5 10;
                              birdeye_item 1030 1.5 1.8 1.2 1.6 5]).
  { apply (forallb_Forall_iff _ item_wfb); [apply item_wfb_spec | vm_compute; reflexivity]. }
  split; [exact Hm|]. split; [exact H|].
  exact (birdeye_bars_wf 0 2000 (Some 60%Z) 2 _ Hm H).
Defined.

Lemma birdeye_later_bucket_opens_witness :
  birdeye_bars 0 2000 (Some 60%Z) 1 [birdeye_item 1000 1 2 0.5 1.5 10; birdeye_item 1030 1.5 1.8 1.2 1.6 5] =
  [birdeye_open (Some 60%Z) 1 (birdeye_item 1000 1 2 0.5 1.5 10);
   birdeye_open (Some 60%Z) 1 (birdeye_item 1030 1.5 1.8 1.2 1.6 5)].
Proof.
  exact (birdeye_later_bucket_opens 0 2000 (Some 60%Z) 1 [birdeye_item 1000 1 2 0.5 1.5 10]
           (birdeye_item 1030 1.5 1.8 1.2 1.6 5) [] (birdeye_open (Some 60%Z) 1 (birdeye_item 1000 1 2 0.5 1.5 10))
           960000 1020000 ltac:(reflexivity) eq_refl eq_refl eq_refl).
Defined.

End Birdeye.
