(* ===== verification/Readiness.v ===== *)
(** * The readiness gate

    TVChart.tsx 191-217: when the chart of a freshly created pool needs
    refreshing, an effect starts a 1-second interval; each tick sends a
    probe ([checkData]: a kline request with [limit=1], true when a row
    came back, false on an empty page or an error) and, when the probe's
    promise resolves, [if (r || count++ >= 15)] clears the interval and
    reloads the chart ([setReloadChartTag]).  The effect's cleanup clears
    the interval.

    The state records whether the interval is registered, the counter,
    the probes in flight, the reloads fired and whether the cleanup ran.
    Three events drive it: a tick of the interval, the resolution of one
    in-flight probe, the cleanup.  [gate_step] is the transition function
    (None when the event cannot happen), [gate_reach] the reachable states
    (rule induction gives the invariants), [run_events] replays an explicit
    interleaving, and [gate_loop] is the schedule in which every probe
    resolves before the next tick, driven by fuel (16 rounds suffice). *)

From Stdlib Require Import Arith List Lia Bool String.
From S2P Require Import Prelude.
Import ListNotations.
Open Scope list_scope.

Module Readiness.

(** What [checkData]'s request produced: a page of [n] rows, or an error
    (caught, the probe then answers false). *)
Inductive probe_outcome := ProbeRows (n : nat) | ProbeError.

(** [checkData]: [data.rows.length > 0], [false] in the catch. *)
Definition checkData (o : probe_outcome) : bool :=
  match o with
  | ProbeRows n => 0 <? n
  | ProbeError => false
  end.

Record gate := mkGate {
  active : bool;   (** the interval is registered *)
  count : nat;     (** [let count = 0] *)
  pending : nat;   (** probes whose promise has not resolved *)
  reloads : nat;   (** calls of [setReloadChartTag] *)
  torn : bool      (** the effect's cleanup ran *)
}.

Inductive event := Tick | Resolve (o : probe_outcome) | Cleanup.

(** The effect's guard [if (!poolId || birdeye || !isNeedRefreshData ||
    !connection) return]; otherwise [count = 0] and the interval starts. *)
Definition isNeedRefreshData (needRefresh : bool) (refreshChartMint : string)
  (mint : option string) : bool :=
  needRefresh ||
  (negb (String.eqb refreshChartMint "") &&
   match mint with Some m => String.eqb refreshChartMint m | None => false end).

Definition gate_start (poolId : option string) (birdeye needRefreshData connection : bool)
  : option gate :=
  match poolId with
  | Some p =>
      if String.eqb p "" || birdeye || negb needRefreshData || negb connection
      then None else Some (mkGate true 0 0 0 false)
  | None => None
  end.

Definition gate_init : gate := mkGate true 0 0 0 false.

(** [window.clearInterval(interval); setReloadChartTag(Date.now())] *)
Definition clear_and_reload (g : gate) : gate :=
  mkGate false (count g) (pending g) (S (reloads g)) (torn g).

(** A tick fires only while the interval is registered; it sends a probe. *)
Definition on_tick (g : gate) : option gate :=
  if active g then Some (mkGate true (count g) (S (pending g)) (reloads g) (torn g))
  else None.

(** The [then] callback of one in-flight probe: [r || count++ >= 15]; the
    counter is only incremented when [r] is false. *)
Definition on_result (o : probe_outcome) (g : gate) : option gate :=
  match pending g with
  | 0 => None
  | S p =>
      let g1 := mkGate (active g) (count g) p (reloads g) (torn g) in
      if checkData o then Some (clear_and_reload g1)
      else
        let g2 := mkGate (active g1) (S (count g1)) p (reloads g1) (torn g1) in
        if 15 <=? count g1 then Some (clear_and_reload g2) else Some g2
  end.

(** The cleanup: [window.clearInterval(interval)]. *)
Definition on_cleanup (g : gate) : option gate :=
  Some (mkGate false (count g) (pending g) (reloads g) true).

Definition gate_step (g : gate) (e : event) : option gate :=
  match e with
  | Tick => on_tick g
  | Resolve o => on_result o g
  | Cleanup => on_cleanup g
  end.

Fixpoint run_events (g : gate) (es : list event) : option gate :=
  match es with
  | [] => Some g
  | e :: es' =>
      match gate_step g e with
      | Some g' => run_events g' es'
      | None => None
      end
  end.

Inductive gate_reach : gate -> Prop :=
| reach_init : gate_reach gate_init
| reach_step g e g' : gate_reach g -> gate_step g e = Some g' -> gate_reach g'.

(** The schedule where each probe resolves within its second: tick, then
    resolve probe [i]; stop when the interval is cleared.  Returns the final
    state and the number of probes sent. *)
Fixpoint gate_loop (probe : nat -> probe_outcome) (fuel i : nat) (g : gate)
  : gate * nat :=
  match fuel with
  | 0 => (g, i)
  | S f =>
      if active g then
        match on_tick g with
        | Some g1 =>
            match on_result (probe i) g1 with
            | Some g2 => gate_loop probe f (S i) g2
            | None => (g, i)
            end
        | None => (g, i)
        end
      else (g, i)
  end.

(** ** Lemmas *)

(** Once the interval is cleared, the loop sends no more probes. *)
Lemma gate_loop_inactive probe f i (g : gate) :
  active g = false -> gate_loop probe f i g = (g, i).
Proof. intros H. destruct f; simpl; [reflexivity|]. rewrite H. reflexivity. Qed.

(** One round from a running interval with no probe in flight. *)
Lemma gate_loop_round probe f i c rl tn :
  gate_loop probe (S f) i (mkGate true c 0 rl tn) =
  gate_loop probe f (S i)
    (if checkData (probe i) then mkGate false c 0 (S rl) tn
     else if 15 <=? c then mkGate false (S c) 0 (S rl) tn
     else mkGate true (S c) 0 rl tn).
Proof.
  cbn -[Nat.leb checkData].
  destruct (checkData (probe i)); [reflexivity|].
  destruct (15 <=? c); reflexivity.
Qed.

(** From counter [c], at most [16 - c] more probes are sent and the loop
    ends with the interval cleared and exactly one reload. *)
Lemma gate_loop_ends probe f : forall c i rl tn,
  c <= 15 -> 16 - c <= f ->
  let '(g, n) := gate_loop probe f i (mkGate true c 0 rl tn) in
  active g = false /\ reloads g = S rl /\ n <= i + (16 - c).
Proof.
  induction f as [|f IH]; intros c i rl tn Hc Hf; [lia|].
  rewrite gate_loop_round.
  destruct (checkData (probe i)).
  - rewrite gate_loop_inactive by reflexivity. cbn [active reloads].
    repeat split; try reflexivity; lia.
  - destruct (Nat.leb_spec 15 c).
    + rewrite gate_loop_inactive by reflexivity. cbn [active reloads].
      repeat split; try reflexivity; lia.
    + specialize (IH (S c) (S i) rl tn ltac:(lia) ltac:(lia)).
      destruct (gate_loop probe f (S i) _) as [g n].
      destruct IH as (H1 & H2 & H3). repeat split; auto; lia.
Qed.

(** With every probe negative, exactly [16 - c] probes are sent. *)
Lemma gate_loop_all_negative probe f : forall c i,
  (forall j, checkData (probe j) = false) ->
  c <= 15 -> 16 - c <= f ->
  snd (gate_loop probe f i (mkGate true c 0 0 false)) = i + (16 - c).
Proof.
  induction f as [|f IH]; intros c i Hneg Hc Hf; [lia|].
  rewrite gate_loop_round, Hneg.
  destruct (Nat.leb_spec 15 c).
  - rewrite gate_loop_inactive by reflexivity. cbn [snd]. lia.
  - rewrite IH by (auto; lia). lia.
Qed.

(** The loop stops right after the first positive probe [i]. *)
Lemma gate_loop_first_positive probe i f : forall k,
  (forall j, j < i -> checkData (probe j) = false) ->
  checkData (probe i) = true -> k <= i -> i < 16 -> i - k < f ->
  snd (gate_loop probe f k (mkGate true k 0 0 false)) = S i.
Proof.
  induction f as [|f IH]; intros k Hneg Hpos Hk Hi Hf; [lia|].
  rewrite gate_loop_round.
  destruct (Nat.eq_dec k i) as [->|Hne].
  - rewrite Hpos, gate_loop_inactive by reflexivity. reflexivity.
  - rewrite Hneg by lia. destruct (Nat.leb_spec 15 k); [lia|].
    apply IH; auto; lia.
Qed.

(** ** Properties *)

(** C10: Whatever the probes answer, when each probe resolves before the
    next tick the gate terminates: after at most 16 probes the interval is
    cleared and the chart is reloaded exactly once; 16 rounds of fuel
    suffice. *)
Theorem gate_terminates (probe : nat -> probe_outcome) (fuel : nat) :
  16 <= fuel ->
  let '(g, n) := gate_loop probe fuel 0 gate_init in
  active g = false /\ reloads g = 1 /\ n <= 16.
Proof. intros Hf. apply (gate_loop_ends probe fuel 0 0 0 false); lia. Qed.

(** C11: When the pool never has data (every probe answers false), the gate
    sends 16 probes before giving up, not the 15 attempts the spec states:
    [count++ >= 15] compares the value before the increment. *)
Theorem gate_all_negative_16_probes (probe : nat -> probe_outcome) (fuel : nat) :
  (forall j, checkData (probe j) = false) -> 16 <= fuel ->
  snd (gate_loop probe fuel 0 gate_init) = 16.
Proof. intros Hneg Hf. apply (gate_loop_all_negative probe fuel 0 0 Hneg); lia. Qed.

(** C13: The gate stops at the first positive probe: if probe [i] is the
    first to find a row and [i < 16], exactly [i + 1] probes are sent. *)
Theorem gate_stops_at_first_data (probe : nat -> probe_outcome) (i fuel : nat) :
  (forall j, j < i -> checkData (probe j) = false) ->
  checkData (probe i) = true -> i < 16 -> 16 <= fuel ->
  snd (gate_loop probe fuel 0 gate_init) = S i.
Proof.
  intros Hneg Hpos Hi Hf.
  apply (gate_loop_first_positive probe i fuel 0); auto; lia.
Qed.

Lemma run_events_app (g : gate) (es1 es2 : list event) :
  run_events g (es1 ++ es2) =
  match run_events g es1 with Some g1 => run_events g1 es2 | None => None end.
Proof.
  revert g. induction es1 as [|e es1 IH]; intros g; [reflexivity|]. cbn.
  destruct (gate_step g e); [apply IH|reflexivity].
Qed.

(** [k] ticks of a registered interval send [k] probes. *)
Lemma ticks_pending (g : gate) (k : nat) :
  active g = true ->
  run_events g (repeat Tick k) = Some (mkGate true (count g) (pending g + k) (reloads g) (torn g)).
Proof.
  intros Ha. revert g Ha. induction k as [|k IH]; intros g Ha.
  - destruct g; cbn in *. subst. rewrite Nat.add_0_r. reflexivity.
  - cbn. unfold on_tick. rewrite Ha. rewrite IH by reflexivity. cbn. do 2 f_equal. lia.
Qed.

(** [k] in-flight probes with rows each reload, whatever the state. *)
Lemma results_reload (o : probe_outcome) (k : nat) : forall g,
  checkData o = true -> k <= pending g ->
  exists g', run_events g (repeat (Resolve o) k) = Some g' /\
    (0 < k -> active g' = false) /\ torn g' = torn g /\ reloads g' = reloads g + k /\
    pending g' = pending g - k.
Proof.
  induction k as [|k IH]; intros g Hc Hk.
  - exists g. repeat split; [lia|lia|lia].
  - destruct g as [a c p rl tn]; cbn in Hk. destruct p as [|p]; [lia|].
    cbn -[Nat.leb]. unfold on_result. cbn -[Nat.leb]. rewrite Hc.
    destruct (IH (mkGate false c p (S rl) tn) Hc) as (g' & Hr & Ha & Ht & Hrl & Hp); [cbn; lia|].
    exists g'. split; [exact Hr|]. cbn in *. split; [|split; [exact Ht|split; lia]].
    intros _. destruct k; [injection Hr as <-; reflexivity|apply Ha; lia].
Qed.

(** C12: In every reachable state, under any interleaving of ticks, probe
    results and cleanup, while the interval is registered the chart has not
    been reloaded, the cleanup has not run and the counter is at most 15. *)
Theorem gate_active_inv (g : gate) :
  gate_reach g -> active g = true ->
  count g <= 15 /\ reloads g = 0 /\ torn g = false.
Proof.
  intros Hr. induction Hr as [|g0 e g1 Hreach IH Hstep].
  { intros _. split; [simpl; lia | split; reflexivity]. }
  destruct g0 as [a c p rl tn]; destruct e as [|o|];
    unfold gate_step, on_tick, on_result, on_cleanup, clear_and_reload in Hstep;
    cbn -[Nat.leb checkData] in *.
  - destruct a; [|discriminate]. injection Hstep as <-. exact IH.
  - destruct p as [|p]; [discriminate|].
    destruct (checkData o); [injection Hstep as <-; discriminate|].
    destruct (Nat.leb_spec 15 c); injection Hstep as <-; [discriminate|].
    simpl. intros ->. destruct (IH eq_refl) as (? & ? & ?). repeat split; auto; lia.
  - injection Hstep as <-. discriminate.
Qed.

(** C14: Every probe in flight when the effect is cleaned up still reloads
    the chart afterwards: the cleanup clears the interval but not the
    pending promises' callbacks, so after the cleanup each of [k] probes
    with rows calls [setReloadChartTag] once more. *)
Theorem gate_reload_after_cleanup (g : gate) (k n : nat) :
  k <= pending g -> 0 < n ->
  exists g', run_events g (Cleanup :: repeat (Resolve (ProbeRows n)) k) = Some g' /\
    active g' = false /\ torn g' = true /\ reloads g' = reloads g + k.
Proof.
  intros Hk Hn. assert (Hc : checkData (ProbeRows n) = true) by (apply Nat.ltb_lt; exact Hn).
  destruct (results_reload (ProbeRows n) k (mkGate false (count g) (pending g) (reloads g) true) Hc Hk)
    as (g' & Hr & Ha & Ht & Hrl & _).
  exists g'. split; [exact Hr|]. repeat split; [|exact Ht|exact Hrl].
  destruct k; [injection Hr as <-; reflexivity|apply Ha; lia].
Qed.

(** C15: Ticks do not wait for the previous probe: when [k] ticks fire
    before any probe answers, [k] probes are in flight, and if they all
    find rows the chart is reloaded [k] times. *)
Theorem gate_double_reload (g : gate) (k n : nat) :
  active g = true -> 0 < n ->
  exists g', run_events g (repeat Tick k ++ repeat (Resolve (ProbeRows n)) k) = Some g' /\
    reloads g' = reloads g + k.
Proof.
  intros Ha Hn. assert (Hc : checkData (ProbeRows n) = true) by (apply Nat.ltb_lt; exact Hn).
  rewrite run_events_app, ticks_pending by exact Ha.
  destruct (results_reload (ProbeRows n) k (mkGate true (count g) (pending g + k) (reloads g) (torn g)) Hc)
    as (g' & Hr & _ & _ & Hrl & _); [cbn; lia|].
  exists g'. split; [exact Hr|exact Hrl].
Qed.

(** ** Witnesses *)

Lemma gate_reload_after_cleanup_witness :
  2 <= pending (mkGate true 3 2 0 false) /\
  option_map reloads (run_events (mkGate true 3 2 0 false)
                        (Cleanup :: repeat (Resolve (ProbeRows 1)) 2)) = Some 2.
Proof.
  split; [cbn; lia|].
  destruct (gate_reload_after_cleanup (mkGate true 3 2 0 false) 2 1 ltac:(cbn; lia) ltac:(lia))
    as (g' & Hr & _ & _ & Hrl). rewrite Hr. cbn. rewrite Hrl. reflexivity.
Defined.

Lemma gate_double_reload_witness :
  active gate_init = true /\
  option_map reloads (run_events gate_init (repeat Tick 2 ++ repeat (Resolve (ProbeRows 1)) 2)) = Some 2.
Proof.
  split; [reflexivity|].
  destruct (gate_double_reload gate_init 2 1 eq_refl ltac:(lia)) as (g' & Hr & Hrl).
  rewrite Hr. cbn. rewrite Hrl. reflexivity.
Defined.

Lemma gate_terminates_witness :
  16 <= 16 /\
  let '(g, n) := gate_loop (fun _ => ProbeError) 16 0 gate_init in
  active g = false /\ reloads g = 1 /\ n <= 16.
Proof. split; [lia | exact (gate_terminates (fun _ => ProbeError) 16 ltac:(lia))]. Defined.

Lemma gate_all_negative_16_probes_witness :
  (forall j : nat, checkData ((fun _ => ProbeRows 0) j) = false) /\ 16 <= 20 /\
  snd (gate_loop (fun _ => ProbeRows 0) 20 0 gate_init) = 16.
Proof.
  assert (H : forall j : nat, checkData ((fun _ => ProbeRows 0) j) = false) by reflexivity.
  split; [exact H|]. split; [lia|].
  exact (gate_all_negative_16_probes (fun _ => ProbeRows 0) 20 H ltac:(lia)).
Defined.

Lemma gate_stops_at_first_data_witness :
  (forall j, j < 3 -> checkData (if j <? 3 then ProbeError else ProbeRows 1) = false) /\
  checkData (if 3 <? 3 then ProbeError else ProbeRows 1) = true /\
  snd (gate_loop (fun j => if j <? 3 then ProbeError else ProbeRows 1) 16 0 gate_init) = 4.
Proof.
  assert (Hneg : forall j, j < 3 -> checkData (if j <? 3 then ProbeError else ProbeRows 1) = false).
  { intros j Hj. apply Nat.ltb_lt in Hj. rewrite Hj. reflexivity. }
  split; [exact Hneg|]. split; [reflexivity|].
  exact (gate_stops_at_first_data (fun j => if j <? 3 then ProbeError else ProbeRows 1)
           3 16 Hneg eq_refl ltac:(lia) ltac:(lia)).
Defined.

Lemma gate_active_inv_witness :
  gate_reach (mkGate true 1 0 0 false) /\
  (count (mkGate true 1 0 0 false) <= 15 /\ reloads (mkGate true 1 0 0 false) = 0 /\
   torn (mkGate true 1 0 0 false) = false).
Proof.
  assert (H1 : gate_reach (mkGate true 0 1 0 false))
    by (apply (reach_step gate_init Tick); [constructor | reflexivity]).
  assert (H : gate_reach (mkGate true 1 0 0 false))
    by (apply (reach_step _ (Resolve ProbeError) _ H1); reflexivity).
  split; [exact H | exact (gate_active_inv _ H eq_refl)].
Defined.

End Readiness.
