(* ===== verification/Streaming.v ===== *)
(** * The streaming module (modelled from the specification)

    datafeed.ts and TVChart.tsx import [startSocket], [closeSocket],
    [subscribeOnStream], [unsubscribeFromStream] and [setArrowListener]
    from ./streaming, a file that is not part of the sources.  This file
    models it from the specification (sections 3, 4.5, 4.6 and 9): the open
    sockets of the chart, the subscriptions keyed by subscriber id, the
    module's single arrow listener, and the live bar merger that decides,
    for each live event, whether it updates the open bar, starts a new bar,
    or is a stale event to drop.  The manifest marks these definitions as
    modelled from the specification. *)

From Stdlib Require Import ZArith QArith Qminmax List Lia Lqa.
From stdpp Require Import gmap strings.
From S2P Require Import Prelude Bars.

Module Streaming.

(** A subscription: the pool, the resolution and the bar the live tail
    continues ([lastDailyBar] at subscription, then the open bar). *)
Record subscription := mkSub {
  sub_pool : string;
  sub_resolution : string;
  sub_bar : option LightweightBar
}.

Record stream := mkStream {
  sockets : list string;                  (** pools with an open socket *)
  subs : gmap string subscription         (** keyed by subscriberUID *)
}.

Definition stream_empty : stream := mkStream [] ∅.

(** [closeSocket(connection)]: the chart's connection is closed. *)
Definition closeSocket (s : stream) : stream := mkStream [] (subs s).

(** [startSocket({connection, poolId})]: a socket for the pool is opened. *)
Definition startSocket (poolId : string) (s : stream) : stream :=
  mkStream (poolId :: sockets s) (subs s).

(** [subscribeOnStream({...subscriberUID, lastDailyBar})] *)
Definition subscribeOnStream (uid pool resolution : string)
  (lastDailyBar : option LightweightBar) (s : stream) : stream :=
  mkStream (sockets s) (<[uid := mkSub pool resolution lastDailyBar]> (subs s)).

(** [unsubscribeFromStream(subscriberUID)]: an unknown id is a no-op. *)
Definition unsubscribeFromStream (uid : string) (s : stream) : stream :=
  mkStream (sockets s) (delete uid (subs s)).

(** [setArrowListener(cb)]: the module keeps one listener for live bars,
    which each call replaces, [undefined] unsetting it (the spec's
    "single-global-listener replacement pattern").  A listener is named by
    the chart instance whose callback it is. *)
Definition setArrowListener (cb : option nat) (current : option nat) : option nat := cb.

(** A live event: a bucket start time (milliseconds) and OHLC values. *)
Record live_event := mkEvent {
  ev_time : Z; ev_open : Q; ev_high : Q; ev_low : Q; ev_close : Q
}.

Definition bar_of_event (e : live_event) : LightweightBar :=
  {| time := Some (ev_time e); open := ev_open e; high := ev_high e;
     low := ev_low e; close := ev_close e; volume := None |}.

(** The live merge rule: same bucket, update close, high and low of the
    open bar; later bucket, start a new bar; earlier bucket, drop.  Returns
    the new open bar and the bar handed to the chart, if any. *)
Definition onLiveEvent (e : live_event) (cur : option LightweightBar)
  : option LightweightBar * option LightweightBar :=
  match cur with
  | None => (Some (bar_of_event e), Some (bar_of_event e))
  | Some cb =>
      match time cb with
      | Some t =>
          if (ev_time e =? t)%Z then
            let b := {| time := time cb; open := open cb;
                        high := Qmax (high cb) (ev_high e);
                        low := Qmin (low cb) (ev_low e);
                        close := ev_close e; volume := volume cb |} in
            (Some b, Some b)
          else if (t <? ev_time e)%Z then
            (Some (bar_of_event e), Some (bar_of_event e))
          else (cur, None)
      | None => (Some (bar_of_event e), Some (bar_of_event e))
      end
  end.

(** A sequence of live events delivered in arrival order to one
    subscription; the bars handed to the chart, in order. *)
Fixpoint deliver_all (es : list live_event) (cur : option LightweightBar)
  : option LightweightBar * list LightweightBar :=
  match es with
  | [] => (cur, [])
  | e :: es' =>
      let '(cur1, out) := onLiveEvent e cur in
      let '(cur2, outs) := deliver_all es' cur1 in
      (cur2, opt_list out ++ outs)
  end.

(** [a <= b] on JavaScript times. *)
Definition js_le (a b : jstime) : bool :=
  match a, b with
  | Some x, Some y => (x <=? y)%Z
  | _, _ => false
  end.

(** ** Lemmas *)

Lemma unsubscribe_lookup (uid uid' : string) (s : stream) :
  subs (unsubscribeFromStream uid s) !! uid' =
  if decide (uid = uid') then None else subs s !! uid'.
Proof.
  unfold unsubscribeFromStream; simpl. case_decide; subst;
    [apply lookup_delete_eq | apply lookup_delete_ne; done].
Qed.

(** The open bar's time never decreases, and every bar handed out carries
    the open bar's time at that point. *)
Lemma onLiveEvent_time (e : live_event) (cb : LightweightBar) (t : Z) :
  time cb = Some t ->
  let '(cur', out) := onLiveEvent e (Some cb) in
  (exists t', option_map time cur' = Some (Some t') /\ (t <= t')%Z) /\
  (forall b, out = Some b -> option_map time cur' = Some (time b)).
Proof.
  intros Ht. unfold onLiveEvent. rewrite Ht.
  destruct (Z.eqb_spec (ev_time e) t) as [Heq|Hne].
  - split; [exists t; simpl; rewrite ?Ht; split; [reflexivity|lia]|].
    intros b [= <-]. reflexivity.
  - destruct (Z.ltb_spec t (ev_time e)).
    + split; [exists (ev_time e); split; [reflexivity|lia]|].
      intros b [= <-]. reflexivity.
    + split; [exists t; simpl; rewrite ?Ht; split; [reflexivity|lia]|].
      discriminate.
Qed.

Lemma deliver_all_cons (e : live_event) es cur :
  deliver_all (e :: es) cur =
  let '(cur1, out) := onLiveEvent e cur in
  let '(cur2, outs) := deliver_all es cur1 in
  (cur2, opt_list out ++ outs).
Proof. reflexivity. Qed.

(** Every bar handed out from an open bar at time [t] is at [t] or later,
    and consecutive ones do not go back in time. *)
Lemma deliver_all_times (es : list live_event) : forall cb t,
  time cb = Some t ->
  Forall (fun b => exists z, time b = Some z /\ (t <= z)%Z)
         (snd (deliver_all es (Some cb))) /\
  chain (fun x y => js_le (time x) (time y) = true) (snd (deliver_all es (Some cb))).
Proof.
  induction es as [|e es IH]; intros cb t Ht; [split; [constructor|exact I]|].
  rewrite deliver_all_cons. pose proof (onLiveEvent_time e cb t Ht) as Hev.
  destruct (onLiveEvent e (Some cb)) as [[cb1|] out] eqn:Eev;
    [|destruct Hev as [(t' & Ht' & _) _]; discriminate].
  destruct Hev as [(t' & Ht' & Htt') Hout]. injection Ht' as Ht'.
  destruct (IH cb1 t' Ht') as [Hall Hch].
  destruct (deliver_all es (Some cb1)) as [cur2 outs]. simpl in *.
  assert (Hall' : Forall (fun b => exists z, time b = Some z /\ (t <= z)%Z) outs).
  { eapply Forall_impl; [exact Hall|]. intros b (z & Hz & Hle). exists z; split; [exact Hz|lia]. }
  destruct out as [b|]; simpl; [|exact (conj Hall' Hch)].
  specialize (Hout b eq_refl). injection Hout as Hb. rewrite Ht' in Hb.
  split.
  - constructor; [exists t'; split; [congruence|lia]|exact Hall'].
  - destruct outs as [|b2 outs]; [exact I|]. split; [|exact Hch].
    inversion Hall as [|? ? (z & Hz & Hle) _]; subst.
    rewrite <- Hb, Hz. simpl. apply Z.leb_le. exact Hle.
Qed.

(** ** Properties *)

(** A live event whose bucket is earlier than the open bar is
    dropped: the open bar is unchanged and nothing is handed to the chart. *)
Theorem live_stale_event_dropped (e : live_event) (cb : LightweightBar) (t : Z) :
  time cb = Some t -> (ev_time e < t)%Z ->
  onLiveEvent e (Some cb) = (Some cb, None).
Proof.
  intros Ht Hlt. unfold onLiveEvent. rewrite Ht.
  destruct (Z.eqb_spec (ev_time e) t); [lia|].
  destruct (Z.ltb_spec t (ev_time e)); [lia|reflexivity].
Qed.

(** Whatever live events arrive, the bars handed to the chart never go
    back in time and never precede the bar the subscription was seeded
    with. *)
Theorem live_times_monotone (es : list live_event) (cb : LightweightBar) (t : Z) :
  time cb = Some t ->
  chain (fun x y => js_le (time x) (time y) = true) (snd (deliver_all es (Some cb))) /\
  Forall (fun b => exists z, time b = Some z /\ (t <= z)%Z) (snd (deliver_all es (Some cb))).
Proof. intros Ht. destruct (deliver_all_times es cb t Ht). split; assumption. Qed.

(** The spec's live scenario: events with bucket starts 100, 100, 160,
    160, 220 make three bars; the 100 bar after its second event has the
    first event's open, the higher high, the lower low and the second
    event's close. *)
Example live_scenario :
  let out := snd (deliver_all
               [mkEvent 100 1 2 1 1.5; mkEvent 100 1.5 3 0.5 2;
                mkEvent 160 2 2 2 2; mkEvent 160 2 2.5 1.5 2.2;
                mkEvent 220 2.2 2.2 2.2 2.2] None) in
  map time out = map Some [100; 100; 160; 160; 220]%Z /\
  List.length (remove_dups (map time out)) = 3%nat /\
  List.nth_error (map (fun b => (open b, high b, low b, close b)) out) 1 =
    Some (1, 3, 0.5, 2)%Q.
Proof. vm_compute. repeat split; reflexivity. Qed.

(** ** Witnesses *)

Lemma live_stale_event_dropped_witness :
  time (bar_of_event (mkEvent 160 1 2 0.5 1.5)) = Some 160%Z /\ (100 < 160)%Z /\
  onLiveEvent (mkEvent 100 3 3 3 3) (Some (bar_of_event (mkEvent 160 1 2 0.5 1.5))) =
  (Some (bar_of_event (mkEvent 160 1 2 0.5 1.5)), None).
Proof.
  split; [reflexivity|]. split; [lia|].
  exact (live_stale_event_dropped (mkEvent 100 3 3 3 3) (bar_of_event (mkEvent 160 1 2 0.5 1.5))
           160 eq_refl ltac:(simpl; lia)).
Defined.

Lemma live_times_monotone_witness :
  time (bar_of_event (mkEvent 100 1 2 1 1.5)) = Some 100%Z /\
  chain (fun x y => js_le (time x) (time y) = true)
        (snd (deliver_all [mkEvent 160 2 2 2 2; mkEvent 100 1 1 1 1; mkEvent 160 2 3 1 2]
                (Some (bar_of_event (mkEvent 100 1 2 1 1.5))))) /\
  Forall (fun b => exists z, time b = Some z /\ (100 <= z)%Z)
        (snd (deliver_all [mkEvent 160 2 2 2 2; mkEvent 100 1 1 1 1; mkEvent 160 2 3 1 2]
                (Some (bar_of_event (mkEvent 100 1 2 1 1.5))))).
Proof.
  split; [reflexivity|].
  exact (live_times_monotone _ (bar_of_event (mkEvent 100 1 2 1 1.5)) 100 eq_refl).
Defined.

End Streaming.
