(* ===== verification/Datafeed.v ===== *)
(** * The datafeed orchestrator

    [class DataFeed] of datafeed.ts: the constructor (60-65),
    resolveSymbol (77-141), getBars (143-239), subscribeBars (241-263) and
    unsubscribeBars (265-268), over the module-level state of the file,
    [lastBarsCache] (a Map keyed by pool id, line 25) and [nextPageKey]
    (line 26), together with the streaming state ([Streaming.v]).

    getBars runs in two halves separated by its [await axios.get(...)]:
    [getBars_begin] resets or reads the cursor and either answers
    [noData] at once or produces the kline query; [getBars_complete]
    handles the response (or the error caught by the [try]).  [getBars]
    composes them with a [fetch] function for the sequential case; the two
    halves are separate so that interleavings of two sessions can be
    written as explicit sequences.

    The values the sources import from files that are not part of them
    ([initPoolPriceDecimal] from ./utils, [wSolToSolString] from
    @/utils/token, [NATIVE_MINT]) are section variables. *)

From Stdlib Require Import ZArith QArith Qminmax List Lia Lqa.
From stdpp Require Import gmap strings.
From S2P Require Import Prelude Bars Resolution Bucketer Streaming.

Module Datafeed.
Import Resolution Streaming.

(** The fields of [ApiV3Token] and [MintInfo] the datafeed reads. *)
Record ApiV3Token := mkToken {
  address : string; token_symbol : string; token_decimals : Z
}.

Record MintInfo := mkMintInfo {
  mint : string; mint_symbol : string; mint_decimals : Z; supply : Q;
  mint_mintB : option ApiV3Token
}.

Record DataFeed := mkDataFeed {
  _connection : string;
  _mintInfo : option MintInfo;
  _mintBInfo : option ApiV3Token;
  _curveType : option Z
}.

(** [SymbolInfo], the fields that depend on the inputs and the ones the
    rest of the datafeed reads. *)
Record SymbolInfo := mkSymbolInfo {
  poolId : string; mintA : string; mintB : string;
  ticker : string; description : string; exchange : string;
  pricescale : Z; decimals : Z;
  supported_resolutions_of : list string
}.

(** The module-level state of datafeed.ts and the streaming state. *)
Record df_state := mkState {
  lastBarsCache : gmap string LightweightBar;
  nextPageKey : option string;
  stream : Streaming.stream
}.

Inductive resolve_outcome :=
| Resolved (info : SymbolInfo)          (** onSymbolResolvedCallback *)
| ResolveError (msg : string).          (** onResolveErrorCallback *)

(** What getBars hands to its callbacks: [onHistoryCallback(bars, {noData})]
    or [onErrorCallback(error)]. *)
Inductive history :=
| History (bars : list LightweightBar) (noData : bool)
| HistoryError.

(** The request [`${host}/kline?poolId=..&interval=..&limit=300..`]. *)
Record kline_query := mkQuery {
  q_poolId : string; q_interval : string; q_limit : Z;
  q_nextPageKey : option string
}.

(** The response: [data.rows] (possibly missing) and [data.nextPageKey],
    or a failure of the request or of reading its data. *)
Inductive kline_response :=
| KlineOk (rows : option (list TradeData.TradeData)) (nextPageKey : option string)
| KlineFail.

Definition df_state_init : df_state := mkState ∅ None stream_empty.

Definition set_nextPageKey (k : option string) (st : df_state) : df_state :=
  mkState (lastBarsCache st) k (stream st).

Definition set_cache (c : gmap string LightweightBar) (st : df_state) : df_state :=
  mkState c (nextPageKey st) (stream st).

Definition set_stream (s : Streaming.stream) (st : df_state) : df_state :=
  mkState (lastBarsCache st) (nextPageKey st) s.

(** [DataFeed.configurationData] (lines 47-58). *)
Record configuration := mkConfig {
  cfg_supported_resolutions : list string;
  cfg_exchanges : list string;
  cfg_symbols_types : list string;
  supports_group_request : bool;
  supports_marks : bool;
  supports_search : bool;
  supports_timescale_marks : bool
}.

Definition configurationData : configuration :=
  mkConfig supported_resolutions [] [] true false false false.

(** onReady (lines 67-70): [setTimeout(() => callback(DataFeed.configurationData))];
    what the deferred callback receives. *)
Definition onReady (df : DataFeed) : configuration := configurationData.

(** searchSymbols (lines 72-75): [onResultReadyCallback([])]. *)
Definition searchSymbols (df : DataFeed) (userInput exchange_ symbolType : string)
  : list SymbolInfo := [].

Section Datafeed.

Variable initPoolPriceDecimal : Q.
Variable wSolToSolString : string -> string.
Variable NATIVE_MINT : string.

(** The constructor: [this._mintBInfo = props.mintInfo?.mintB ?? props.mintBInfo]. *)
Definition new_DataFeed (connection : string) (mintInfo : option MintInfo)
  (mintBInfo : option ApiV3Token) (curveType : option Z) : DataFeed :=
  mkDataFeed connection mintInfo
    (match mintInfo with
     | Some mi => match mint_mintB mi with Some b => Some b | None => mintBInfo end
     | None => mintBInfo
     end)
    curveType.

(** resolveSymbol: fails without mint info; otherwise builds the symbol
    descriptor, closes the chart's socket and opens one for the pool. *)
Definition resolveSymbol (df : DataFeed) (symbolName : string) (st : df_state)
  : df_state * resolve_outcome :=
  match _mintInfo df with
  | None => (st, ResolveError "cannot resolve symbol")
  | Some mi =>
      let dec := (9 + mint_decimals mi / 2)%Z in
      let symbolB := wSolToSolString
                       (match _mintBInfo df with Some b => token_symbol b | None => "SOL" end) in
      let name := String.append (mint_symbol mi) (String.append "-" symbolB) in
      let info := {| poolId := symbolName;
                     mintA := mint mi;
                     mintB := match _mintBInfo df with
                              | Some b => if String.eqb (address b) "" then NATIVE_MINT
                                          else address b
                              | None => NATIVE_MINT
                              end;
                     ticker := name;
                     description := String.append name " pool";
                     exchange := "Raydium";
                     pricescale := (10 ^ dec)%Z;
                     decimals := dec;
                     supported_resolutions_of := supported_resolutions |} in
      (set_stream (startSocket symbolName (closeSocket (stream st))) st,
       Resolved info)
  end.

(** getBars up to its [await]: [nextPageKey = firstDataRequest ? undefined
    : nextPageKey]; an exhausted cursor answers [noData] without a
    request. *)
Definition getBars_begin (symbolInfo : SymbolInfo) (resolution : string)
  (firstDataRequest : bool) (st : df_state) : df_state * (history + kline_query) :=
  let npk := if firstDataRequest then None else nextPageKey st in
  let st1 := set_nextPageKey npk st in
  if negb firstDataRequest && negb (str_truthy npk) then
    (st1, inl (History [] true))
  else
    (st1, inr (mkQuery (poolId symbolInfo) (getBars_frame resolution) 300
                 (if str_truthy npk then npk else None))).

(** getBars after its [await]: store the returned cursor, bucket the rows,
    clamp a single bar, seed the cache on the first request, and hand the
    bars to the consumer reversed. *)
Definition getBars_complete (symbolInfo : SymbolInfo) (resolution : string)
  (firstDataRequest : bool) (resp : kline_response) (st : df_state)
  : df_state * history :=
  match resp with
  | KlineFail => (st, HistoryError)
  | KlineOk rows npk =>
      let st1 := set_nextPageKey npk st in
      match match rows with Some r => r | None => [] end with
      | [] => (st1, History [] true)
      | rows' =>
          let bars := clamp_single initPoolPriceDecimal
                        (kline_bars (ResolutionToSeconds resolution) rows') in
          let st2 :=
            if firstDataRequest then
              match bars with
              | b :: _ => set_cache (<[poolId symbolInfo := b]> (lastBarsCache st1)) st1
              | [] => st1
              end
            else st1 in
          (st2, History (rev bars) false)
      end
  end.

(** The whole of getBars when the response arrives before anything else
    runs; also returns the requests sent. *)
Definition getBars (fetch : kline_query -> kline_response) (symbolInfo : SymbolInfo)
  (resolution : string) (firstDataRequest : bool) (st : df_state)
  : df_state * history * list kline_query :=
  let '(st1, r) := getBars_begin symbolInfo resolution firstDataRequest st in
  match r with
  | inl h => (st1, h, [])
  | inr q =>
      let '(st2, h) := getBars_complete symbolInfo resolution firstDataRequest (fetch q) st1 in
      (st2, h, [q])
  end.

(** subscribeBars: a no-op for birdeye symbols, otherwise a subscription
    seeded with the cached last bar of the pool. *)
Definition subscribeBars (df : DataFeed) (symbolInfo : SymbolInfo) (resolution : string)
  (subscriberUID : string) (st : df_state) : df_state :=
  if String.eqb (exchange symbolInfo) "birdeye" then st
  else set_stream (subscribeOnStream subscriberUID (poolId symbolInfo) resolution
                     (lastBarsCache st !! poolId symbolInfo) (stream st)) st.

Definition unsubscribeBars (subscriberUID : string) (st : df_state) : df_state :=
  set_stream (unsubscribeFromStream subscriberUID (stream st)) st.

End Datafeed.

(** A symbol descriptor for a pool, as resolveSymbol builds it. *)
Definition sample_symbol (pool : string) : SymbolInfo :=
  mkSymbolInfo pool "mintA" "mintB" "TOKEN-SOL" "TOKEN-SOL pool" "Raydium"
    (10 ^ 12) 12 supported_resolutions.

(** A history host that answers every query with one newest-first page
    and no further cursor, and the result of a first getBars against it. *)
Definition sample_fetch (q : kline_query) : kline_response :=
  KlineOk (Some [kline_row 180 1 2 0.5 1.5; kline_row 130 1.5 1.8 1 1.2; kline_row 60 2 3 1 2])
          None.

Definition sample_run : df_state * history * list kline_query :=
  Eval vm_compute in getBars 0 sample_fetch (sample_symbol "P") "1" true df_state_init.

Definition sample_bars : list LightweightBar :=
  Eval vm_compute in
    match snd (fst sample_run) with History bs _ => bs | HistoryError => [] end.

Definition sample_mint : MintInfo := mkMintInfo "mint" "TKN" 6 1000 None.

(** ** Facts *)

Section DatafeedFacts.

Variable initPoolPriceDecimal : Q.
Variable wSolToSolString : string -> string.
Variable NATIVE_MINT : string.

Abbreviation getBars_ := (getBars initPoolPriceDecimal).

Lemma clamp_single_chain (P : jstime -> jstime -> Prop) (init : Q) (bs : list LightweightBar) :
  chain (fun x y => P (time x) (time y)) bs ->
  chain (fun x y => P (time x) (time y)) (clamp_single init bs).
Proof. destruct bs as [|b [|b2 bs]]; simpl; auto. Qed.

Lemma clamp_single_nonempty (init : Q) (bs : list LightweightBar) :
  bs <> [] -> clamp_single init bs <> [].
Proof. destruct bs as [|b [|b2 bs]]; simpl; congruence. Qed.

(** A getBars call that hands bars to the consumer with [noData: false]
    sent one request, got rows back, and handed over the reversed,
    clamped buckets of those rows; on the first request it cached the first
    of these bars under the pool id. *)
Lemma getBars_delivered (fetch : kline_query -> kline_response) (si : SymbolInfo)
  (res : string) (first : bool) (st st' : df_state) (bs : list LightweightBar)
  (qs : list kline_query) :
  getBars_ fetch si res first st = (st', History bs false, qs) ->
  exists q rows0 npk rows bars,
    qs = [q] /\ fetch q = KlineOk rows0 npk /\
    rows = match rows0 with Some r => r | None => [] end /\ rows <> [] /\
    bars = clamp_single initPoolPriceDecimal (kline_bars (ResolutionToSeconds res) rows) /\
    bars <> [] /\ bs = rev bars /\ stream st' = stream st /\
    nextPageKey st' = npk /\
    lastBarsCache st' =
      (if first then match bars with
                     | b :: _ => <[poolId si := b]> (lastBarsCache st)
                     | [] => lastBarsCache st
                     end
       else lastBarsCache st).
Proof.
  unfold getBars, getBars_begin.
  set (npk0 := if first then None else nextPageKey st).
  destruct (negb first && negb (str_truthy npk0)); [intros [= _ _ ?]; discriminate|].
  set (q := mkQuery _ _ _ _).
  unfold getBars_complete. destruct (fetch q) as [rows0 npk|] eqn:Hf;
    [|intros [= _ ?]; discriminate].
  destruct (match rows0 with Some r => r | None => [] end) as [|r rows] eqn:Hrows;
    [intros [= _ ?]; discriminate|].
  set (bars := clamp_single _ _).
  assert (Hne : bars <> []) by apply clamp_single_nonempty, Kline.kline_bars_nonempty.
  intros Heq. injection Heq as <- <- <-.
  exists q, rows0, npk, (r :: rows), bars.
  repeat split; auto; try congruence;
    destruct first; simpl; destruct bars; simpl; try congruence; reflexivity.
Qed.

(** ** Properties *)

(** C4: After a page whose nextPageKey was undefined (or empty), a
    follow-up getBars ([firstDataRequest = false]) answers
    [{bars: [], noData: true}] without sending a request and without
    changing any state. *)
Theorem getBars_exhausted_no_request (fetch : kline_query -> kline_response)
  (si : SymbolInfo) (res : string) (st : df_state) :
  str_truthy (nextPageKey st) = false ->
  getBars_ fetch si res false st = (st, History [] true, []).
Proof.
  intros H. unfold getBars, getBars_begin. simpl. rewrite H.
  destruct st; reflexivity.
Qed.

(** A first request resets the cursor: getBars sends exactly one
    request, for the pool, with the interval of the resolution, a limit of
    300 and no nextPageKey, whatever the cursor was. *)
Theorem getBars_first_request_query (fetch : kline_query -> kline_response)
  (si : SymbolInfo) (res : string) (st : df_state) :
  snd (getBars_ fetch si res true st) =
  [mkQuery (poolId si) (getBars_frame res) 300 None].
Proof.
  unfold getBars, getBars_begin. simpl.
  destruct (getBars_complete _ _ _ _ _ _); reflexivity.
Qed.

(** C5: The bars getBars hands to the chart are in strictly increasing
    time order, whatever order the rows came in: the newest-first buckets
    are reversed. *)
Theorem getBars_ascending (fetch : kline_query -> kline_response) (si : SymbolInfo)
  (res : string) (first : bool) (st st' : df_state) (bs : list LightweightBar)
  (qs : list kline_query) :
  getBars_ fetch si res first st = (st', History bs false, qs) ->
  chain (fun x y => js_lt (time x) (time y) = true) bs.
Proof.
  intros H. apply getBars_delivered in H as
    (q & rows0 & npk & rows & bars & _ & _ & _ & _ & Hbars & _ & -> & _).
  subst bars. apply (chain_rev (fun x y => js_lt (time y) (time x) = true)).
  apply (clamp_single_chain (fun a b => js_lt b a = true)).
  apply Kline.kline_chain.
Qed.

(** C6: On a first request that delivers bars, the cache entry of the
    pool becomes the last bar handed to the chart, i.e. the newest bar of
    the page, and the entries of other pools are untouched. *)
Theorem getBars_caches_newest (fetch : kline_query -> kline_response) (si : SymbolInfo)
  (res : string) (st st' : df_state) (bs : list LightweightBar) (qs : list kline_query) :
  getBars_ fetch si res true st = (st', History bs false, qs) ->
  lastBarsCache st' !! poolId si = last bs /\
  (forall p, p <> poolId si -> lastBarsCache st' !! p = lastBarsCache st !! p).
Proof.
  intros H. apply getBars_delivered in H as
    (q & rows0 & npk & rows & bars & _ & _ & _ & _ & _ & Hne & -> & _ & _ & Hc).
  destruct bars as [|b bars']; [congruence|]. rewrite Hc. simpl. split.
  - rewrite lookup_insert_eq, last_snoc. reflexivity.
  - intros p Hp. apply lookup_insert_ne. congruence.
Qed.

(** C7: When the request fails, getBars reports the error through the
    error callback and commits nothing: the cache and the streaming state
    are unchanged. *)
Theorem getBars_error_commits_nothing (fetch : kline_query -> kline_response)
  (si : SymbolInfo) (res : string) (first : bool) (st : df_state) :
  (forall q, fetch q = KlineFail) ->
  first = true \/ str_truthy (nextPageKey st) = true ->
  let '(st', h, qs) := getBars_ fetch si res first st in
  h = HistoryError /\ lastBarsCache st' = lastBarsCache st /\ stream st' = stream st.
Proof.
  intros Hfail Hreq. unfold getBars, getBars_begin.
  destruct first; simpl; [|destruct Hreq as [Hreq|Hreq]; [discriminate|rewrite Hreq]];
    simpl; rewrite Hfail; simpl; auto.
Qed.

(** C33: When the upstream rows are well formed, every bar getBars hands to
    the chart is well formed, the one-bar clamp included. *)
Theorem getBars_bars_wf (fetch : kline_query -> kline_response) (si : SymbolInfo)
  (res : string) (first : bool) (st st' : df_state) (bs : list LightweightBar)
  (qs : list kline_query) :
  (forall q rows npk, fetch q = KlineOk (Some rows) npk -> Forall row_wf rows) ->
  getBars_ fetch si res first st = (st', History bs false, qs) ->
  Forall bar_wf bs.
Proof.
  intros Hrows H. apply getBars_delivered in H as
    (q & rows0 & npk & rows & bars & _ & Hf & Hr & Hne & Hbars & _ & -> & _).
  destruct rows0 as [r|]; [|subst rows; congruence]. subst rows bars.
  apply Forall_rev, Kline.clamp_wf, Kline.kline_wf.
  exact (Hrows q r npk Hf).
Qed.

(** Without mint info, resolveSymbol reports "cannot resolve symbol"
    to the error callback and touches no state: no socket is closed or
    opened. *)
Theorem resolveSymbol_error (df : DataFeed) (name : string) (st : df_state) :
  _mintInfo df = None ->
  resolveSymbol wSolToSolString NATIVE_MINT df name st =
  (st, ResolveError "cannot resolve symbol").
Proof. intros H. unfold resolveSymbol. rewrite H. reflexivity. Qed.

(** C32: With mint info, resolveSymbol closes the chart's previous
    connection before opening the new one, so exactly one socket is open
    afterwards, for the resolved pool; the descriptor is for that pool with
    price scale 10 ^ (9 + floor(decimals / 2)); the cache is untouched. *)
Theorem resolveSymbol_one_socket (df : DataFeed) (mi : MintInfo) (name : string)
  (st : df_state) :
  _mintInfo df = Some mi ->
  let '(st', out) := resolveSymbol wSolToSolString NATIVE_MINT df name st in
  sockets (stream st') = [name] /\ lastBarsCache st' = lastBarsCache st /\
  match out with
  | Resolved info =>
      poolId info = name /\ pricescale info = (10 ^ (9 + mint_decimals mi / 2))%Z
  | ResolveError _ => False
  end.
Proof. intros H. unfold resolveSymbol. rewrite H. simpl. auto. Qed.

(** unsubscribeBars is idempotent, and unsubscribing an id that is not
    subscribed changes nothing. *)
Theorem unsubscribeBars_idempotent (uid : string) (st : df_state) :
  unsubscribeBars uid (unsubscribeBars uid st) = unsubscribeBars uid st /\
  (subs (stream st) !! uid = None -> unsubscribeBars uid st = st).
Proof.
  unfold unsubscribeBars, unsubscribeFromStream, set_stream. simpl. split.
  - rewrite delete_delete_eq. reflexivity.
  - intros H. rewrite delete_id by exact H. destruct st as [c k [so su]]. reflexivity.
Qed.

(** subscribeBars registers the subscriber for the symbol's pool with
    the pool's cached last bar as the seed of the live tail, leaves the
    other subscriptions and the cache as they were, and does nothing for a
    birdeye symbol. *)
Theorem subscribeBars_seeds_cache (df : DataFeed) (si : SymbolInfo) (res uid : string)
  (st : df_state) :
  let st' := subscribeBars df si res uid st in
  if String.eqb (exchange si) "birdeye" then st' = st
  else subs (stream st') !! uid =
         Some (mkSub (poolId si) res (lastBarsCache st !! poolId si)) /\
       (forall uid', uid' <> uid -> subs (stream st') !! uid' = subs (stream st) !! uid') /\
       lastBarsCache st' = lastBarsCache st.
Proof.
  unfold subscribeBars. destruct (String.eqb (exchange si) "birdeye"); [reflexivity|].
  simpl. split; [apply lookup_insert_eq|split; [|reflexivity]].
  intros uid' Hne. apply lookup_insert_ne. congruence.
Qed.

End DatafeedFacts.

(** Whatever response getBars receives, it stores the response's cursor. *)
Lemma getBars_complete_cursor (ipd : Q) (si : SymbolInfo) (res : string) (fd : bool)
  (rows : option (list TradeData.TradeData)) (npk : option string) (st : df_state) :
  nextPageKey (fst (getBars_complete ipd si res fd (KlineOk rows npk) st)) = npk.
Proof.
  unfold getBars_complete. destruct (match rows with Some r => r | None => [] end); [reflexivity|].
  destruct fd; [destruct (clamp_single _ _)|]; reflexivity.
Qed.

(** C8: A stale response is applied to the shared cursor: the response
    is never checked against the symbol being shown.  In any state where
    the current session of a pool B is over (no cursor, so B's next
    getBars answers noData), a response of any symbol A, for any
    resolution and any rows, that carries a cursor [k] makes B's next
    getBars request pool B's history with A's cursor instead. *)
Theorem getBars_stale_cursor_crosstalk (ipd : Q) (symA symB : SymbolInfo) (resA resB : string)
  (fdA : bool) (rows : option (list TradeData.TradeData)) (k : string) (st : df_state) :
  k <> ""%string -> nextPageKey st = None ->
  snd (getBars_begin symB resB false st) = inl (History [] true) /\
  snd (getBars_begin symB resB false (fst (getBars_complete ipd symA resA fdA (KlineOk rows (Some k)) st))) =
  inr (mkQuery (poolId symB) (getBars_frame resB) 300 (Some k)).
Proof.
  intros Hk Hst. unfold getBars_begin. rewrite getBars_complete_cursor, Hst. cbn.
  apply String.eqb_neq in Hk. rewrite Hk. split; reflexivity.
Qed.

(** The only label whose interval string "5m" is also its own. *)
Lemma append_m_5m (r : string) : String.append r "m" = "5m" -> r = "5".
Proof.
  destruct r as [|a [|b r]]; simpl; intros H; try discriminate.
  - injection H as ->. reflexivity.
  - injection H as _ _ H. destruct r; discriminate.
Qed.

(** The resolutions onReady advertises to the charting library are
    exactly the labels for which getBars requests their own interval, and
    each is a label of the resolution table; getBars fetches every other
    label as 5-minute klines. *)
Theorem onReady_resolutions_requested (df : DataFeed) (r : string) :
  (In r (cfg_supported_resolutions (onReady df)) <->
   getBars_frame r = String.append r "m" /\ exists u, ResolutionToSeconds r = Some u) /\
  (~ In r (cfg_supported_resolutions (onReady df)) -> getBars_frame r = "5m").
Proof.
  unfold onReady, configurationData, getBars_frame, includes. cbn [cfg_supported_resolutions].
  split.
  - split.
    + intros Hin. destruct Hin as [<-|[<-|[<-|[]]]]; split; try reflexivity; eexists; reflexivity.
    + destruct (existsb (String.eqb r) supported_resolutions) eqn:E.
      * intros _. apply existsb_exists in E as (x & Hx & Heq).
        apply String.eqb_eq in Heq. subst x. exact Hx.
      * intros [Hf _]. apply eq_sym, append_m_5m in Hf. subst r. simpl. tauto.
  - intros Hn. destruct (existsb (String.eqb r) supported_resolutions) eqn:E; [|reflexivity].
    apply existsb_exists in E as (x & Hx & Heq). apply String.eqb_eq in Heq. subst x.
    contradiction.
Qed.

(** ** Witnesses *)

Lemma getBars_stale_cursor_crosstalk_witness :
  snd (getBars_begin (sample_symbol "B") "1" false
         (fst (getBars_complete 0 (sample_symbol "A") "1" true
                 (KlineOk (Some [kline_row 120 1 1 1 1]) (Some "a-page-2")) df_state_init))) =
  inr (mkQuery "B" "1m" 300 (Some "a-page-2")).
Proof.
  exact (proj2 (getBars_stale_cursor_crosstalk 0 (sample_symbol "A") (sample_symbol "B") "1" "1" true
                  (Some [kline_row 120 1 1 1 1]) "a-page-2" df_state_init ltac:(discriminate) eq_refl)).
Defined.

Lemma getBars_exhausted_no_request_witness :
  str_truthy (nextPageKey df_state_init) = false /\
  getBars 0 sample_fetch (sample_symbol "P") "1" false df_state_init =
  (df_state_init, History [] true, []).
Proof.
  split; [reflexivity|].
  exact (getBars_exhausted_no_request 0 sample_fetch (sample_symbol "P") "1" df_state_init eq_refl).
Defined.

Lemma getBars_ascending_witness :
  getBars 0 sample_fetch (sample_symbol "P") "1" true df_state_init =
    (fst (fst sample_run), History sample_bars false, snd sample_run) /\
  chain (fun x y => js_lt (time x) (time y) = true) sample_bars.
Proof.
  assert (H : getBars 0 sample_fetch (sample_symbol "P") "1" true df_state_init =
              (fst (fst sample_run), History sample_bars false, snd sample_run))
    by (vm_compute; reflexivity).
  split; [exact H | exact (getBars_ascending 0 _ _ _ _ _ _ _ _ H)].
Defined.

Lemma getBars_caches_newest_witness :
  getBars 0 sample_fetch (sample_symbol "P") "1" true df_state_init =
    (fst (fst sample_run), History sample_bars false, snd sample_run) /\
  lastBarsCache (fst (fst sample_run)) !! "P" = last sample_bars /\
  (forall p, p <> poolId (sample_symbol "P") ->
     lastBarsCache (fst (fst sample_run)) !! p = lastBarsCache df_state_init !! p).
Proof.
  assert (H : getBars 0 sample_fetch (sample_symbol "P") "1" true df_state_init =
              (fst (fst sample_run), History sample_bars false, snd sample_run))
    by (vm_compute; reflexivity).
  split; [exact H | exact (getBars_caches_newest 0 _ _ _ _ _ _ _ H)].
Defined.

Lemma getBars_error_commits_nothing_witness :
  (forall q, (fun _ : kline_query => KlineFail) q = KlineFail) /\
  (true = true \/ str_truthy (nextPageKey df_state_init) = true) /\
  let '(st', h, qs) := getBars 0 (fun _ => KlineFail) (sample_symbol "P") "1" true df_state_init in
  h = HistoryError /\ lastBarsCache st' = lastBarsCache df_state_init /\
  stream st' = stream df_state_init.
Proof.
  assert (Hf : forall q, (fun _ : kline_query => KlineFail) q = KlineFail) by reflexivity.
  assert (Hr : true = true \/ str_truthy (nextPageKey df_state_init) = true) by (left; reflexivity).
  split; [exact Hf|]. split; [exact Hr|].
  exact (getBars_error_commits_nothing 0 _ (sample_symbol "P") "1" true df_state_init Hf Hr).
Defined.

Lemma getBars_bars_wf_witness :
  (forall q rows npk, sample_fetch q = KlineOk (Some rows) npk -> Forall row_wf rows) /\
  getBars 0 sample_fetch (sample_symbol "P") "1" true df_state_init =
    (fst (fst sample_run), History sample_bars false, snd sample_run) /\
  Forall bar_wf sample_bars.
Proof.
  assert (Hw : forall q rows npk, sample_fetch q = KlineOk (Some rows) npk -> Forall row_wf rows).
  { intros q rows npk Hq. injection Hq as <- _.
    apply (forallb_Forall_iff _ row_wfb); [apply row_wfb_spec | vm_compute; reflexivity]. }
  assert (H : getBars 0 sample_fetch (sample_symbol "P") "1" true df_state_init =
              (fst (fst sample_run), History sample_bars false, snd sample_run))
    by (vm_compute; reflexivity).
  split; [exact Hw|]. split; [exact H|].
  exact (getBars_bars_wf 0 _ _ _ _ _ _ _ _ Hw H).
Defined.

Lemma resolveSymbol_error_witness :
  _mintInfo (new_DataFeed "connection" None None None) = None /\
  resolveSymbol (fun s => s) "So11111111111111111111111111111111111111112"
    (new_DataFeed "connection" None None None) "P" df_state_init =
  (df_state_init, ResolveError "cannot resolve symbol").
Proof.
  split; [reflexivity|].
  exact (resolveSymbol_error (fun s => s) "So11111111111111111111111111111111111111112"
           (new_DataFeed "connection" None None None) "P" df_state_init eq_refl).
Defined.

Lemma resolveSymbol_one_socket_witness :
  _mintInfo (new_DataFeed "connection" (Some sample_mint) None None) = Some sample_mint /\
  let '(st', out) := resolveSymbol (fun s => s) "So11111111111111111111111111111111111111112"
                       (new_DataFeed "connection" (Some sample_mint) None None) "P"
                       (set_stream (startSocket "Q" stream_empty) df_state_init) in
  sockets (stream st') = ["P"] /\
  lastBarsCache st' = lastBarsCache (set_stream (startSocket "Q" stream_empty) df_state_init) /\
  match out with
  | Resolved info => poolId info = "P" /\ pricescale info = (10 ^ (9 + mint_decimals sample_mint / 2))%Z
  | ResolveError _ => False
  end.
Proof.
  split; [reflexivity|].
  exact (resolveSymbol_one_socket (fun s => s) "So11111111111111111111111111111111111111112"
           (new_DataFeed "connection" (Some sample_mint) None None) sample_mint "P"
           (set_stream (startSocket "Q" stream_empty) df_state_init) eq_refl).
Defined.

Lemma unsubscribeBars_idempotent_witness :
  subs (stream df_state_init) !! "uid" = None /\
  unsubscribeBars "uid" (unsubscribeBars "uid" df_state_init) = unsubscribeBars "uid" df_state_init /\
  unsubscribeBars "uid" df_state_init = df_state_init.
Proof.
  assert (H : subs (stream df_state_init) !! "uid" = None) by reflexivity.
  destruct (unsubscribeBars_idempotent "uid" df_state_init) as [H1 H2].
  split; [exact H|]. split; [exact H1 | exact (H2 H)].
Defined.

End Datafeed.
