(* ===== verification/Pagination.v ===== *)
(** * A pagination session over DataFeed.getBars

    The charting library calls getBars once with [firstDataRequest = true],
    then with [false] for older pages until an answer carries
    [noData: true] or the error callback fires.  [session] is that loop
    (modelled from the specification's pagination section, since the
    charting library is not part of the sources) over the [getBars] of
    [Datafeed.v], with fuel bounding the number of calls.  [paged_server]
    is an upstream that serves a chain of pages: the first page for a
    request without cursor, the page of a cursor otherwise, each with the
    cursor of the next page or none after the last.  The theorem of this
    file shows that such a session terminates: with one more call than
    there are pages, every page is requested once, in order, and the last
    answer is noData, sent without a request. *)

From Stdlib Require Import ZArith QArith List Lia String.
From stdpp Require Import gmap strings.
From S2P Require Import Prelude Bars Resolution Bucketer Streaming Datafeed.
Import ListNotations.

Module Pagination.
Import Resolution Datafeed.

(** The library's loop of getBars calls for one session. *)
Fixpoint session (initPoolPriceDecimal : Q) (fetch : kline_query -> kline_response)
  (si : SymbolInfo) (res : string) (fuel : nat) (first : bool) (st : df_state)
  : list history * list kline_query * df_state :=
  match fuel with
  | 0 => ([], [], st)
  | S f =>
      let '(st1, h, qs) := getBars initPoolPriceDecimal fetch si res first st in
      match h with
      | History _ false =>
          let '(hs, qs', st2) := session initPoolPriceDecimal fetch si res f false st1 in
          (h :: hs, qs ++ qs', st2)
      | _ => ([h], qs, st1)
      end
  end.

(** The cursor that follows [k] in the chain [ks]. *)
Fixpoint next_after (ks : list string) (k : string) : option string :=
  match ks with
  | k1 :: r => if String.eqb k k1 then hd_error r else next_after r k
  | [] => None
  end.

(** An upstream serving the pages of a chain of cursors [ks]. *)
Definition paged_server (ks : list string) (page : option string -> list TradeData.TradeData)
  (q : kline_query) : kline_response :=
  KlineOk (Some (page (q_nextPageKey q)))
    (match q_nextPageKey q with None => hd_error ks | Some k => next_after ks k end).

Definition sample_page (c : option string) : list TradeData.TradeData :=
  [kline_row 120 1 2 0.5 1.5].

Lemma next_after_app (pre r : list string) (k : string) :
  NoDup (pre ++ k :: r) -> next_after (pre ++ k :: r) k = hd_error r.
Proof.
  induction pre as [|p pre IH]; simpl; intros Hnd.
  - rewrite String.eqb_refl. reflexivity.
  - inversion Hnd as [|? ? Hnin Hnd']; subst.
    destruct (String.eqb_spec k p) as [->|]; [|exact (IH Hnd')].
    exfalso. apply Hnin. set_solver.
Qed.

Section Session.

Variable initPoolPriceDecimal : Q.
Variable si : SymbolInfo.
Variable res : string.
Variable ks : list string.
Variable page : option string -> list TradeData.TradeData.

Hypothesis ks_nodup : NoDup ks.
Hypothesis ks_nonempty : Forall (fun k => k <> "") ks.
Hypothesis pages_nonempty : forall c, page c <> [].

Abbreviation server := (paged_server ks page).
Abbreviation session_ := (session initPoolPriceDecimal server si res).

Definition next_of (c : option string) : option string :=
  match c with None => hd_error ks | Some k => next_after ks k end.

(** A call that finds a page: one request with the session's cursor, the
    page delivered, the next cursor stored. *)
Lemma getBars_page (first : bool) (st : df_state) (c : option string) :
  (if first then c = None else nextPageKey st = c /\ str_truthy c = true) ->
  exists st1 bs,
    getBars initPoolPriceDecimal server si res first st =
      (st1, History bs false, [mkQuery (poolId si) (getBars_frame res) 300 c]) /\
    nextPageKey st1 = next_of c.
Proof.
  intros Hc. unfold getBars, getBars_begin.
  assert (Hq : (if first then None else nextPageKey st) = c /\
               negb first && negb (str_truthy (if first then None else nextPageKey st)) = false /\
               (if str_truthy (if first then None else nextPageKey st)
                then (if first then None else nextPageKey st) else None) = c).
  { destruct first; [subst c; auto|destruct Hc as [-> Ht]; rewrite Ht; auto]. }
  destruct Hq as (Hnpk & Hguard & Hcur). rewrite Hguard, Hcur.
  unfold getBars_complete, paged_server. simpl q_nextPageKey.
  destruct (page c) as [|r rows] eqn:Hp; [exfalso; exact (pages_nonempty c Hp)|].
  eexists _, _. split; [reflexivity|].
  destruct first; [destruct (clamp_single _ _)|]; reflexivity.
Qed.

(** A follow-up call after the last page answers noData with no request. *)
Lemma getBars_exhausted (st : df_state) :
  nextPageKey st = None ->
  getBars initPoolPriceDecimal server si res false st = (st, History [] true, []).
Proof. intros H. destruct st as [c n s]; simpl in H; subst n. reflexivity. Qed.

(** From the cursor [k] of the chain [pre ++ k :: r], the rest of the
    session requests [k] and the cursors of [r] in order, then ends. *)
Lemma session_suffix (r : list string) :
  forall pre k st fuel, ks = pre ++ k :: r -> nextPageKey st = Some k ->
  (List.length r + 2 <= fuel)%nat ->
  let '(hs, qs, _) := session_ fuel false st in
  map q_nextPageKey qs = map Some (k :: r) /\
  List.last hs HistoryError = History [] true /\ List.length hs = (List.length r + 2)%nat.
Proof.
  induction r as [|k2 r IH]; intros pre k st fuel Hks Hst Hf;
    (destruct fuel as [|f]; [lia|]); cbn [session].
  all: assert (Hk : str_truthy (Some k) = true)
         by (rewrite Forall_forall in ks_nonempty; simpl;
             apply negb_true_iff, String.eqb_neq, ks_nonempty; rewrite Hks; set_solver).
  all: destruct (getBars_page false st (Some k) (conj Hst Hk)) as (st1 & bs & -> & Hn1).
  all: unfold next_of in Hn1; rewrite Hks, next_after_app in Hn1 by (rewrite <- Hks; exact ks_nodup).
  - destruct f as [|f]; [lia|]. cbn [session].
    rewrite getBars_exhausted by exact Hn1. simpl. auto.
  - simpl in Hn1.
    specialize (IH (pre ++ [k]) k2 st1 f ltac:(rewrite <- app_assoc; exact Hks) Hn1 ltac:(simpl in Hf; lia)).
    destruct (session_ f false st1) as [[hs qs] st2]. destruct IH as (Hq & Hl & Hlen).
    simpl. rewrite Hq. split; [reflexivity|]. split; [|simpl; lia].
    destruct hs; [discriminate|exact Hl].
Qed.

End Session.

(** ** Properties *)

(** C9: A pagination session terminates: against an upstream serving a
    chain of non-empty pages with distinct non-empty cursors [ks], a
    session given one call more than there are pages requests the first
    page without cursor, then each cursor of the chain once and in order,
    and its last answer is noData, sent without a request. *)
Theorem session_terminates (initPoolPriceDecimal : Q) (si : SymbolInfo) (res : string)
  (ks : list string) (page : option string -> list TradeData.TradeData)
  (st : df_state) (fuel : nat) :
  NoDup ks -> Forall (fun k => k <> "") ks -> (forall c, page c <> []) ->
  (List.length ks + 2 <= fuel)%nat ->
  let '(hs, qs, _) := session initPoolPriceDecimal (paged_server ks page) si res fuel true st in
  map q_nextPageKey qs = None :: map Some ks /\
  List.last hs HistoryError = History [] true /\ List.length hs = (List.length ks + 2)%nat.
Proof.
  intros Hnd Hne Hp Hf. destruct fuel as [|f]; [lia|]. cbn [session].
  destruct (getBars_page initPoolPriceDecimal si res ks page Hp true st None eq_refl)
    as (st1 & bs & -> & Hn1).
  simpl in Hn1. destruct ks as [|k r] eqn:Hks.
  - destruct f as [|f]; [lia|]. cbn [session].
    rewrite (getBars_exhausted initPoolPriceDecimal si res [] page st1 Hn1). simpl. auto.
  - pose proof (session_suffix initPoolPriceDecimal si res (k :: r) page Hnd Hne Hp r [] k st1 f
                  eq_refl Hn1 ltac:(simpl in Hf; lia)) as H.
    destruct (session _ _ _ _ f false st1) as [[hs qs] st2]. destruct H as (Hq & Hl & Hlen).
    simpl. rewrite Hq. split; [reflexivity|]. split; [|simpl in *; lia].
    destruct hs; [discriminate|exact Hl].
Qed.

(** ** Witnesses *)

Lemma session_terminates_witness :
  let '(hs, qs, _) := session 0 (paged_server ["p2"; "p3"] sample_page) (sample_symbol "P") "1"
                        4 true df_state_init in
  map q_nextPageKey qs = [None; Some "p2"; Some "p3"] /\
  List.last hs HistoryError = History [] true /\ List.length hs = 4%nat.
Proof.
  apply (session_terminates 0 (sample_symbol "P") "1" ["p2"; "p3"] sample_page df_state_init 4).
  - apply (bool_decide_unpack _). vm_compute. reflexivity.
  - repeat constructor; discriminate.
  - discriminate.
  - simpl. lia.
Defined.

End Pagination.
