(* ===== verification/Chart.v ===== *)
(** * The chart component

    TVChart.tsx: [fetchChartData] (43-142), the load step of the chart
    effect ([loadData], 317-333) and the live arrow listener (338-356);
    the effect's runs and teardown are in [ChartEffect.v].  The candlestick series belongs to the
    lightweight-charts library; its contract is the class [CandleSeries]
    (setData needs strictly ascending times, update may replace the last
    bar or append a later one and throws on an earlier one), and the
    chart's theorems are proved against that interface.  [list_series] is
    an instance that discharges it. *)

From Stdlib Require Import ZArith QArith Qminmax List Lia Lqa Bool String Ascii.
From S2P Require Import Prelude Bars Resolution Bucketer.
Import ListNotations.
Open Scope list_scope.

Module Chart.
Import Resolution.

(** Strictly ascending bar times. *)
Fixpoint ascendingb (l : list LightweightBar) : bool :=
  match l with
  | [] => true
  | x :: l' =>
      match l' with
      | [] => true
      | y :: _ => js_lt (time x) (time y) && ascendingb l'
      end
  end.

(** [series.update(bar)] on the bars of a series: same time replaces the
    last bar, a later time appends, an earlier one throws. *)
Definition series_update_ref (b : LightweightBar) (bs : list LightweightBar)
  : option (list LightweightBar) :=
  match rev bs with
  | [] => Some [b]
  | lb :: rest =>
      match time b, time lb with
      | Some x, Some y =>
          if (x =? y)%Z then Some (rev rest ++ [b])
          else if (y <? x)%Z then Some (bs ++ [b])
          else None
      | _, _ => None
      end
  end.

(** The contract of a candlestick series of lightweight-charts. *)
Class CandleSeries (T : Type) := {
  series_bars : T -> list LightweightBar;
  setData : list LightweightBar -> T -> option T;
  update : LightweightBar -> T -> option T;
  setData_spec : forall l s,
    option_map series_bars (setData l s) = if ascendingb l then Some l else None;
  update_spec : forall b s,
    option_map series_bars (update b s) = series_update_ref b (series_bars s)
}.

(** The reference series: the list of its bars. *)
#[export] Instance list_series : CandleSeries (list LightweightBar).
Proof.
  refine {| series_bars := fun s => s;
            setData := fun l _ => if ascendingb l then Some l else None;
            update := series_update_ref |}.
  - intros l s. destruct (ascendingb l); reflexivity.
  - intros b s. destruct (series_update_ref b s); reflexivity.
Defined.

(** [poolId.split('_')]. *)
Fixpoint split_underscore (s : string) : list string :=
  match s with
  | EmptyString => [EmptyString]
  | String c s' =>
      match split_underscore s' with
      | [] => [String c EmptyString]
      | w :: ws => if Ascii.eqb c "_"%char then EmptyString :: w :: ws
                   else String c w :: ws
      end
  end.

(** [parts[i]] in a template string: [undefined] prints as "undefined". *)
Definition nth_or_undefined (i : nat) (parts : list string) : string :=
  match nth_error parts i with Some p => p | None => "undefined" end.

Definition USDC_MINT : string := "EPjFWdd5AufqSSqeM2qN1xzybapC8G4wEGGkZwyTDt1v".

(** The two upstream requests of fetchChartData. *)
Inductive chart_request :=
| BirdeyeReq (base quote frame : string) (from to_ : Z)
| KlineReq (poolId interval : string) (limit : Z).

(** [data.items] / [data.rows] (possibly missing), or a failure. *)
Inductive chart_response :=
| BirdeyeOk (items : option (list BirdeyeItem.BirdeyeItem))
| KlineRowsOk (rows : option (list TradeData.TradeData))
| ChartFail.

Definition fetchChartData_request (poolId resolution : string) (from to_ : Z)
  (birdeye : bool) (hasMintInfo : bool) : chart_request :=
  if birdeye then
    let isMarketCap := hasMintInfo && match index 0 "marketcap" poolId with
                                      | Some _ => true | None => false end in
    BirdeyeReq (nth_or_undefined 0 (split_underscore poolId))
               (if isMarketCap then USDC_MINT else nth_or_undefined 1 (split_underscore poolId))
               (birdeye_frame resolution) from to_
  else KlineReq poolId (kline_frame resolution) 300.

(** fetchChartData: the bars, or the rejection of its promise.  The
    multiplier is the supply for a market-cap chart and 1 otherwise. *)
Definition fetchChartData (poolId resolution : string) (from to_ : Z) (birdeye : bool)
  (supply : option Q) (resp : chart_response) : option (list LightweightBar) :=
  let timeUnit := ResolutionToSeconds resolution in
  if birdeye then
    match resp with
    | BirdeyeOk (Some ((_ :: _) as items)) =>
        let isMarketCap := match supply, index 0 "marketcap" poolId with
                           | Some _, Some _ => true | _, _ => false end in
        let multiplier := match supply with
                          | Some q => if isMarketCap then q else 1%Q
                          | None => 1%Q end in
        Some (birdeye_bars from to_ timeUnit multiplier items)
    | BirdeyeOk _ => Some []
    | _ => None
    end
  else
    match resp with
    | KlineRowsOk (Some ((_ :: _) as rows)) => Some (kline_bars timeUnit rows)
    | KlineRowsOk _ => Some []
    | _ => None
    end.

(** The chart state the component keeps in refs. *)
Record chart (T : Type) := mkChart {
  candle : T;
  volumeData : list (jstime * Q);
  lastBarRef : option LightweightBar
}.
Arguments mkChart {T}. Arguments candle {T}. Arguments volumeData {T}.
Arguments lastBarRef {T}.

Section WithSeries.
Context {T : Type} `{CandleSeries T}.

(** loadData after the await: [setData] the bars (a throw is caught by the
    [try], leaving the refs as they were), then the volumes and the last
    bar ref. *)
Definition loadData (bars : option (list LightweightBar)) (c : chart T) : chart T :=
  match bars with
  | Some ((_ :: _) as bs) =>
      match setData bs (candle c) with
      | Some s' => mkChart s' (map (fun b => (time b, or0 (volume b))) bs) (last_opt bs)
      | None => c
      end
  | _ => c
  end.

(** The arrow listener: nothing before the first load; otherwise
    [candle.update(newBar)], which may throw (the error escapes the
    listener), then [lastBarRef.current = newBar]. *)
Definition onArrow (next : LightweightBar) (c : chart T) : option (chart T) :=
  match lastBarRef c with
  | None => Some c
  | Some _ =>
      let newBar := {| time := time next; open := open next; high := high next;
                       low := low next; close := close next; volume := None |} in
      match update newBar (candle c) with
      | Some s' => Some (mkChart s' (volumeData c) (Some newBar))
      | None => None
      end
  end.

End WithSeries.

(** Samples for the witnesses: an empty chart on the reference series, a
    birdeye page, and a chart showing one bar. *)
Definition empty_chart : chart (list LightweightBar) := mkChart [] [] None.

Definition sample_items : list BirdeyeItem.BirdeyeItem :=
  [birdeye_item 1000 1 2 0.5 1.5 10; birdeye_item 1030 1.5 1.8 1.2 1.6 5].

Definition sample_birdeye_bars : list LightweightBar :=
  Eval vm_compute in birdeye_bars 0 2000 (ResolutionToSeconds "1") 1 sample_items.

Definition one_bar_chart : chart (list LightweightBar) :=
  mkChart [kline_open (Some 60%Z) (kline_row 60 1 1 1 1)] [] (Some (kline_open (Some 60%Z) (kline_row 60 1 1 1 1))).

Definition next_bar : LightweightBar := kline_open (Some 60%Z) (kline_row 125 2 2 2 2).

Definition arrow_result : chart (list LightweightBar) :=
  Eval vm_compute in match onArrow next_bar one_bar_chart with Some c => c | None => empty_chart end.

(** ** Lemmas *)

Abbreviation ascending := (chain (fun x y => js_lt (time x) (time y) = true)).

Lemma ascendingb_chain (l : list LightweightBar) : ascendingb l = true <-> ascending l.
Proof.
  induction l as [|x l IH]; [simpl; tauto|].
  destruct l as [|y l]; [simpl; tauto|].
  change (ascendingb (x :: y :: l)) with (js_lt (time x) (time y) && ascendingb (y :: l)).
  rewrite andb_true_iff, IH. reflexivity.
Qed.

(** Two bars in strictly decreasing time order are not ascending. *)
Lemma descending_not_ascending (x y : LightweightBar) l :
  chain (fun a b => js_lt (time b) (time a) = true) (x :: y :: l) ->
  ascendingb (x :: y :: l) = false.
Proof.
  intros [Hxy _]. simpl. destruct (time x) as [a|], (time y) as [b|];
    simpl in *; try discriminate.
  apply Z.ltb_lt in Hxy. replace (a <? b)%Z with false by (symmetry; apply Z.ltb_ge; lia).
  reflexivity.
Qed.

(** An update accepted by the series keeps its bars ascending. *)
Lemma series_update_ascending (b : LightweightBar) (bs bs' : list LightweightBar) :
  ascending bs -> series_update_ref b bs = Some bs' -> ascending bs'.
Proof.
  unfold series_update_ref. intros Hasc.
  destruct (rev bs) as [|lb rest] eqn:Hr; [intros [= <-]; exact I|].
  assert (Hbs : bs = rev rest ++ [lb]) by (rewrite <- (rev_involutive bs), Hr; reflexivity).
  rewrite Hbs in Hasc |- *.
  destruct (time b) as [x|] eqn:Hb, (time lb) as [y|] eqn:Hlb; try discriminate.
  destruct (Z.eqb_spec x y) as [->|Hne].
  - intros [= <-]. apply (chain_replace_last _ _ lb); [exact Hasc|].
    intros z. rewrite Hb, Hlb. tauto.
  - destruct (Z.ltb_spec y x); [|discriminate]. intros [= <-].
    rewrite <- app_assoc. apply chain_app_single; [exact Hasc|].
    rewrite Hlb, Hb. simpl. apply Z.ltb_lt. assumption.
Qed.

Section ChartFacts.
Context {T : Type} `{CandleSeries T}.

Lemma setData_none (l : list LightweightBar) (s : T) :
  ascendingb l = false -> setData l s = None.
Proof.
  intros Hl. pose proof (setData_spec l s) as Hs. rewrite Hl in Hs.
  destruct (setData l s); [discriminate|reflexivity].
Qed.

Lemma setData_some (l : list LightweightBar) (s : T) :
  ascendingb l = true -> exists s', setData l s = Some s' /\ series_bars s' = l.
Proof.
  intros Hl. pose proof (setData_spec l s) as Hs. rewrite Hl in Hs.
  destruct (setData l s) as [s'|]; [|discriminate].
  exists s'. injection Hs as Hs. auto.
Qed.

(** ** Properties *)

(** C20: The chart component's kline branch hands the newest-first bars of
    the upstream to [setData] without reversing them (getBars does reverse):
    as soon as the page spans two buckets the series rejects the data, the
    [try] swallows the error and the chart keeps its previous (empty)
    content. *)
Theorem loadData_kline_rejected (poolId res : string) (from to_ : Z) (sup : option Q)
  (rows : list TradeData.TradeData) (c : chart T) :
  (2 <= List.length (kline_bars (ResolutionToSeconds res) rows))%nat ->
  loadData (fetchChartData poolId res from to_ false sup (KlineRowsOk (Some rows))) c = c.
Proof.
  intros Hlen. destruct rows as [|r rows]; [simpl in Hlen; lia|].
  change (fetchChartData poolId res from to_ false sup (KlineRowsOk (Some (r :: rows))))
    with (Some (kline_bars (ResolutionToSeconds res) (r :: rows))).
  pose proof (Kline.kline_chain (ResolutionToSeconds res) (r :: rows)) as Hdec.
  destruct (kline_bars (ResolutionToSeconds res) (r :: rows)) as [|x [|y bs]];
    simpl in Hlen; try lia.
  unfold loadData.
  rewrite setData_none by (apply descending_not_ascending; exact Hdec). reflexivity.
Qed.

(** The birdeye branch hands strictly ascending bars to [setData]: a
    non-empty result is shown as it is and [lastBarRef] becomes its last
    (newest) bar. *)
Theorem loadData_birdeye_shown (poolId res : string) (from to_ : Z) (sup : option Q)
  (items : list BirdeyeItem.BirdeyeItem) (bs : list LightweightBar) (c : chart T) :
  fetchChartData poolId res from to_ true sup (BirdeyeOk (Some items)) = Some bs ->
  bs <> [] ->
  series_bars (candle (loadData (Some bs) c)) = bs /\
  lastBarRef (loadData (Some bs) c) = last_opt bs.
Proof.
  intros Hf Hne. unfold fetchChartData in Hf.
  destruct items as [|it items]; [injection Hf as <-; congruence|].
  injection Hf as Hf.
  destruct (setData_some bs (candle c)) as (s' & Hs & Hb).
  { apply ascendingb_chain. rewrite <- Hf. apply Birdeye.birdeye_chain. }
  unfold loadData. destruct bs as [|b bs']; [congruence|]. rewrite Hs. auto.
Qed.


End ChartFacts.

(** ** Witnesses *)

Lemma loadData_kline_rejected_witness :
  (2 <= List.length (kline_bars (ResolutionToSeconds "1")
                       [kline_row 120 1 2 1 2; kline_row 60 2 3 1 1]))%nat /\
  loadData (fetchChartData "P" "1" 0 2000 false None
              (KlineRowsOk (Some [kline_row 120 1 2 1 2; kline_row 60 2 3 1 1]))) empty_chart =
  empty_chart.
Proof.
  assert (H : (2 <= List.length (kline_bars (ResolutionToSeconds "1")
                       [kline_row 120 1 2 1 2; kline_row 60 2 3 1 1]))%nat)
    by (vm_compute; lia).
  split; [exact H | exact (loadData_kline_rejected "P" "1" 0 2000 None _ empty_chart H)].
Defined.

Lemma loadData_birdeye_shown_witness :
  fetchChartData "P_Q" "1" 0 2000 true None (BirdeyeOk (Some sample_items)) =
    Some sample_birdeye_bars /\
  sample_birdeye_bars <> [] /\
  series_bars (candle (loadData (Some sample_birdeye_bars) empty_chart)) = sample_birdeye_bars /\
  lastBarRef (loadData (Some sample_birdeye_bars) empty_chart) = last_opt sample_birdeye_bars.
Proof.
  assert (H1 : fetchChartData "P_Q" "1" 0 2000 true None (BirdeyeOk (Some sample_items)) =
               Some sample_birdeye_bars) by (vm_compute; reflexivity).
  assert (H2 : sample_birdeye_bars <> []) by (vm_compute; discriminate).
  split; [exact H1|]. split; [exact H2|].
  exact (loadData_birdeye_shown "P_Q" "1" 0 2000 None sample_items _ empty_chart H1 H2).
Defined.


End Chart.
