(* ===== verification/ChartEffect.v ===== *)
(** * The chart effect of TVChart: mount, load, live updates, teardown

    TVChart.tsx 219-378: when the connection, the pool and the container
    are there, the effect removes a previous chart, creates a chart with
    its series, stores them in [chartRef], starts [loadData] (whose
    continuation runs later, on the series it captured), sets the arrow
    listener for kline charts and registers the 1-second auto-save
    interval; its cleanup clears the interval, unsets the listener and
    removes the chart.  [comp] is the component's refs and registrations,
    [effect_step] one event: a run of the effect, the completion of a load,
    a live bar, or the cleanup.  The series is the [CandleSeries]
    interface of [Chart.v]; what a removed chart's series does with
    [setData] is not specified by the library's interface, so it is a
    parameter ([disposed_accepts]).  Also here: the tick formatter and the
    price format's [minMove] of the chart options. *)

From Stdlib Require Import ZArith QArith List Lia Bool String.
From S2P Require Import Prelude Bars Resolution Bucketer Chart.
Import ListNotations.
Open Scope list_scope.

Module ChartEffect.
Import Chart.

(** The time-scale tick formatter (lines 255-261): the dayjs format for a
    tick mark type. *)
Definition tickMarkFormat (tickMarkType : Z) : string :=
  if (tickMarkType =? 0)%Z then "YYYY/M"
  else if (tickMarkType <? 3)%Z then "M/D"
  else "H:mm".

(** [10 / Math.pow(10, Number(mintInfo?.decimals) ?? 2)] (line 278):
    [Number(undefined)] is NaN ([None]), and a number is never nullish, so
    the [?? 2] default never applies. *)
Definition minMove (decimals : option Z) : option Q :=
  match decimals with
  | Some d => Some (10 / (10 ^ d))%Q
  | None => None
  end.

(** A run of the effect: its dependencies as the guard of line 220 reads
    them, and whether the chart is a birdeye chart. *)
Inductive effect_event :=
| RunEffect (connection : bool) (poolId : option string) (container birdeye : bool)
| LoadDone (chart_id : nat) (bars : option (list LightweightBar))
| ArrowBar (next : LightweightBar)
| Cleanup.

Section Effect.
Context {T : Type} `{CandleSeries T}.

(** The series of a freshly created chart. *)
Variable empty_series : T.
(** Whether a removed chart's series still accepts [setData]. *)
Variable disposed_accepts : bool.

(** The component: [chartRef] (chart id, candle series, volume data),
    [lastBarRef], the loads in flight with the series each captured,
    whether the arrow listener and the auto-save interval are set, whether
    a cleanup is registered, and the next chart id. *)
Record comp := mkComp {
  chartRef : option (nat * T * list (jstime * Q));
  lastBarRef_c : option LightweightBar;
  loads : list (nat * T);
  listener : bool;
  autosave : bool;
  registered : bool;
  next_id : nat
}.

Definition comp_init : comp := mkComp None None [] false false false 0.

(** The effect body (lines 220-368); [None] when a cleanup is still
    registered, which React never allows. *)
Definition run_effect (connection : bool) (poolId : option string) (container birdeye : bool)
  (c : comp) : option comp :=
  if registered c then None
  else if negb connection || negb (str_truthy poolId) || negb container then Some c
  else
    let id := next_id c in
    Some (mkComp (Some (id, empty_series, [])) (lastBarRef_c c)
                 ((id, empty_series) :: loads c) (negb birdeye) true true (S id)).

(** The rest of loadData for the chart [id] (lines 324-332): on the chart
    shown, [loadData] of [Chart.v]; on a removed chart, the captured
    series' [setData] either throws (the catch logs it) or succeeds and the
    shared [lastBarRef] is set. *)
Definition load_done (id : nat) (bars : option (list LightweightBar)) (c : comp)
  : option comp :=
  match find (fun l => Nat.eqb (fst l) id) (loads c) with
  | None => None
  | Some (_, captured) =>
      let loads' := filter (fun l => negb (Nat.eqb (fst l) id)) (loads c) in
      match chartRef c with
      | Some (cid, cs, vol) =>
          if Nat.eqb cid id then
            let r := loadData bars (mkChart cs vol (lastBarRef_c c)) in
            Some (mkComp (Some (cid, candle r, volumeData r)) (lastBarRef r) loads'
                         (listener c) (autosave c) (registered c) (next_id c))
          else
            let lb := if disposed_accepts
                      then lastBarRef (loadData bars (mkChart captured [] (lastBarRef_c c)))
                      else lastBarRef_c c in
            Some (mkComp (chartRef c) lb loads' (listener c) (autosave c) (registered c) (next_id c))
      | None =>
          let lb := if disposed_accepts
                    then lastBarRef (loadData bars (mkChart captured [] (lastBarRef_c c)))
                    else lastBarRef_c c in
          Some (mkComp (chartRef c) lb loads' (listener c) (autosave c) (registered c) (next_id c))
      end
  end.

(** A live bar: the listener if it is set (lines 339-355), guarded by
    [!chartRef.current.candle || !lastBarRef.current]; [None] when
    [candle.update] throws. *)
Definition arrow_bar (next : LightweightBar) (c : comp) : option comp :=
  if negb (listener c) then Some c
  else match chartRef c with
       | None => Some c
       | Some (cid, cs, vol) =>
           match onArrow next (mkChart cs vol (lastBarRef_c c)) with
           | Some r => Some (mkComp (Some (cid, candle r, vol)) (lastBarRef r) (loads c)
                                    (listener c) (autosave c) (registered c) (next_id c))
           | None => None
           end
       end.

(** The cleanup (lines 370-377): the interval, the listener and the chart
    go; [lastBarRef] and the loads in flight stay. *)
Definition cleanup (c : comp) : option comp :=
  if registered c then Some (mkComp None (lastBarRef_c c) (loads c) false false false (next_id c))
  else None.

Definition effect_step (c : comp) (e : effect_event) : option comp :=
  match e with
  | RunEffect conn p cont be => run_effect conn p cont be c
  | LoadDone id bars => load_done id bars c
  | ArrowBar b => arrow_bar b c
  | Cleanup => cleanup c
  end.

Fixpoint run_effects (c : comp) (es : list effect_event) : option comp :=
  match es with
  | [] => Some c
  | e :: es' => match effect_step c e with Some c' => run_effects c' es' | None => None end
  end.

Inductive effect_reach : comp -> Prop :=
| effect_reach_init : effect_reach comp_init
| effect_reach_step c e c' : effect_reach c -> effect_step c e = Some c' -> effect_reach c'.

(** The invariant of the component's registrations. *)
Definition comp_inv (c : comp) : Prop :=
  (registered c = false -> chartRef c = None /\ listener c = false /\ autosave c = false) /\
  (registered c = true -> autosave c = true /\
     exists id s v, chartRef c = Some (id, s, v) /\ (id < next_id c)%nat) /\
  Forall (fun l => (fst l < next_id c)%nat) (loads c).

(** ** Lemmas *)

Lemma Forall_filter_sub {A} (P : A -> Prop) (f : A -> bool) (l : list A) :
  Forall P l -> Forall P (filter f l).
Proof.
  rewrite !Forall_forall. intros Hl x Hx. apply filter_In in Hx. apply Hl, Hx.
Qed.

(** The two cases of [comp_inv] when an event keeps the chart's id. *)
Ltac comp_inv_chart :=
  let Hr := fresh "Hr" in
  intros Hr;
  first
    [ match goal with Hoff : registered _ = false -> _ |- _ =>
        destruct (Hoff Hr) as [Hn _]; discriminate end
    | match goal with Hon : registered _ = true -> _ |- _ =>
        destruct (Hon Hr) as [Ha (id' & s & v & Hc & Hlt)];
        injection Hc as -> _ _; split; [exact Ha|];
        eexists _, _, _; split; [reflexivity|exact Hlt] end ].

Lemma comp_inv_step (c c' : comp) (e : effect_event) :
  comp_inv c -> effect_step c e = Some c' -> comp_inv c'.
Proof.
  intros Hinv Hstep. pose proof Hinv as (Hoff & Hon & Hloads).
  destruct e as [conn p cont be|id bars|b|]; simpl in Hstep.
  - unfold run_effect in Hstep. destruct (registered c) eqn:Er; [discriminate|].
    destruct (negb conn || negb (str_truthy p) || negb cont);
      injection Hstep as <-; [split; [|split]; auto; rewrite Er; discriminate|].
    split; [discriminate|]. split.
    + intros _. split; [reflexivity|]. eexists _, _, _. split; [reflexivity|simpl; lia].
    + constructor; [simpl; lia|]. eapply Forall_impl; [|exact Hloads]. simpl. intros; lia.
  - unfold load_done in Hstep.
    destruct (find _ (loads c)) as [[fid cap]|]; [|discriminate].
    pose proof (Forall_filter_sub _ (fun l => negb (Nat.eqb (fst l) id)) _ Hloads) as Hf.
    destruct (chartRef c) as [[[cid cs] vol]|] eqn:Ec; [destruct (Nat.eqb cid id)|];
      injection Hstep as <-; (split; [|split]); simpl; auto; try comp_inv_chart.
  - unfold arrow_bar in Hstep. destruct (listener c) eqn:El; simpl in Hstep;
      [|injection Hstep as <-; exact Hinv].
    destruct (chartRef c) as [[[cid cs] vol]|] eqn:Ec; [|injection Hstep as <-; exact Hinv].
    destruct (onArrow _ _) as [r|]; [|discriminate]. injection Hstep as <-.
    split; [|split]; simpl; auto; try comp_inv_chart.
  - unfold cleanup in Hstep. destruct (registered c); [|discriminate].
    injection Hstep as <-. split; [|split]; simpl; auto. discriminate.
Qed.

Lemma effect_reach_inv (c : comp) : effect_reach c -> comp_inv c.
Proof.
  induction 1 as [|c e c' _ IH Hstep].
  - split; [|split]; [intros _; auto|discriminate|constructor].
  - exact (comp_inv_step c c' e IH Hstep).
Qed.

(** What each operation does to the registrations. *)
Lemma run_effect_spec conn pid cont be (c c' : comp) :
  run_effect conn pid cont be c = Some c' ->
  registered c = false /\
  if conn && str_truthy pid && cont
  then registered c' = true /\ listener c' = negb be /\ chartRef c' <> None
  else c' = c.
Proof.
  unfold run_effect. destruct (registered c); [discriminate|].
  destruct conn, (str_truthy pid), cont; cbn; intros [= <-]; repeat split; discriminate.
Qed.

Lemma cleanup_spec (c c' : comp) :
  cleanup c = Some c' ->
  registered c = true /\ registered c' = false /\ listener c' = false /\ chartRef c' = None.
Proof. unfold cleanup. destruct (registered c); [intros [= <-]; auto|discriminate]. Qed.

Lemma load_done_flags id bars (c c' : comp) :
  load_done id bars c = Some c' -> registered c' = registered c /\ listener c' = listener c.
Proof. unfold load_done. intros Hc. destr_in Hc; injection Hc as <-; split; reflexivity. Qed.

Lemma arrow_bar_flags b (c c' : comp) :
  arrow_bar b c = Some c' -> registered c' = registered c /\ listener c' = listener c.
Proof. unfold arrow_bar. intros Hc. destr_in Hc; injection Hc as <-; split; reflexivity. Qed.

(** ** Properties *)

(** C21: Teardown is complete: in every state the effect can reach, under
    any order of runs, load completions, live bars and cleanups, when no
    cleanup is registered (before the first run, after a cleanup, or after
    a run stopped by its guard) there is no chart, no arrow listener and
    no auto-save interval; while one is registered, the interval runs and
    chartRef holds a chart the effect created; and a cleanup leaves none
    of the three. *)
Theorem effect_teardown_complete (c : comp) :
  effect_reach c ->
  (registered c = false -> chartRef c = None /\ listener c = false /\ autosave c = false) /\
  (registered c = true -> autosave c = true /\
     exists id s v, chartRef c = Some (id, s, v) /\ (id < next_id c)%nat) /\
  (forall c', effect_step c Cleanup = Some c' ->
     chartRef c' = None /\ listener c' = false /\ autosave c' = false /\ registered c' = false).
Proof.
  intros Hr. destruct (effect_reach_inv c Hr) as (Hoff & Hon & _).
  split; [exact Hoff|]. split; [exact Hon|].
  intros c' Hc. simpl in Hc. unfold cleanup in Hc.
  destruct (registered c); [|discriminate]. injection Hc as <-. auto.
Qed.

(** C23: A load that completes after its chart was removed never touches
    the chart shown: chartRef, the listener and the interval stay as they
    are; [lastBarRef] stays too unless the removed chart's series accepts
    [setData]. *)
Theorem stale_load_keeps_chart (c c' : comp) (id : nat) (bars : option (list LightweightBar)) :
  (forall cid s v, chartRef c = Some (cid, s, v) -> cid <> id) ->
  effect_step c (LoadDone id bars) = Some c' ->
  chartRef c' = chartRef c /\ listener c' = listener c /\ autosave c' = autosave c /\
  (disposed_accepts = false -> lastBarRef_c c' = lastBarRef_c c).
Proof.
  intros Hstale Hstep. simpl in Hstep. unfold load_done in Hstep.
  destruct (find _ (loads c)) as [[fid cap]|]; [|discriminate].
  destruct (chartRef c) as [[[cid cs] vol]|] eqn:Ec.
  - destruct (Nat.eqb_spec cid id) as [->|]; [exfalso; exact (Hstale id cs vol eq_refl eq_refl)|].
    injection Hstep as <-. simpl. repeat split; try intros ->; reflexivity.
  - injection Hstep as <-. simpl. repeat split; try intros ->; reflexivity.
Qed.

(** C22: [lastBarRef] survives the teardown: from any state whose
    [lastBarRef] holds a bar (a chart that has loaded), after the cleanup
    and a run of the effect for the next kline chart, the first live bar
    is applied to the new chart's fresh, empty series before its own
    history has loaded, and becomes its [lastBarRef]; where [lastBarRef]
    is empty, as on a fresh mount, a live bar changes nothing. *)
Theorem stale_lastBar_across_switch (c c1 c2 : comp) (lb b : LightweightBar)
  (conn : bool) (pid : option string) (cont : bool) :
  series_bars empty_series = [] ->
  lastBarRef_c c = Some lb -> cleanup c = Some c1 ->
  run_effect conn pid cont false c1 = Some c2 -> conn && str_truthy pid && cont = true ->
  (exists c3 id s v nb, arrow_bar b c2 = Some c3 /\ chartRef c3 = Some (id, s, v) /\
     series_bars s = [nb] /\ time nb = time b /\ lastBarRef_c c3 = Some nb) /\
  (forall c0, lastBarRef_c c0 = None -> arrow_bar b c0 = Some c0).
Proof.
  intros He Hlb Hc Hrun Hg. split.
  - unfold cleanup in Hc. destruct (registered c); [|discriminate]. injection Hc as <-.
    unfold run_effect in Hrun. cbn in Hrun.
    destruct conn, (str_truthy pid), cont; cbn in Hg, Hrun; try discriminate Hg. injection Hrun as <-.
    pose proof (update_spec {| time := time b; open := open b; high := high b; low := low b;
                               close := close b; volume := None |} empty_series) as Hu.
    rewrite He in Hu. cbn in Hu.
    unfold arrow_bar, onArrow. cbn. rewrite Hlb.
    destruct (update _ empty_series) as [s'|]; [|discriminate]. injection Hu as Hs'.
    do 5 eexists. split; [reflexivity|]. split; [reflexivity|]. split; [exact Hs'|]. auto.
  - intros c0 H0. destruct c0 as [cr lbr ld li au rg ni]; cbn in H0; subst lbr.
    unfold arrow_bar, onArrow; cbn. destruct li; [|reflexivity]. cbn.
    destruct cr as [[[cid cs] vol]|]; reflexivity.
Qed.

End Effect.

Arguments chartRef {T} _.
Arguments lastBarRef_c {T} _.
Arguments loads {T} _.
Arguments listener {T} _.
Arguments autosave {T} _.
Arguments registered {T} _.
Arguments next_id {T} _.


(** ** Witnesses *)

Lemma stale_lastBar_across_switch_witness :
  exists c3 id s v nb,
    arrow_bar (kline_open (Some 60%Z) (kline_row 120 2 2 2 2))
      (mkComp (Some (1%nat, [], [])) (Some (kline_open (Some 60%Z) (kline_row 60 1 1 1 1)))
              [(1%nat, [])] true true true 2) = Some c3 /\
    chartRef c3 = Some (id, s, v) /\ s = [nb] /\ time nb = Some 120000%Z.
Proof.
  destruct (@stale_lastBar_across_switch (list LightweightBar) list_series []
              (mkComp (Some (0%nat, [kline_open (Some 60%Z) (kline_row 60 1 1 1 1)], []))
                      (Some (kline_open (Some 60%Z) (kline_row 60 1 1 1 1))) [] true true true 1)
              (mkComp None (Some (kline_open (Some 60%Z) (kline_row 60 1 1 1 1))) [] false false false 1)
              (mkComp (Some (1%nat, [], [])) (Some (kline_open (Some 60%Z) (kline_row 60 1 1 1 1)))
                      [(1%nat, [])] true true true 2)
              (kline_open (Some 60%Z) (kline_row 60 1 1 1 1)) (kline_open (Some 60%Z) (kline_row 120 2 2 2 2))
              true (Some "B"%string) true ltac:(reflexivity) eq_refl eq_refl eq_refl eq_refl)
    as [(c3 & id & s & v & nb & H1 & H2 & H3 & H4 & _) _].
  exists c3, id, s, v, nb. split; [exact H1|]. split; [exact H2|]. split; [exact H3|]. exact H4.
Defined.

Lemma effect_teardown_complete_witness :
  effect_reach [] false (mkComp None None [(0%nat, [])] false false false 1) /\
  chartRef (mkComp (T := list LightweightBar) None None [(0%nat, [])] false false false 1) = None.
Proof.
  assert (H1 : effect_reach [] false (mkComp (Some (0%nat, [], [])) None [(0%nat, [])] true true true 1))
    by (apply (effect_reach_step _ _ comp_init (RunEffect true (Some "A") true false));
        [constructor|reflexivity]).
  assert (H2 : effect_reach [] false (mkComp None None [(0%nat, [])] false false false 1))
    by (apply (effect_reach_step _ _ _ Cleanup _ H1); reflexivity).
  split; [exact H2|].
  exact (proj1 (proj1 (effect_teardown_complete [] false _ H2) eq_refl)).
Defined.

Lemma stale_load_keeps_chart_witness :
  chartRef (mkComp (T := list LightweightBar) (Some (1%nat, [], [])) None [(0%nat, []); (1%nat, [])]
              true true true 2) = Some (1%nat, [], []) /\
  (forall cid s v, chartRef (mkComp (T := list LightweightBar) (Some (1%nat, [], [])) None
                      [(0%nat, []); (1%nat, [])] true true true 2) = Some (cid, s, v) -> cid <> 0%nat) /\
  option_map chartRef (effect_step [] false
    (mkComp (Some (1%nat, [], [])) None [(0%nat, []); (1%nat, [])] true true true 2)
    (LoadDone 0 (Some [kline_open (Some 60%Z) (kline_row 60 1 1 1 1)]))) = Some (Some (1%nat, [], [])).
Proof.
  assert (Hs : forall cid s v, chartRef (mkComp (T := list LightweightBar) (Some (1%nat, [], [])) None
                      [(0%nat, []); (1%nat, [])] true true true 2) = Some (cid, s, v) -> cid <> 0%nat)
    by (intros cid s v Hc; injection Hc as <- _ _; discriminate).
  split; [reflexivity|]. split; [exact Hs|].
  destruct (effect_step [] false _ (LoadDone 0 (Some [kline_open (Some 60%Z) (kline_row 60 1 1 1 1)])))
    as [c'|] eqn:E; [|discriminate].
  simpl. f_equal.
  exact (proj1 (stale_load_keeps_chart [] false _ c' 0 _ Hs E)).
Defined.

End ChartEffect.
