(* ===== verification/Component.v ===== *)
(** * TVChart's hooks and how its effects drive each other

    TVChart.tsx wires its parts through React state and effect
    dependencies:
    - the module-level [refreshChartSubject] (line 30), to which every
      mount subscribes (lines 185-189, no cleanup), sets the state
      [refreshChartMint] (line 167);
    - [isNeedRefreshData] (line 178) is a dependency of the readiness
      effect (lines 191-217, [Readiness.v]), whose interval calls
      [setReloadChartTag] (line 166) when a probe succeeds or the attempts
      run out;
    - [reloadChartTag] is a dependency of the chart effect (lines 219-378,
      [ChartEffect.v]), which then tears the chart down and builds it again;
    - the connection effect (lines 380-384) closes the socket of a
      connection that is replaced or unmounted.
    [hstate] is one instance's state and effect registrations; [hstep]
    applies an event (a mount, new props, a publication on the subject,
    an interval tick or a probe result of a readiness run, a chart load or
    live bar, an unmount) and then, as React does after a state change,
    [commit]: for every effect whose dependencies changed (by [Object.is],
    which is equality on the values kept here), the previous run's cleanup
    then the effect again, cleanups first.  Only the dependencies that
    carry behaviour are kept: the chart effect's theme, mintB, curveType,
    appTheme and updateChartConfig are rendering inputs and do not change
    in the runs considered.  [Date.now()] in [setReloadChartTag] gives a
    fresh value, modelled as the next natural number.  [isNeedRefreshData]
    is [''] or a boolean in the code; as a dependency only its truth
    matters here, since a change between two falsy values re-runs an
    effect that has no interval and whose guard returns at once.

    The theorems, each over every reachable state: no chart, listener or
    interval outlives its run; a mounted instance's recorded dependencies
    are those of its current render ([deps_inv]); a refresh request for
    the shown mint starts a fresh readiness run and leaves the chart, a
    repeated one changing nothing; any probe with rows, of the current run
    or of one already cleaned up, reloads the chart shown; and mounts leak
    their subscriptions to the subject. *)

From Stdlib Require Import ZArith List Lia Bool String.
From S2P Require Import Prelude Bars Resolution Bucketer Readiness Chart ChartEffect.
Import ListNotations.
Open Scope nat_scope.
Open Scope list_scope.

Module Component.
Import Chart.

(** The props and store values the effects read. *)
Record props := mkProps {
  poolId : option string;
  birdeye : bool;
  mint : option string;            (** [mintInfo?.mint] *)
  needRefresh : bool;
  connection : option string;      (** the connection object, by identity *)
  container : bool;                (** [chartContainerRef.current] is set *)
  savedResolution : string
}.

Definition opt_str_eqb (a b : option string) : bool :=
  match a, b with
  | Some x, Some y => String.eqb x y
  | None, None => true
  | _, _ => false
  end.

(** [[birdeye, isNeedRefreshData, poolId, connection]] *)
Definition gate_deps := (bool * bool * option string * option string)%type.

Definition gate_deps_eqb (a b : gate_deps) : bool :=
  let '(b1, n1, p1, c1) := a in
  let '(b2, n2, p2, c2) := b in
  Bool.eqb b1 b2 && Bool.eqb n1 n2 && opt_str_eqb p1 p2 && opt_str_eqb c1 c2.

(** [[poolId, birdeye, connection, reloadChartTag, mintInfo?.mint, savedResolution]] *)
Definition chart_deps := (option string * bool * option string * nat * option string * string)%type.

Definition chart_deps_eqb (a b : chart_deps) : bool :=
  let '(p1, b1, c1, r1, m1, s1) := a in
  let '(p2, b2, c2, r2, m2, s2) := b in
  opt_str_eqb p1 p2 && Bool.eqb b1 b2 && opt_str_eqb c1 c2 && Nat.eqb r1 r2 &&
  opt_str_eqb m1 m2 && String.eqb s1 s2.

(** React re-runs an effect on its first render and when a dependency
    changed. *)
Definition changed {A} (eqb : A -> A -> bool) (old : option A) (new : A) : bool :=
  match old with None => true | Some o => negb (eqb o new) end.

(** Apply [f] to the element [k] of a list. *)
Fixpoint update_nth {A} (k : nat) (f : A -> option A) (l : list A) : option (list A) :=
  match l, k with
  | [], _ => None
  | x :: l', 0 => option_map (fun y => y :: l') (f x)
  | x :: l', S k' => option_map (cons x) (update_nth k' f l')
  end.

Inductive hevent :=
| Mount (p : props)
| Rerender (p : props)
| Publish (m : string)                        (** [refreshChartSubject.next(m)] *)
| GateTick                                    (** a tick of the current interval *)
| GateResolve (run : nat) (o : Readiness.probe_outcome)
| ChartEvent (e : ChartEffect.effect_event)   (** a load completing, a live bar *)
| Unmount.

Section Hooks.
Context {T : Type} `{CandleSeries T}.
Variable empty_series : T.
Variable disposed_accepts : bool.

(** One instance: whether it is mounted, its props, its two states, the
    subscriptions to the subject, and for each effect its last
    dependencies and what its runs registered: the readiness runs that
    started an interval (oldest first; [gate_live] when the current run
    has one), the chart effect's state, and the sockets closed. *)
Record hstate := mkH {
  mounted : bool;
  props_of : props;
  refreshChartMint : string;
  reloadChartTag : nat;
  subs : nat;
  gate_deps_of : option gate_deps;
  gates : list Readiness.gate;
  gate_live : bool;
  chart_deps_of : option chart_deps;
  chart : ChartEffect.comp (T := T);
  conn_deps_of : option (option string);
  closed : list string
}.

Definition no_props : props := mkProps None false None false None false "".

Definition hstate_init : hstate :=
  mkH false no_props "" 0 0 None [] false None ChartEffect.comp_init None [].

(** [isNeedRefreshData] of the instance. *)
Definition need (h : hstate) : bool :=
  Readiness.isNeedRefreshData (needRefresh (props_of h)) (refreshChartMint h) (mint (props_of h)).

Definition cur_gate_deps (h : hstate) : gate_deps :=
  (birdeye (props_of h), need h, poolId (props_of h), connection (props_of h)).

Definition cur_chart_deps (h : hstate) : chart_deps :=
  (poolId (props_of h), birdeye (props_of h), connection (props_of h), reloadChartTag h,
   mint (props_of h), savedResolution (props_of h)).

Definition is_some {A} (o : option A) : bool := match o with Some _ => true | None => false end.

(** The cleanup of the current readiness run: [clearInterval]. *)
Definition gate_cleanup (h : hstate) : list Readiness.gate :=
  if gate_live h then
    match update_nth (List.length (gates h) - 1) Readiness.on_cleanup (gates h) with
    | Some gs => gs
    | None => gates h
    end
  else gates h.

(** The cleanup of the connection effect: [closeSocket(connection)]. *)
Definition conn_cleanup (h : hstate) : list string :=
  match conn_deps_of h with
  | Some (Some c) => closed h ++ [c]
  | _ => closed h
  end.

(** The commit after a render: cleanups of the effects whose dependencies
    changed, then those effects again, in declaration order. *)
Definition commit (h : hstate) : option hstate :=
  let p := props_of h in
  let gch := changed gate_deps_eqb (gate_deps_of h) (cur_gate_deps h) in
  let cch := changed chart_deps_eqb (chart_deps_of h) (cur_chart_deps h) in
  let nch := changed opt_str_eqb (conn_deps_of h) (connection p) in
  let gates1 := if gch then gate_cleanup h else gates h in
  let chart1 := if cch && ChartEffect.registered (chart h)
                then ChartEffect.cleanup (chart h) else Some (chart h) in
  let closed1 := if nch then conn_cleanup h else closed h in
  let '(gates2, live2) :=
    if gch then
      match Readiness.gate_start (poolId p) (birdeye p) (need h) (is_some (connection p)) with
      | Some g => (gates1 ++ [g], true)
      | None => (gates1, false)
      end
    else (gates1, gate_live h) in
  match chart1 with
  | None => None
  | Some c1 =>
      let chart2 := if cch
                    then ChartEffect.run_effect empty_series (is_some (connection p)) (poolId p)
                           (container p) (birdeye p) c1
                    else Some c1 in
      match chart2 with
      | None => None
      | Some c2 =>
          Some (mkH (mounted h) p (refreshChartMint h) (reloadChartTag h) (subs h)
                    (Some (cur_gate_deps h)) gates2 live2 (Some (cur_chart_deps h)) c2
                    (Some (connection p)) closed1)
      end
  end.

Definition set_props (p : props) (h : hstate) : hstate :=
  mkH (mounted h) p (refreshChartMint h) (reloadChartTag h) (subs h) (gate_deps_of h)
      (gates h) (gate_live h) (chart_deps_of h) (chart h) (conn_deps_of h) (closed h).

Definition set_refresh (m : string) (h : hstate) : hstate :=
  mkH (mounted h) (props_of h) m (reloadChartTag h) (subs h) (gate_deps_of h)
      (gates h) (gate_live h) (chart_deps_of h) (chart h) (conn_deps_of h) (closed h).

Definition set_gates (gs : list Readiness.gate) (h : hstate) : hstate :=
  mkH (mounted h) (props_of h) (refreshChartMint h) (reloadChartTag h) (subs h) (gate_deps_of h)
      gs (gate_live h) (chart_deps_of h) (chart h) (conn_deps_of h) (closed h).

Definition bump_reload (h : hstate) : hstate :=
  mkH (mounted h) (props_of h) (refreshChartMint h) (S (reloadChartTag h)) (subs h)
      (gate_deps_of h) (gates h) (gate_live h) (chart_deps_of h) (chart h) (conn_deps_of h)
      (closed h).

Definition set_chart (c : ChartEffect.comp) (h : hstate) : hstate :=
  mkH (mounted h) (props_of h) (refreshChartMint h) (reloadChartTag h) (subs h) (gate_deps_of h)
      (gates h) (gate_live h) (chart_deps_of h) c (conn_deps_of h) (closed h).

(** A mount: a fresh instance (its states and refs start over) whose
    subject effect adds a subscription that is never removed. *)
Definition mount (p : props) (h : hstate) : option hstate :=
  if mounted h then None
  else commit (mkH true p "" 0 (S (subs h)) None [] false None ChartEffect.comp_init None
                   (closed h)).

(** An unmount runs every registered cleanup. *)
Definition unmount (h : hstate) : option hstate :=
  if mounted h then
    match (if ChartEffect.registered (chart h) then ChartEffect.cleanup (chart h)
           else Some (chart h)) with
    | Some c =>
        Some (mkH false (props_of h) (refreshChartMint h) (reloadChartTag h) (subs h) None
                  (gate_cleanup h) false None c None (conn_cleanup h))
    | None => None
    end
  else None.

(** [setRefreshChartMint(m)]: React bails out when the value is the same. *)
Definition publish (m : string) (h : hstate) : option hstate :=
  if mounted h && negb (String.eqb m (refreshChartMint h)) then commit (set_refresh m h)
  else Some h.

(** A tick of the current run's interval. *)
Definition gate_tick (h : hstate) : option hstate :=
  if gate_live h then
    match update_nth (List.length (gates h) - 1) Readiness.on_tick (gates h) with
    | Some gs => Some (set_gates gs h)
    | None => None
    end
  else None.

(** A probe of run [k] resolves; a reload of a mounted instance changes
    [reloadChartTag] and commits. *)
Definition gate_resolve (k : nat) (o : Readiness.probe_outcome) (h : hstate) : option hstate :=
  match nth_error (gates h) k, update_nth k (Readiness.on_result o) (gates h) with
  | Some g, Some gs =>
      match nth_error gs k with
      | Some g' =>
          if Nat.ltb (Readiness.reloads g) (Readiness.reloads g') && mounted h
          then commit (bump_reload (set_gates gs h))
          else Some (set_gates gs h)
      | None => None
      end
  | _, _ => None
  end.

Definition chart_event (e : ChartEffect.effect_event) (h : hstate) : option hstate :=
  match e with
  | ChartEffect.LoadDone _ _ | ChartEffect.ArrowBar _ =>
      option_map (fun c => set_chart c h) (ChartEffect.effect_step empty_series disposed_accepts (chart h) e)
  | _ => None
  end.

Definition hstep (h : hstate) (e : hevent) : option hstate :=
  match e with
  | Mount p => mount p h
  | Rerender p => if mounted h then commit (set_props p h) else None
  | Publish m => publish m h
  | GateTick => gate_tick h
  | GateResolve k o => gate_resolve k o h
  | ChartEvent ce => chart_event ce h
  | Unmount => unmount h
  end.

Fixpoint hrun (h : hstate) (es : list hevent) : option hstate :=
  match es with
  | [] => Some h
  | e :: es' => match hstep h e with Some h' => hrun h' es' | None => None end
  end.

Inductive hreach : hstate -> Prop :=
| hreach_init : hreach hstate_init
| hreach_step h e h' : hreach h -> hstep h e = Some h' -> hreach h'.

(** [k] mounts of the component, each followed by its unmount. *)
Fixpoint mount_cycles (p : props) (k : nat) : list hevent :=
  match k with 0 => [] | S k' => Mount p :: Unmount :: mount_cycles p k' end.

(** The sockets [k] unmounts close, one per mount with a connection. *)
Definition closed_by (p : props) (k : nat) : list string :=
  match connection p with Some c => repeat c k | None => [] end.

(** The readiness runs with a registered interval: only the current run
    of a mounted instance. *)
Definition gates_inv (h : hstate) : Prop :=
  forall k g, nth_error (gates h) k = Some g -> Readiness.active g = true ->
    mounted h = true /\ gate_live h = true /\ S k = List.length (gates h).

(** The invariant of an instance: its chart is a state of the chart
    effect's own step relation, no chart effect is registered while it is
    unmounted, and only the current run has an interval. *)
Definition hinv (h : hstate) : Prop :=
  ChartEffect.effect_reach empty_series disposed_accepts (chart h) /\
  (mounted h = false -> ChartEffect.registered (chart h) = false) /\
  gates_inv h.

(** A mounted instance's recorded dependencies are those of its current
    render: every state change of a mounted instance is committed. *)
Definition deps_inv (h : hstate) : Prop :=
  mounted h = true ->
  gate_deps_of h = Some (cur_gate_deps h) /\ chart_deps_of h = Some (cur_chart_deps h) /\
  conn_deps_of h = Some (connection (props_of h)).

(** The chart effect's guard on the props. *)
Definition chart_guard (p : props) : bool :=
  is_some (connection p) && str_truthy (poolId p) && container p.

(** A pool, its mint and a connection, for the witnesses. *)
Definition sample_pool : string := "58oQChx4yWmvKdwLLZzBi4ChoCc2fqCUWBkwMihLYQo2"%string.
Definition sample_pool2 : string := "AVs9TA4nWDzfPJE9gGVNJMVhcQy3V9PGazuz33BfG2RA"%string.
Definition sample_chart_mint : string := "4k3Dyjzvzp8eMZWUXbBCjEvwSkkk59S5iCNLY3QrkX6R"%string.
Definition sample_conn : string := "https://api.mainnet-beta.solana.com"%string.

Definition sample_chart_props (pool : string) : props :=
  mkProps (Some pool) false (Some sample_chart_mint) false (Some sample_conn) true "15"%string.

(** A refresh, a pool switch with a probe in flight, a load of the chart
    shown, an unmount and a new mount. *)
Definition sample_events : list hevent :=
  [Mount (sample_chart_props sample_pool); Publish sample_chart_mint; GateTick;
   Rerender (sample_chart_props sample_pool2); GateResolve 0 (Readiness.ProbeRows 2);
   ChartEvent (ChartEffect.LoadDone 2 None); Unmount; Mount (sample_chart_props sample_pool)].

(** ** Lemmas *)

Lemma update_nth_spec {A} (k : nat) (f : A -> option A) (l l' : list A) :
  update_nth k f l = Some l' ->
  List.length l' = List.length l /\ (forall j, j <> k -> nth_error l' j = nth_error l j) /\
  exists x y, nth_error l k = Some x /\ f x = Some y /\ nth_error l' k = Some y.
Proof.
  revert k l'. induction l as [|x l IH]; intros k l' Hu; [destruct k; discriminate|].
  destruct k as [|k]; cbn in Hu.
  - destruct (f x) as [y|] eqn:Hf; [|discriminate]. injection Hu as <-.
    split; [reflexivity|]. split; [intros [|j] Hj; [lia|reflexivity]|]. exists x, y. auto.
  - destruct (update_nth k f l) as [l1|] eqn:E; [|discriminate]. injection Hu as <-.
    destruct (IH k l1 E) as (Hl & Hj & Hk). split; [cbn; lia|].
    split; [intros [|j] Hne; [reflexivity|apply Hj; lia]|exact Hk].
Qed.

Lemma update_nth_total {A} (f : A -> option A) (l : list A) (k : nat) :
  (forall x, exists y, f x = Some y) -> k < List.length l -> exists l', update_nth k f l = Some l'.
Proof.
  intros Hf. revert k. induction l as [|x l IH]; intros k Hk; cbn in Hk; [lia|].
  destruct k as [|k]; cbn.
  - destruct (Hf x) as [y ->]. cbn. eexists. reflexivity.
  - destruct (IH k) as [l' ->]; [lia|]. cbn. eexists. reflexivity.
Qed.

(** A tick or a probe result never registers an interval. *)
Lemma gate_update_active (f : Readiness.gate -> option Readiness.gate) :
  (forall g g', f g = Some g' -> Readiness.active g' = true -> Readiness.active g = true) ->
  forall k gs gs', update_nth k f gs = Some gs' ->
  forall j g', nth_error gs' j = Some g' -> Readiness.active g' = true ->
  exists g, nth_error gs j = Some g /\ Readiness.active g = true.
Proof.
  intros Hf k gs gs' Hu j g' Hj Ha. destruct (update_nth_spec k f gs gs' Hu) as (_ & Hne & x & y & Hx & Hy & Hk).
  destruct (Nat.eq_dec j k) as [->|Hjk].
  - rewrite Hk in Hj. injection Hj as ->. eauto.
  - rewrite Hne in Hj by exact Hjk. eauto.
Qed.

Lemma on_tick_active g g' : Readiness.on_tick g = Some g' -> Readiness.active g' = true ->
  Readiness.active g = true.
Proof. unfold Readiness.on_tick. destruct (Readiness.active g); congruence. Qed.

Lemma on_result_active o g g' : Readiness.on_result o g = Some g' ->
  Readiness.active g' = true -> Readiness.active g = true.
Proof.
  unfold Readiness.on_result. destruct (Readiness.pending g); [discriminate|].
  destruct (Readiness.checkData o); [intros [= <-]; discriminate|].
  destruct (15 <=? _); intros [= <-]; cbn; [discriminate|exact id].
Qed.

(** After the cleanup of the current run, no run has an interval. *)
Lemma gate_cleanup_inactive (h : hstate) :
  gates_inv h -> List.length (gate_cleanup h) = List.length (gates h) /\
  forall k g, nth_error (gate_cleanup h) k = Some g -> Readiness.active g = false.
Proof.
  intros Hg. unfold gate_cleanup.
  destruct (gate_live h) eqn:Hl.
  - destruct (update_nth _ _ _) as [gs|] eqn:Hu.
    + destruct (update_nth_spec _ _ _ _ Hu) as (Hlen & Hne & x & y & _ & Hy & Hk).
      split; [exact Hlen|]. intros k g Hkg.
      destruct (Nat.eq_dec k (List.length (gates h) - 1)) as [->|Hne'].
      * rewrite Hk in Hkg. injection Hkg as <-. injection Hy as <-. reflexivity.
      * rewrite Hne in Hkg by exact Hne'. destruct (Readiness.active g) eqn:Ha; [|reflexivity].
        destruct (Hg k g Hkg Ha) as (_ & _ & Hs). lia.
    + split; [reflexivity|]. intros k g Hkg. destruct (Readiness.active g) eqn:Ha; [|reflexivity].
      destruct (Hg k g Hkg Ha) as (_ & _ & Hs).
      assert (Hlt : k < List.length (gates h)) by lia.
      destruct (update_nth_total Readiness.on_cleanup (gates h) (List.length (gates h) - 1))
        as [gs Hgs]; [intros; eexists; reflexivity|lia|congruence].
  - split; [reflexivity|]. intros k g Hkg. destruct (Readiness.active g) eqn:Ha; [|reflexivity].
    destruct (Hg k g Hkg Ha) as (_ & Hlive & _). congruence.
Qed.


(** What a commit keeps and how it records the dependencies. *)
Lemma commit_frame (h h' : hstate) : commit h = Some h' ->
  mounted h' = mounted h /\ subs h' = subs h /\ props_of h' = props_of h /\
  refreshChartMint h' = refreshChartMint h /\ reloadChartTag h' = reloadChartTag h /\
  gate_deps_of h' = Some (cur_gate_deps h) /\ chart_deps_of h' = Some (cur_chart_deps h) /\
  conn_deps_of h' = Some (connection (props_of h)) /\
  closed h' = (if changed opt_str_eqb (conn_deps_of h) (connection (props_of h))
               then conn_cleanup h else closed h).
Proof.
  intros Hc. unfold commit in Hc. destr_in Hc; injection Hc as <-; repeat split.
Qed.

Lemma reach_cleanup (c c' : ChartEffect.comp) :
  ChartEffect.effect_reach empty_series disposed_accepts c -> ChartEffect.cleanup c = Some c' ->
  ChartEffect.effect_reach empty_series disposed_accepts c'.
Proof. intros Hr Hc. eapply ChartEffect.effect_reach_step with (e := ChartEffect.Cleanup); eauto. Qed.

Lemma reach_run_effect (c c' : ChartEffect.comp) conn pid cont be :
  ChartEffect.effect_reach empty_series disposed_accepts c ->
  ChartEffect.run_effect empty_series conn pid cont be c = Some c' ->
  ChartEffect.effect_reach empty_series disposed_accepts c'.
Proof.
  intros Hr Hc. eapply ChartEffect.effect_reach_step with (e := ChartEffect.RunEffect conn pid cont be); eauto.
Qed.

(** A new run appended after the cleanup is the only one with an interval. *)
Lemma gates_append_last (gs : list Readiness.gate) (g : Readiness.gate) (k : nat) g0 :
  (forall k g, nth_error gs k = Some g -> Readiness.active g = false) ->
  nth_error (gs ++ [g]) k = Some g0 -> Readiness.active g0 = true ->
  S k = List.length (gs ++ [g]).
Proof.
  intros Hoff Hk Ha. rewrite length_app. cbn.
  destruct (Nat.lt_ge_cases k (List.length gs)) as [Hlt|Hge].
  - rewrite nth_error_app1 in Hk by exact Hlt. rewrite (Hoff _ _ Hk) in Ha. discriminate.
  - rewrite nth_error_app2 in Hk by exact Hge.
    destruct (k - List.length gs) as [|j] eqn:Hj; [lia|destruct j; discriminate].
Qed.

(** A commit of a mounted instance keeps the invariant. *)
Lemma commit_inv (h h' : hstate) : hinv h -> mounted h = true -> commit h = Some h' -> hinv h'.
Proof.
  intros (Hr & _ & Hg) Hm Hc. destruct (gate_cleanup_inactive h Hg) as [_ Hoff].
  unfold commit in Hc. destr_in Hc; injection Hc as <-; unfold hinv, gates_inv; cbn;
       (split; [eauto using reach_cleanup, reach_run_effect|split; [congruence|]]);
    intros k g0 Hk Ha; repeat split; auto;
    try (eapply gates_append_last; eassumption);
    try (rewrite (Hoff _ _ Hk) in Ha; discriminate);
    try (destruct (Hg k g0 Hk Ha) as (_ & ? & ?); auto).
Qed.

Lemma set_gates_inv (h : hstate) (f : Readiness.gate -> option Readiness.gate) k gs :
  (forall g g', f g = Some g' -> Readiness.active g' = true -> Readiness.active g = true) ->
  hinv h -> update_nth k f (gates h) = Some gs -> hinv (set_gates gs h).
Proof.
  intros Hf (Hr & Hreg & Hg) Hu. split; [exact Hr|split; [exact Hreg|]].
  intros j g' Hj Ha. destruct (gate_update_active f Hf k _ _ Hu j g' Hj Ha) as (g & Hjg & Hga).
  destruct (update_nth_spec _ _ _ _ Hu) as (Hlen & _). cbn. rewrite Hlen. exact (Hg j g Hjg Hga).
Qed.

(** A load completing or a live bar does not register or remove the
    chart effect. *)
Lemma chart_event_registered (c c' : ChartEffect.comp) (e : ChartEffect.effect_event) :
  ChartEffect.effect_step empty_series disposed_accepts c e = Some c' ->
  (forall conn pid cont be, e <> ChartEffect.RunEffect conn pid cont be) -> e <> ChartEffect.Cleanup ->
  ChartEffect.registered c' = ChartEffect.registered c.
Proof.
  intros Hc Hrun Hcl. revert Hc. destruct e as [conn pid cont be|id bars|b|]; cbn;
    [destruct (Hrun conn pid cont be eq_refl)| | |congruence].
  - intros Hc. eapply ChartEffect.load_done_flags, Hc.
  - intros Hc. eapply ChartEffect.arrow_bar_flags, Hc.
Qed.

(** Every event keeps the invariant. *)
Lemma hstep_inv (h h' : hstate) (e : hevent) : hinv h -> hstep h e = Some h' -> hinv h'.
Proof.
  intros Hi Hs. pose proof Hi as (Hr & Hreg & Hg).
  destruct e as [p|p|m| |k o|ce|]; cbn in Hs.
  - unfold mount in Hs. destruct (mounted h); [discriminate|].
    refine (commit_inv _ _ _ _ Hs); [|reflexivity].
    split; [constructor|split; [discriminate|intros [|] ? [=]]].
  - destruct (mounted h) eqn:Hm; [|discriminate]. exact (commit_inv (set_props p h) _ Hi Hm Hs).
  - unfold publish in Hs. destruct (mounted h) eqn:Hm; cbn in Hs; [|congruence].
    destruct (negb _); [exact (commit_inv (set_refresh m h) _ Hi Hm Hs)|congruence].
  - unfold gate_tick in Hs. destr_in Hs. injection Hs as <-.
    exact (set_gates_inv h _ _ _ on_tick_active Hi E0).
  - unfold gate_resolve in Hs. destr_in Hs.
    + apply andb_true_iff in E2 as [_ Hm].
      exact (commit_inv (bump_reload (set_gates l h)) _
               (set_gates_inv h _ _ _ (on_result_active o) Hi E0) Hm Hs).
    + injection Hs as <-. exact (set_gates_inv h _ _ _ (on_result_active o) Hi E0).
  - unfold chart_event in Hs.
    destruct ce as [| id bars | b |]; try discriminate;
      destruct (ChartEffect.effect_step _ _ _ _) as [c|] eqn:Ec; try discriminate;
      injection Hs as <-; (split; [eapply ChartEffect.effect_reach_step; eassumption|split; [|exact Hg]]);
      cbn; rewrite (chart_event_registered _ _ _ Ec ltac:(intros; discriminate) ltac:(discriminate)); exact Hreg.
  - unfold unmount in Hs. destruct (mounted h); [|discriminate].
    destruct (gate_cleanup_inactive h Hg) as [_ Hoff].
    destr_in Hs; injection Hs as <-; (split; [eauto using reach_cleanup|split]); cbn;
      try (intros k g Hk Ha; rewrite (Hoff _ _ Hk) in Ha; discriminate).
    + intros _. unfold ChartEffect.cleanup in E0. destr_in E0. injection E0 as <-. reflexivity.
    + intros _. exact E.
Qed.

Lemma hrun_reach (h h' : hstate) (es : list hevent) : hreach h -> hrun h es = Some h' -> hreach h'.
Proof.
  revert h. induction es as [|e es IH]; intros h Hr Hs; cbn in Hs; [congruence|].
  destruct (hstep h e) as [h1|] eqn:E; [|discriminate]. exact (IH h1 (hreach_step h e h1 Hr E) Hs).
Qed.

Lemma hreach_hinv (h : hstate) : hreach h -> hinv h.
Proof.
  induction 1 as [|h e h' _ IH Hs].
  - split; [constructor|split; [reflexivity|intros [|] ? [=]]].
  - exact (hstep_inv h h' e IH Hs).
Qed.

(** A mount of an unmounted instance always commits. *)
Lemma mount_ok (p : props) (h : hstate) : mounted h = false ->
  exists h1, mount p h = Some h1 /\ mounted h1 = true /\ subs h1 = S (subs h) /\
    closed h1 = closed h /\ conn_deps_of h1 = Some (connection p).
Proof.
  intros Hm. unfold mount. rewrite Hm.
  destruct (commit _) as [h1|] eqn:Ec.
  - destruct (commit_frame _ _ Ec) as (H1 & H2 & H3 & _ & _ & _ & _ & H8 & H9). cbn in *.
    exists h1. rewrite H1, H2, H8, H9. auto.
  - exfalso. unfold commit in Ec. cbn in Ec. destr_in Ec;
      unfold ChartEffect.run_effect in *; cbn in *; destr_in E1.
Qed.

Lemma unmount_ok (h : hstate) : mounted h = true ->
  exists h1, unmount h = Some h1 /\ mounted h1 = false /\ subs h1 = subs h /\ closed h1 = conn_cleanup h.
Proof.
  intros Hm. unfold unmount. rewrite Hm. unfold ChartEffect.cleanup.
  destruct (ChartEffect.registered (chart h)); eexists; repeat split.
Qed.

Lemma mount_cycles_run (p : props) (k : nat) : forall h, mounted h = false ->
  exists h', hrun h (mount_cycles p k) = Some h' /\ mounted h' = false /\
    subs h' = subs h + k /\ closed h' = closed h ++ closed_by p k.
Proof.
  unfold closed_by. induction k as [|k IH]; intros h Hm.
  - exists h. destruct (connection p); cbn; rewrite Nat.add_0_r, app_nil_r; auto.
  - destruct (mount_ok p h Hm) as (h1 & Hh1 & Hm1 & Hs1 & Hc1 & Hd1).
    destruct (unmount_ok h1 Hm1) as (h2 & Hh2 & Hm2 & Hs2 & Hc2).
    destruct (IH h2 Hm2) as (h3 & Hh3 & Hm3 & Hs3 & Hc3).
    exists h3. cbn. rewrite Hh1, Hh2. split; [exact Hh3|split; [exact Hm3|split; [lia|]]].
    rewrite Hc3, Hc2. unfold conn_cleanup. rewrite Hd1, Hc1.
    destruct (connection p); cbn; [rewrite <- app_assoc|]; reflexivity.
Qed.

Lemma opt_str_eqb_refl (o : option string) : opt_str_eqb o o = true.
Proof. destruct o; cbn; [apply String.eqb_refl|reflexivity]. Qed.

Lemma gate_deps_eqb_refl (d : gate_deps) : gate_deps_eqb d d = true.
Proof.
  destruct d as [[[b n] p] c]. cbn. rewrite !eqb_reflx, !opt_str_eqb_refl. reflexivity.
Qed.

Lemma chart_deps_eqb_refl (d : chart_deps) : chart_deps_eqb d d = true.
Proof.
  destruct d as [[[[[p b] c] r] m] s]. cbn.
  rewrite !opt_str_eqb_refl, eqb_reflx, Nat.eqb_refl, String.eqb_refl. reflexivity.
Qed.

(** A commit records the dependencies of the render it commits. *)
Lemma commit_deps (h h' : hstate) : commit h = Some h' -> deps_inv h'.
Proof.
  intros Hc _. destruct (commit_frame h h' Hc) as (_ & _ & Hp & Hm & Hr & Hg & Hch & Hn & _).
  unfold cur_gate_deps, cur_chart_deps, need. rewrite Hg, Hch, Hn, Hp, Hm, Hr. auto.
Qed.

Lemma hstep_deps (h h' : hstate) (e : hevent) : deps_inv h -> hstep h e = Some h' -> deps_inv h'.
Proof.
  intros Hd Hs. destruct e as [p|p|m| |k o|ce|]; cbn in Hs.
  - unfold mount in Hs. destruct (mounted h); [discriminate|]. exact (commit_deps _ _ Hs).
  - destruct (mounted h); [exact (commit_deps _ _ Hs)|discriminate].
  - unfold publish in Hs. destruct (mounted h && _); [exact (commit_deps _ _ Hs)|injection Hs as <-; exact Hd].
  - unfold gate_tick in Hs. destr_in Hs. injection Hs as <-. exact Hd.
  - unfold gate_resolve in Hs. destr_in Hs; [exact (commit_deps _ _ Hs)|injection Hs as <-; exact Hd].
  - unfold chart_event in Hs. destruct ce; try discriminate;
      destruct (ChartEffect.effect_step _ _ _ _); cbn in Hs; try discriminate; injection Hs as <-; exact Hd.
  - unfold unmount in Hs. destruct (mounted h); [|discriminate].
    destr_in Hs; injection Hs as <-; intros Hm; discriminate Hm.
Qed.

Lemma hreach_deps (h : hstate) : hreach h -> deps_inv h.
Proof.
  induction 1 as [|h e h' _ IH Hs]; [discriminate|exact (hstep_deps h h' e IH Hs)].
Qed.

(** A commit in which the readiness and connection effects keep their
    dependencies and the chart effect's changed: the chart is torn down
    and the effect runs again on the current props. *)
Lemma commit_chart_only (h : hstate) :
  changed gate_deps_eqb (gate_deps_of h) (cur_gate_deps h) = false ->
  changed chart_deps_eqb (chart_deps_of h) (cur_chart_deps h) = true ->
  changed opt_str_eqb (conn_deps_of h) (connection (props_of h)) = false ->
  ChartEffect.comp_inv (chart h) ->
  exists c2, commit h = Some (mkH (mounted h) (props_of h) (refreshChartMint h) (reloadChartTag h)
                                  (subs h) (Some (cur_gate_deps h)) (gates h) (gate_live h)
                                  (Some (cur_chart_deps h)) c2 (Some (connection (props_of h))) (closed h)) /\
    ChartEffect.registered c2 = chart_guard (props_of h) /\
    ChartEffect.chartRef c2 = (if chart_guard (props_of h)
                               then Some (ChartEffect.next_id (chart h), empty_series, []) else None).
Proof.
  intros Hg Hc Hn [Hoff _]. unfold commit. rewrite Hg, Hc, Hn. cbn.
  assert (Hcl : exists c1, (if ChartEffect.registered (chart h) then ChartEffect.cleanup (chart h)
                            else Some (chart h)) = Some c1 /\ ChartEffect.registered c1 = false /\
                           ChartEffect.chartRef c1 = None /\
                           ChartEffect.next_id c1 = ChartEffect.next_id (chart h)).
  { destruct (ChartEffect.registered (chart h)) eqn:Er.
    - unfold ChartEffect.cleanup. rewrite Er. eexists. repeat split.
    - exists (chart h). repeat split; [exact Er|apply (Hoff eq_refl)]. }
  destruct Hcl as (c1 & -> & Hr1 & Hc1 & Hn1).
  unfold ChartEffect.run_effect, chart_guard. rewrite Hr1, <- Hn1.
  destruct (is_some (connection (props_of h))), (str_truthy (poolId (props_of h))),
    (container (props_of h)); cbn; eexists; (split; [reflexivity|]); cbn; auto.
Qed.

(** A commit in which only the readiness effect's dependencies changed:
    the current run is cleaned up and the run the guard allows starts. *)
Lemma commit_gate_only (h : hstate) (g0 : Readiness.gate) :
  changed gate_deps_eqb (gate_deps_of h) (cur_gate_deps h) = true ->
  changed chart_deps_eqb (chart_deps_of h) (cur_chart_deps h) = false ->
  changed opt_str_eqb (conn_deps_of h) (connection (props_of h)) = false ->
  Readiness.gate_start (poolId (props_of h)) (birdeye (props_of h)) (need h)
    (is_some (connection (props_of h))) = Some g0 ->
  commit h = Some (mkH (mounted h) (props_of h) (refreshChartMint h) (reloadChartTag h) (subs h)
                       (Some (cur_gate_deps h)) (gate_cleanup h ++ [g0]) true
                       (Some (cur_chart_deps h)) (chart h) (Some (connection (props_of h))) (closed h)).
Proof. intros Hg Hc Hn Hs. unfold commit. rewrite Hg, Hc, Hn, Hs. reflexivity. Qed.

Lemma chart_deps_eqb_tag p b c r m s :
  chart_deps_eqb (p, b, c, r, m, s) (p, b, c, S r, m, s) = false.
Proof.
  cbn. destruct (Nat.eqb_spec r (S r)); [lia|]. rewrite !andb_false_r, andb_false_l. reflexivity.
Qed.

Lemma update_nth_some {A} (k : nat) (f : A -> option A) (l : list A) (x y : A) :
  nth_error l k = Some x -> f x = Some y ->
  exists l', update_nth k f l = Some l' /\ nth_error l' k = Some y.
Proof.
  revert k. induction l as [|a l IH]; intros [|k] Hx Hf; cbn in *; try discriminate.
  - injection Hx as ->. rewrite Hf. eexists. split; reflexivity.
  - destruct (IH k Hx Hf) as (l' & -> & Hl'). eexists. split; [reflexivity|exact Hl'].
Qed.

(** ** Properties *)

(** C24: No effect outlives its run: in every reachable state an unmounted
    instance has no chart, no arrow listener and no auto-save interval,
    and a readiness run whose interval is registered is the current run of
    a mounted instance. *)
Theorem hreach_no_orphan_effects (h : hstate) :
  hreach h ->
  (mounted h = false ->
   ChartEffect.chartRef (chart h) = None /\ ChartEffect.listener (chart h) = false /\
   ChartEffect.autosave (chart h) = false) /\
  forall k g, nth_error (gates h) k = Some g -> Readiness.active g = true ->
    mounted h = true /\ gate_live h = true /\ S k = List.length (gates h).
Proof.
  intros Hr. destruct (hreach_hinv h Hr) as (Hc & Hreg & Hg). split; [|exact Hg].
  intros Hm. apply (ChartEffect.effect_reach_inv _ _ _ Hc), Hreg, Hm.
Qed.

(** C27: Every mount subscribes to [refreshChartSubject] and no cleanup
    unsubscribes: after [k] mounts each followed by its unmount, the
    instance is unmounted and [k] subscriptions remain, while each unmount
    did close the connection's socket. *)
Theorem mount_cycles_leak (p : props) (k : nat) :
  exists h, hrun hstate_init (mount_cycles p k) = Some h /\
    mounted h = false /\ subs h = k /\ closed h = closed_by p k.
Proof. destruct (mount_cycles_run p k hstate_init eq_refl) as (h & ? & ? & ? & ?). exists h. auto. Qed.

(** C25: A refresh request starts a readiness run: in any reachable state
    of a mounted kline chart with a pool, a connection and a mint, where
    no refresh is pending for that mint, publishing the mint on
    [refreshChartSubject] makes [isNeedRefreshData] true, which cleans up
    the current run (no interval remains) and starts a fresh one, leaving
    the chart as it is; publishing the same mint again changes nothing. *)
Theorem refresh_starts_run (h : hstate) (pool m c : string) :
  hreach h -> mounted h = true ->
  poolId (props_of h) = Some pool -> pool <> ""%string -> birdeye (props_of h) = false ->
  connection (props_of h) = Some c -> needRefresh (props_of h) = false ->
  mint (props_of h) = Some m -> m <> ""%string -> refreshChartMint h <> m ->
  exists h', hstep h (Publish m) = Some h' /\
    refreshChartMint h' = m /\ need h' = true /\ gate_live h' = true /\
    gates h' = gate_cleanup h ++ [Readiness.gate_init] /\
    (forall k g, nth_error (gate_cleanup h) k = Some g -> Readiness.active g = false) /\
    chart h' = chart h /\ reloadChartTag h' = reloadChartTag h /\ hstep h' (Publish m) = Some h'.
Proof.
  intros Hr Hm Hp Hpool Hb Hc Hn Hmint Hm0 Hrm.
  destruct (hreach_hinv h Hr) as (_ & _ & Hg).
  destruct (hreach_deps h Hr Hm) as (Hgd & Hcd & Hnd).
  apply String.eqb_neq in Hpool, Hm0, Hrm.
  assert (Hneed : need h = false).
  { unfold need, Readiness.isNeedRefreshData. rewrite Hn, Hmint, Hrm, andb_false_r. reflexivity. }
  assert (Hneed1 : need (set_refresh m h) = true).
  { unfold need, Readiness.isNeedRefreshData. cbn. rewrite Hmint, Hm0, String.eqb_refl, Hn. reflexivity. }
  assert (Hcm : commit (set_refresh m h) =
    Some (mkH (mounted h) (props_of h) m (reloadChartTag h) (subs h) (Some (cur_gate_deps (set_refresh m h)))
              (gate_cleanup h ++ [Readiness.gate_init]) true (Some (cur_chart_deps h)) (chart h)
              (Some (connection (props_of h))) (closed h))).
  { apply (commit_gate_only (set_refresh m h) Readiness.gate_init); cbn.
    - rewrite Hgd. unfold cur_gate_deps. cbn. rewrite Hneed, Hneed1. cbn. rewrite andb_false_r. reflexivity.
    - rewrite Hcd. unfold changed. rewrite chart_deps_eqb_refl. reflexivity.
    - rewrite Hnd, Hc. cbn. rewrite String.eqb_refl. reflexivity.
    - rewrite Hneed1, Hp, Hb, Hc. cbn. rewrite Hpool. reflexivity. }
  eexists. split; [cbn; unfold publish; rewrite Hm, (String.eqb_sym m), Hrm; exact Hcm|].
  repeat split; [exact Hneed1| |cbn; unfold publish; rewrite String.eqb_refl, andb_false_r; reflexivity].
  apply (gate_cleanup_inactive h Hg).
Qed.

(** C26: Any probe with rows reloads the chart shown, whether it belongs
    to the current readiness run or to a run already cleaned up (a
    previous pool's, or one whose interval was cleared): in any reachable
    state of a mounted instance, the result of an in-flight probe of any
    run clears that run's interval and changes [reloadChartTag], and the
    chart effect tears the current chart down and creates a fresh one for
    the current props, under a new id. *)
Theorem probe_rows_reloads_chart (h : hstate) (k n : nat) (g : Readiness.gate) :
  hreach h -> mounted h = true -> nth_error (gates h) k = Some g ->
  0 < Readiness.pending g -> 0 < n ->
  exists h' g', hstep h (GateResolve k (Readiness.ProbeRows n)) = Some h' /\
    nth_error (gates h') k = Some g' /\ Readiness.active g' = false /\
    Readiness.reloads g' = S (Readiness.reloads g) /\
    reloadChartTag h' = S (reloadChartTag h) /\ props_of h' = props_of h /\
    ChartEffect.chartRef (chart h') =
      (if chart_guard (props_of h) then Some (ChartEffect.next_id (chart h), empty_series, []) else None).
Proof.
  intros Hr Hm Hk Hp Hn.
  destruct (hreach_hinv h Hr) as (Hreach & _ & _).
  destruct (hreach_deps h Hr Hm) as (Hgd & Hcd & Hnd).
  destruct g as [a cnt [|pd] rl tn]; cbn in Hp; [lia|].
  assert (Hres : Readiness.on_result (Readiness.ProbeRows n) (Readiness.mkGate a cnt (S pd) rl tn) =
                 Some (Readiness.mkGate false cnt pd (S rl) tn)).
  { assert (Hc0 : Readiness.checkData (Readiness.ProbeRows n) = true) by (apply Nat.ltb_lt; exact Hn).
    unfold Readiness.on_result. cbn -[Readiness.checkData]. rewrite Hc0. reflexivity. }
  destruct (update_nth_some k _ _ _ _ Hk Hres) as (gs & Hgs & Hk').
  set (h1 := bump_reload (set_gates gs h)).
  destruct (commit_chart_only h1) as (c2 & Hc2 & _ & Href).
  - unfold h1. cbn. rewrite Hgd. unfold changed. rewrite gate_deps_eqb_refl. reflexivity.
  - change (chart_deps_of h1) with (chart_deps_of h).
    change (cur_chart_deps h1) with (poolId (props_of h), birdeye (props_of h), connection (props_of h),
                                     S (reloadChartTag h), mint (props_of h), savedResolution (props_of h)).
    rewrite Hcd. unfold changed, cur_chart_deps. rewrite chart_deps_eqb_tag. reflexivity.
  - unfold h1. cbn. rewrite Hnd. unfold changed. rewrite opt_str_eqb_refl. reflexivity.
  - exact (ChartEffect.effect_reach_inv _ _ _ Hreach).
  - eexists _, _. split.
    + assert (E : gate_resolve k (Readiness.ProbeRows n) h = commit h1).
      { unfold gate_resolve. rewrite Hk, Hgs, Hk'. cbn [Readiness.reloads]. rewrite Hm.
        destruct (Nat.ltb_spec rl (S rl)); [reflexivity|lia]. }
      exact (eq_trans E Hc2).
    + cbn. split; [exact Hk'|]. split; [reflexivity|]. split; [reflexivity|].
      split; [reflexivity|]. split; [reflexivity|exact Href].
Qed.

End Hooks.

Arguments mounted {T} _.
Arguments props_of {T} _.
Arguments refreshChartMint {T} _.
Arguments reloadChartTag {T} _.
Arguments subs {T} _.
Arguments gate_deps_of {T} _.
Arguments gates {T} _.
Arguments gate_live {T} _.
Arguments chart_deps_of {T} _.
Arguments chart {T} _.
Arguments conn_deps_of {T} _.
Arguments closed {T} _.
Arguments mkH {T} _ _ _ _ _ _ _ _ _ _ _ _.

(** ** Witnesses *)

Lemma hreach_no_orphan_effects_witness :
  exists h, hrun (T := list LightweightBar) [] false hstate_init (sample_events ++ [Unmount]) = Some h /\
    ChartEffect.chartRef (chart h) = None.
Proof.
  destruct (hrun [] false hstate_init (sample_events ++ [Unmount])) as [h|] eqn:E;
    [|vm_compute in E; discriminate E].
  exists h. split; [reflexivity|].
  apply (hreach_no_orphan_effects [] false h (hrun_reach _ _ _ _ _ (hreach_init _ _) E)).
  vm_compute in E. injection E as <-. reflexivity.
Defined.

Lemma refresh_starts_run_witness :
  exists h h', hrun (T := list LightweightBar) [] false hstate_init
                 [Mount (sample_chart_props sample_pool)] = Some h /\
    hstep [] false h (Publish sample_chart_mint) = Some h' /\ gate_live h' = true.
Proof.
  destruct (hrun [] false hstate_init [Mount (sample_chart_props sample_pool)]) as [h|] eqn:E;
    [|vm_compute in E; discriminate E].
  pose proof (hrun_reach _ _ _ _ _ (hreach_init _ _) E) as Hr.
  vm_compute in E. injection E as <-.
  destruct (refresh_starts_run [] false _ sample_pool sample_chart_mint sample_conn Hr eq_refl eq_refl
              ltac:(discriminate) eq_refl eq_refl eq_refl eq_refl ltac:(discriminate) ltac:(discriminate))
    as (h' & Hs & _ & _ & Hl & _).
  eexists _, h'. split; [reflexivity|]. split; [exact Hs|exact Hl].
Defined.

Lemma probe_rows_reloads_chart_witness :
  exists h h', hrun (T := list LightweightBar) [] false hstate_init
                 [Mount (sample_chart_props sample_pool); Publish sample_chart_mint; GateTick;
                  Rerender (sample_chart_props sample_pool2)] = Some h /\
    hstep [] false h (GateResolve 0 (Readiness.ProbeRows 2)) = Some h' /\
    reloadChartTag h' = S (reloadChartTag h).
Proof.
  destruct (hrun [] false hstate_init
              [Mount (sample_chart_props sample_pool); Publish sample_chart_mint; GateTick;
               Rerender (sample_chart_props sample_pool2)]) as [h|] eqn:E;
    [|vm_compute in E; discriminate E].
  pose proof (hrun_reach _ _ _ _ _ (hreach_init _ _) E) as Hr.
  vm_compute in E. injection E as <-.
  destruct (probe_rows_reloads_chart [] false _ 0 2 (Readiness.mkGate false 0 1 0 true) Hr eq_refl eq_refl
              ltac:(cbn; lia) ltac:(lia)) as (h' & g' & Hs & _ & _ & _ & Ht & _).
  eexists _, h'. split; [reflexivity|]. split; [exact Hs|exact Ht].
Defined.

End Component.
