(* ===== verification/Page.v ===== *)
(** * Chart instances sharing the streaming module's arrow listener

    Each TVChart instance runs its own chart effect ([ChartEffect.v]), but
    the live-bar listener it registers lives in ./streaming, which keeps a
    single listener for the whole module ([Streaming.setArrowListener]):
    an effect run of a kline chart replaces it with its own callback
    (TVChart.tsx 337-355) and every cleanup unsets it (line 372), whoever
    registered the current one.  A page is the list of the instances'
    chart effects, indexed by position, with the owner of the listener;
    [page_step] is one effect run, load completion or cleanup of one
    instance, or a live bar, which the streaming module hands to the
    current listener only.

    The theorems, over every reachable page: the listener always belongs
    to an instance whose effect is registered, whose callback it is and
    whose chart exists; live bars reach that instance only; and the
    cleanup of any other instance unsets it, silencing the live updates
    of a chart that stays on screen. *)

From Stdlib Require Import ZArith QArith String Bool Lia.
From stdpp Require Import list.
From S2P Require Import Prelude Bars Chart ChartEffect Streaming.

Module Page.
Import Chart.

Inductive page_event :=
| PRun (i : nat) (connection : bool) (poolId : option string) (container birdeye : bool)
| PLoad (i : nat) (chart_id : nat) (bars : option (list LightweightBar))
| PCleanup (i : nat)
| PLive (next : LightweightBar).

Section Page.
Context {T : Type} `{CandleSeries T}.
Variable empty_series : T.
Variable disposed_accepts : bool.

Record page := mkPage {
  arrow : option nat;                  (** the instance whose listener is set *)
  charts : list (ChartEffect.comp (T := T))
}.

Definition page_init (n : nat) : page := mkPage None (repeat ChartEffect.comp_init n).

(** The effect's guard [if (!connection || !poolId || !chartContainerRef.current)
    return], as the condition to go on. *)
Definition effect_guard (connection : bool) (poolId : option string) (container : bool) : bool :=
  connection && str_truthy poolId && container.

(** Apply an operation of the chart effect to instance [i]. *)
Definition update_chart (i : nat) (f : ChartEffect.comp -> option ChartEffect.comp)
  (a : option nat) (p : page) : option page :=
  c ← charts p !! i;
  c' ← f c;
  Some (mkPage a (<[i := c']> (charts p))).

Definition page_step (p : page) (e : page_event) : option page :=
  match e with
  | PRun i conn pid cont be =>
      update_chart i (ChartEffect.run_effect empty_series conn pid cont be)
        (if effect_guard conn pid cont && negb be
         then Streaming.setArrowListener (Some i) (arrow p) else arrow p) p
  | PLoad i id bars =>
      update_chart i (ChartEffect.load_done disposed_accepts id bars) (arrow p) p
  | PCleanup i =>
      update_chart i ChartEffect.cleanup (Streaming.setArrowListener None (arrow p)) p
  | PLive b =>
      match arrow p with
      | Some i => update_chart i (ChartEffect.arrow_bar b) (arrow p) p
      | None => Some p
      end
  end.

Fixpoint page_run (p : page) (es : list page_event) : option page :=
  match es with
  | [] => Some p
  | e :: es' => match page_step p e with Some p' => page_run p' es' | None => None end
  end.

Inductive page_reach : page -> Prop :=
| page_reach_init n : page_reach (page_init n)
| page_reach_step p e p' : page_reach p -> page_step p e = Some p' -> page_reach p'.

(** The listener belongs to an instance whose effect is registered and
    whose own flag says its callback is set. *)
Definition arrow_inv (p : page) : Prop :=
  forall i, arrow p = Some i ->
  exists c, charts p !! i = Some c /\ ChartEffect.registered c = true /\ ChartEffect.listener c = true.

(** Two kline charts on two pools, a load of the second, then the
    teardown of the first: the witnesses' run. *)
Definition sample_page_events : list page_event :=
  [PRun 0 true (Some "58oQChx4yWmvKdwLLZzBi4ChoCc2fqCUWBkwMihLYQo2"%string) true false;
   PRun 1 true (Some "AVs9TA4nWDzfPJE9gGVNJMVhcQy3V9PGazuz33BfG2RA"%string) true false;
   PLoad 1 0 None; PCleanup 0].

(** ** Lemmas *)

Lemma update_chart_spec i f a (p p' : page) :
  update_chart i f a p = Some p' ->
  exists c c', charts p !! i = Some c /\ f c = Some c' /\ p' = mkPage a (<[i := c']> (charts p)).
Proof.
  unfold update_chart. destruct (charts p !! i) as [c|] eqn:Hc; cbn; [|discriminate].
  destruct (f c) as [c'|] eqn:Hf; cbn; [|discriminate]. intros [= <-]. exists c, c'. auto.
Qed.

(** What [update_chart] leaves at each position: the old instance, or
    the one [f] made of it at position [i]. *)
Lemma update_chart_lookup i f a (p p' : page) j c' :
  update_chart i f a p = Some p' -> charts p' !! j = Some c' ->
  exists c, charts p !! j = Some c /\ (c' = c \/ (j = i /\ f c = Some c')).
Proof.
  intros Hu Hj. destruct (update_chart_spec i f a p p' Hu) as (c & c1 & Hc & Hf & ->). cbn in Hj.
  destruct (decide (i = j)) as [<-|Hne].
  - rewrite list_lookup_insert_eq in Hj by (eapply lookup_lt_Some; exact Hc).
    injection Hj as <-. eauto.
  - rewrite list_lookup_insert_ne in Hj by exact Hne. eauto.
Qed.

(** Each operation [page_step] applies to an instance is a step of the
    chart effect. *)
Lemma page_step_lookup (p p' : page) e j c' :
  page_step p e = Some p' -> charts p' !! j = Some c' ->
  exists c, charts p !! j = Some c /\
    (c' = c \/ exists e', ChartEffect.effect_step empty_series disposed_accepts c e' = Some c').
Proof.
  intros Hs Hj. destruct e as [i conn pid cont be|i id bars|i|b]; cbn in Hs;
    [| | |destruct (arrow p) as [i|]; [|injection Hs as <-; eauto]];
    destruct (update_chart_lookup _ _ _ _ _ _ _ Hs Hj) as (c & Hc & [->|[_ Hf]]); eauto;
    exists c; split; [exact Hc| |exact Hc| |exact Hc| |exact Hc|]; right;
    [exists (ChartEffect.RunEffect conn pid cont be) | exists (ChartEffect.LoadDone id bars)
    | exists ChartEffect.Cleanup | exists (ChartEffect.ArrowBar b)]; exact Hf.
Qed.

Lemma page_reach_charts (p : page) :
  page_reach p -> Forall (ChartEffect.effect_reach empty_series disposed_accepts) (charts p).
Proof.
  induction 1 as [n|p e p' _ IH Hs].
  - cbn. induction n as [|n IHn]; constructor; [constructor|exact IHn].
  - apply Forall_lookup. intros j c' Hj.
    destruct (page_step_lookup p p' e j c' Hs Hj) as (c & Hc & [->|[e' He]]);
      pose proof (proj1 (Forall_lookup _ _) IH j c Hc) as Hr; [exact Hr|].
    exact (ChartEffect.effect_reach_step _ _ c e' c' Hr He).
Qed.

(** An operation that keeps the registrations keeps the listener's owner
    valid. *)
Lemma arrow_inv_update i f (p p' : page) :
  (forall c c', f c = Some c' ->
     ChartEffect.registered c' = ChartEffect.registered c /\ ChartEffect.listener c' = ChartEffect.listener c) ->
  arrow_inv p -> update_chart i f (arrow p) p = Some p' -> arrow_inv p'.
Proof.
  intros Hf Hinv Hu j Hj. destruct (update_chart_spec _ _ _ _ _ Hu) as (c & c1 & Hc & Hf1 & ->).
  destruct (Hinv j Hj) as (cj & Hcj & Hr & Hl). cbn.
  destruct (decide (i = j)) as [<-|Hne].
  - rewrite list_lookup_insert_eq by (eapply lookup_lt_Some; exact Hc).
    rewrite Hc in Hcj. injection Hcj as ->. destruct (Hf _ _ Hf1) as [E1 E2]. exists c1. rewrite E1, E2. auto.
  - rewrite list_lookup_insert_ne by exact Hne. eauto.
Qed.

Lemma page_step_arrow_inv (p p' : page) e :
  arrow_inv p -> page_step p e = Some p' -> arrow_inv p'.
Proof.
  intros Hinv Hs. destruct e as [i conn pid cont be|i id bars|i|b]; cbn in Hs.
  - destruct (update_chart_spec _ _ _ _ _ Hs) as (c & c1 & Hc & Hrun & ->).
    destruct (ChartEffect.run_effect_spec _ _ _ _ _ _ _ Hrun) as [Hoff Hon].
    intros j Hj. cbn in Hj |- *. unfold effect_guard in Hj.
    destruct (conn && str_truthy pid && cont) eqn:Eg; cbn in Hj.
    + destruct Hon as (Hr & Hl & _). destruct be; cbn in Hj.
      * destruct (Hinv j Hj) as (cj & Hcj & Hrj & Hlj).
        destruct (decide (i = j)) as [<-|Hne]; [congruence|].
        rewrite list_lookup_insert_ne by exact Hne. eauto.
      * injection Hj as <-. rewrite list_lookup_insert_eq by (eapply lookup_lt_Some; exact Hc). eauto.
    + subst c1. destruct (Hinv j Hj) as (cj & Hcj & Hrj & Hlj).
      destruct (decide (i = j)) as [<-|Hne]; [congruence|].
      rewrite list_lookup_insert_ne by exact Hne. eauto.
  - exact (arrow_inv_update _ _ _ _ (fun c c' H => ChartEffect.load_done_flags _ _ _ _ _ H) Hinv Hs).
  - destruct (update_chart_spec _ _ _ _ _ Hs) as (c & c1 & _ & _ & ->). discriminate.
  - destruct (arrow p) as [i|] eqn:Ea; [|injection Hs as <-; exact Hinv].
    rewrite <- Ea in Hs.
    exact (arrow_inv_update _ _ _ _ (fun c c' H => ChartEffect.arrow_bar_flags _ _ _ H) Hinv Hs).
Qed.

Lemma page_reach_arrow (p : page) : page_reach p -> arrow_inv p.
Proof.
  induction 1 as [n|p e p' _ IH Hs]; [intros i [=]|exact (page_step_arrow_inv p p' e IH Hs)].
Qed.

Lemma page_run_reach (p p' : page) (es : list page_event) :
  page_reach p -> page_run p es = Some p' -> page_reach p'.
Proof.
  revert p. induction es as [|e es IH]; intros p Hr Hs; cbn in Hs; [congruence|].
  destruct (page_step p e) as [p1|] eqn:E; [|discriminate].
  exact (IH p1 (page_reach_step p e p1 Hr E) Hs).
Qed.

(** The owner of the listener is on screen: its effect is registered,
    its own flag is set and its chart exists. *)
Lemma arrow_owner_chart (p : page) (i : nat) :
  page_reach p -> arrow p = Some i ->
  exists c, charts p !! i = Some c /\ ChartEffect.registered c = true /\
    ChartEffect.listener c = true /\ ChartEffect.chartRef c <> None.
Proof.
  intros Hr Hi. destruct (page_reach_arrow p Hr i Hi) as (c & Hc & Hreg & Hl).
  pose proof (proj1 (Forall_lookup _ _) (page_reach_charts p Hr) i c Hc) as Hc'.
  destruct (ChartEffect.effect_reach_inv _ _ _ Hc') as (_ & Hon & _).
  destruct (Hon Hreg) as (_ & id & s & v & Href & _).
  exists c. rewrite Href. repeat split; [exact Hc|exact Hreg|exact Hl|discriminate].
Qed.

(** ** Properties *)

(** C28: Live bars reach only a chart on screen: in every reachable state
    of a page, under any order of effect runs, load completions, cleanups
    and live bars of any number of instances, the module's listener, if
    set, is the callback of an instance whose effect is registered, whose
    own listener flag is set and whose chart exists. *)
Theorem page_arrow_owner (p : page) :
  page_reach p -> forall i, arrow p = Some i ->
  exists c, charts p !! i = Some c /\ ChartEffect.registered c = true /\
    ChartEffect.listener c = true /\ ChartEffect.chartRef c <> None.
Proof. intros Hr i Hi. exact (arrow_owner_chart p i Hr Hi). Qed.

(** C31: The single listener makes chart instances interfere: in every
    reachable state of a page whose listener belongs to instance [j],
    a live bar updates instance [j] only, every other instance's chart
    being left as it is; and the cleanup of any other instance [i] (an
    unmount, or a re-run of its effect) unsets the listener, although
    instance [j] stays on screen with its effect registered and its
    listener flag set, so every later live bar is dropped. *)
Theorem arrow_listener_crosstalk (p p' : page) (i j : nat) :
  page_reach p -> arrow p = Some j -> i <> j ->
  (forall b p'' k, page_step p (PLive b) = Some p'' -> k <> j -> charts p'' !! k = charts p !! k) /\
  (page_step p (PCleanup i) = Some p' ->
   arrow p' = None /\
   (exists c, charts p' !! j = Some c /\ charts p !! j = Some c /\ ChartEffect.registered c = true /\
      ChartEffect.listener c = true /\ ChartEffect.chartRef c <> None) /\
   forall b, page_step p' (PLive b) = Some p').
Proof.
  intros Hr Hj Hij. split.
  - intros b p'' k Hs Hk. cbn in Hs. rewrite Hj in Hs.
    destruct (update_chart_spec _ _ _ _ _ Hs) as (c & c' & _ & _ & ->). cbn.
    apply list_lookup_insert_ne. congruence.
  - intros Hs. cbn in Hs. destruct (update_chart_spec _ _ _ _ _ Hs) as (c & c' & _ & _ & ->).
    split; [reflexivity|]. split; [|intros b; reflexivity].
    destruct (arrow_owner_chart p j Hr Hj) as (cj & Hcj & Hrest). exists cj. cbn.
    rewrite list_lookup_insert_ne by exact Hij. auto.
Qed.

End Page.

Arguments arrow {T} _.
Arguments charts {T} _.
Arguments mkPage {T} _ _.

(** ** Witnesses *)

Lemma page_arrow_owner_witness :
  exists p, page_run (T := list LightweightBar) [] false (page_init 2) (removelast sample_page_events) = Some p /\
    arrow p = Some 1 /\ exists c, charts p !! 1 = Some c /\ ChartEffect.registered c = true.
Proof.
  destruct (page_run [] false (page_init 2) (removelast sample_page_events)) as [p|] eqn:E;
    [|vm_compute in E; discriminate E].
  assert (Ha : arrow p = Some 1) by (vm_compute in E; injection E as <-; reflexivity).
  exists p. split; [reflexivity|]. split; [exact Ha|].
  destruct (page_arrow_owner [] false p (page_run_reach _ _ _ _ _ (page_reach_init _ _ 2) E) 1 Ha)
    as (c & Hc & Hr & _). eauto.
Defined.

Lemma arrow_listener_crosstalk_witness :
  exists p p', page_run (T := list LightweightBar) [] false (page_init 2)
                 (firstn 2 sample_page_events) = Some p /\
    page_step [] false p (PCleanup 0) = Some p' /\ arrow p' = None /\
    charts p' !! 1 = charts p !! 1.
Proof.
  destruct (page_run [] false (page_init 2) (firstn 2 sample_page_events)) as [p|] eqn:E;
    [|vm_compute in E; discriminate E].
  pose proof (page_run_reach _ _ _ _ _ (page_reach_init _ _ 2) E) as Hr.
  destruct (page_step [] false p (PCleanup 0)) as [p'|] eqn:Ec;
    [|vm_compute in E; injection E as <-; discriminate Ec].
  assert (Ha : arrow p = Some 1) by (vm_compute in E; injection E as <-; reflexivity).
  destruct (proj2 (arrow_listener_crosstalk [] false p p' 0 1 Hr Ha ltac:(lia)) Ec)
    as (Hn & (c & H1 & H2 & _) & _).
  exists p, p'. split; [reflexivity|]. split; [exact Ec|]. split; [exact Hn|congruence].
Defined.
End Page.
