(* ===== verification/Proxy.v ===== *)
(** * The CORS relay (src/src/proxy.js)

    A Node HTTP server on port 3000 that forwards every request either to
    the Raydium service host (paths starting with /check-tx or /send-tx)
    or to the Solana RPC, with browser-like headers, and answers with the
    upstream response plus CORS headers.  The request handler
    (proxy.js 5-160) has a synchronous part, modelled by
    [handle_request]: the preflight answer, the choice of target, the
    outgoing headers and options, or the 500 answer of the [catch]; and an
    asynchronous part, modelled as a step relation on [pstate]: the
    upstream's response, error and timeout callbacks, each writing the
    client's status line at most once thanks to [!res.headersSent] guards
    and to the order in which Node's ClientRequest emits its events
    ([permitted]).  The response object is a record whose [writeHead]
    fails, as Node's throws ERR_HTTP_HEADERS_SENT, when called twice. *)

From Stdlib Require Import ZArith List Bool String Ascii Lia.
From S2P Require Import Prelude.
Import ListNotations.

Module Proxy.

Open Scope string_scope.

(** An incoming request: method, path and Node's lower-cased headers. *)
Record request := mkRequest {
  method : string;
  url : string;
  req_headers : jsobj string
}.

(** The body the handler sends: nothing, a JSON object (an [undefined]
    field is dropped by JSON.stringify) or the piped upstream body. *)
Inductive body := NoBody | Json (fields : jsobj (option string)) | Piped.

(** The server response [res] (Node's ServerResponse): whether headers were sent, the status and
    headers written, the body, and the number of [writeHead] calls. *)
Record ServerResponse := mkRes {
  headersSent : bool;
  status : option Z;
  headers_out : jsobj string;
  res_body : body;
  heads : nat
}.

Definition res_init : ServerResponse := mkRes false None [] NoBody 0.

(** [res.writeHead(code, headers)]; a second call throws. *)
Definition writeHead (code : Z) (h : jsobj string) (r : ServerResponse) : option ServerResponse :=
  if headersSent r then None
  else Some (mkRes true (Some code) h (res_body r) (S (heads r))).

(** [res.end(b)] or [proxyRes.pipe(res)]. *)
Definition res_end (b : body) (r : ServerResponse) : ServerResponse :=
  mkRes (headersSent r) (status r) (headers_out r) b (heads r).

(** [writeHead] then [end]. *)
Definition answer (code : Z) (h : jsobj string) (b : body) (r : ServerResponse) : option ServerResponse :=
  option_map (res_end b) (writeHead code h r).

Definition ACAO := "Access-Control-Allow-Origin".
Definition ACAH := "Access-Control-Allow-Headers".
Definition ACAM := "Access-Control-Allow-Methods".
Definition ACAC := "Access-Control-Allow-Credentials".

(** [req.headers.origin || '*'] *)
Definition cors_origin (req : request) : string :=
  or_str (obj_get "origin" (req_headers req)) "*".

(** The four CORS headers of the preflight and of a forwarded response. *)
Definition cors_headers (origin : string) : jsobj string :=
  [(ACAO, origin); (ACAH, "*"); (ACAM, "GET, POST, OPTIONS"); (ACAC, "true")].

(** The headers of the error answers (lines 106-111, 125-130, 148-153). *)
Definition error_headers : jsobj string :=
  [("Content-Type", "application/json"); (ACAO, "*"); (ACAH, "*");
   (ACAM, "GET, POST, OPTIONS")].

Definition SERVICE_HOST := "https://service-v1.raydium.io".
Definition RPC_HOST := "https://api.mainnet-beta.solana.com".

(** The target, chosen by a prefix test on the path (lines 21-23). *)
Definition targetUrl (u : string) : string :=
  if String.prefix "/check-tx" u || String.prefix "/send-tx" u
  then SERVICE_HOST else RPC_HOST.

(** The fields of Node's [url.parse] the handler reads, on an origin
    "scheme://host" without port or path such as the two targets. *)
Record parsed_url := mkParsed {
  protocol : string;
  host : string;
  hostname : string;
  port : option string
}.

Definition url_parse (u : string) : parsed_url :=
  if String.prefix "https://" u then
    let h := String.substring 8 (String.length u - 8) u in mkParsed "https:" h h None
  else if String.prefix "http://" u then
    let h := String.substring 7 (String.length u - 7) u in mkParsed "http:" h h None
  else mkParsed "" "" "" None.

(** A double quote, and a string between double quotes. *)
Definition dq : string := String (ascii_of_nat 34) EmptyString.
Definition quoted (s : string) : string := String.append dq (String.append s dq).

(** The client-hint header values of lines 48 and 50. *)
Definition sec_ch_ua : string :=
  fold_right String.append EmptyString
    [quoted "Not_A Brand"; ";v="; quoted "8"; ", "; quoted "Chromium"; ";v="; quoted "120";
     ", "; quoted "Google Chrome"; ";v="; quoted "120"].

(** [if (req.headers[from]) headers[to] = req.headers[from]] *)
Definition copy_header (from to_ : string) (req : request) (h : jsobj string) : jsobj string :=
  match obj_get from (req_headers req) with
  | Some v => if str_truthy (Some v) then obj_set to_ v h else h
  | None => h
  end.

(** The outgoing headers (lines 32-62). *)
Definition forward_headers (req : request) (p : parsed_url) : jsobj string :=
  let base :=
    [("User-Agent", "Mozilla/5.0 (Macintosh; Intel Mac OS X 10_15_7) AppleWebKit/537.36 (KHTML, like Gecko) Chrome/120.0.0.0 Safari/537.36");
     ("Accept", "application/json, text/plain, */*");
     ("Accept-Language", "en-US,en;q=0.9");
     ("Accept-Encoding", "gzip, deflate, br");
     ("Connection", "keep-alive");
     ("Sec-Fetch-Dest", "empty");
     ("Sec-Fetch-Mode", "cors");
     ("Sec-Fetch-Site", "cross-site");
     ("Cache-Control", "no-cache");
     ("Pragma", "no-cache");
     ("DNT", "1");
     ("Upgrade-Insecure-Requests", "1");
     ("Referer", "https://raydium.io/");
     ("Host", host p);
     ("Content-Type", or_str (obj_get "content-type" (req_headers req)) "application/json");
     ("sec-ch-ua", sec_ch_ua);
     ("sec-ch-ua-mobile", "?0");
     ("sec-ch-ua-platform", quoted "macOS");
     ("X-Requested-With", "XMLHttpRequest")] in
  copy_header "x-api-key" "X-API-Key" req (copy_header "authorization" "Authorization" req base).

Inductive client := Http | Https.

(** The request options and client (lines 65-75) and whether the request
    body is piped (lines 139-143). *)
Record outgoing := mkOutgoing {
  o_hostname : string;
  o_port : string + Z;
  o_path : string;
  o_method : string;
  o_headers : jsobj string;
  o_timeout : Z;
  o_client : client;
  o_pipes_body : bool
}.

Definition forward (req : request) : outgoing :=
  let p := url_parse (targetUrl (url req)) in
  let https := String.eqb (protocol p) "https:" in
  {| o_hostname := hostname p;
     o_port := match port p with
               | Some s => if str_truthy (Some s) then inl s else inr (if https then 443 else 80)%Z
               | None => inr (if https then 443 else 80)%Z
               end;
     o_path := url req;
     o_method := method req;
     o_headers := forward_headers req p;
     o_timeout := 30000;
     o_client := if https then Https else Http;
     o_pipes_body := String.eqb (method req) "POST" || String.eqb (method req) "PUT" |}.

(** The synchronous part of the handler: the preflight answer, the 500
    answer of the [catch] when setting up the upstream request throws
    ([sync_error] is the exception's message), or the forwarded request
    with the response still to be written. *)
Inductive outcome :=
| Answered (r : ServerResponse)
| Forwarded (o : outgoing).

Definition handle_request (req : request) (sync_error : option string) : option outcome :=
  if String.eqb (method req) "OPTIONS" then
    option_map Answered (answer 200 (cors_headers (cors_origin req)) NoBody res_init)
  else
    match sync_error with
    | Some msg =>
        option_map Answered
          (answer 500 error_headers
             (Json [("error", Some "Server error"); ("message", Some msg)]) res_init)
    | None => Some (Forwarded (forward req))
    end.

(** ** The upstream callbacks *)

Inductive upstream_event :=
| UpResponse (code : Z) (headers : jsobj string)
| UpError (message : string) (code : option string)
| UpTimeout.

(** The handler's state once the request is sent: the response, and what
    the ClientRequest has emitted or undergone. *)
Record pstate := mkP {
  res_of : ServerResponse;
  responded : bool;
  errored : bool;
  destroyed : bool
}.

Definition pstate_init : pstate := mkP res_init false false false.

(** The response's headers (lines 82-94): the upstream's, the four CORS
    headers assigned over them, then the lower-case variants of three of
    them deleted. *)
Definition response_headers (origin : string) (h : jsobj string) : jsobj string :=
  obj_del "access-control-allow-methods"
    (obj_del "access-control-allow-headers"
       (obj_del "access-control-allow-origin" (obj_spread h (cors_headers origin)))).

(** The response callback writes unguarded, then pipes. *)
Definition on_response (origin : string) (code : Z) (h : jsobj string) (st : pstate)
  : option pstate :=
  match answer code (response_headers origin h) Piped (res_of st) with
  | Some r => Some (mkP r true (errored st) (destroyed st))
  | None => None
  end.

(** Write [code] unless headers were sent (the error and timeout callbacks). *)
Definition guarded_answer (code : Z) (b : body) (r : ServerResponse) : ServerResponse :=
  if headersSent r then r
  else match answer code error_headers b r with Some r' => r' | None => r end.

Definition on_error (message : string) (code : option string) (st : pstate) : pstate :=
  mkP (guarded_answer 500
         (Json [("error", Some "Proxy error"); ("message", Some message); ("code", code)])
         (res_of st))
      (responded st) true (destroyed st).

(** [proxyReq.destroy()] then the guarded 504. *)
Definition on_timeout (st : pstate) : pstate :=
  mkP (guarded_answer 504
         (Json [("error", Some "Gateway Timeout"); ("message", Some "Request timed out")])
         (res_of st))
      (responded st) (errored st) true.

Definition proxy_handle (origin : string) (ev : upstream_event) (st : pstate) : option pstate :=
  match ev with
  | UpResponse c h => on_response origin c h st
  | UpError m c => Some (on_error m c st)
  | UpTimeout => Some (on_timeout st)
  end.

(** What Node's ClientRequest may emit next: 'response' at most once and
    never after an 'error' or after [destroy()]; 'error' once; the timeout
    while the request is not destroyed.  An 'error' may follow a response
    or a timeout. *)
Definition permitted (st : pstate) (ev : upstream_event) : bool :=
  match ev with
  | UpResponse _ _ => negb (responded st) && negb (errored st) && negb (destroyed st)
  | UpError _ _ => negb (errored st)
  | UpTimeout => negb (destroyed st)
  end.

(** The permitted runs, from the state after [handle_request]. *)
Inductive preach (origin : string) : pstate -> Prop :=
| preach_init : preach origin pstate_init
| preach_step st ev st' :
    preach origin st -> permitted st ev = true -> proxy_handle origin ev st = Some st' ->
    preach origin st'.

(** An executable run of upstream events; [None] when an event is not
    permitted or a callback throws. *)
Fixpoint run_upstream (origin : string) (evs : list upstream_event) (st : pstate)
  : option pstate :=
  match evs with
  | [] => Some st
  | ev :: evs' =>
      if permitted st ev then
        match proxy_handle origin ev st with
        | Some st' => run_upstream origin evs' st'
        | None => None
        end
      else None
  end.

Definition sample_post : request :=
  mkRequest "POST" "/check-tx" [("origin", "https://evil.example"); ("content-type", "application/json")].

Definition sample_preflight : request :=
  mkRequest "OPTIONS" "/check-tx" [("origin", "https://evil.example")].

(** The status the client gets from the first upstream event. *)
Definition first_status (ev : upstream_event) : Z :=
  match ev with
  | UpResponse c _ => c
  | UpError _ _ => 500
  | UpTimeout => 504
  end.

(** The invariant of the response writer: headers are sent exactly when
    the ClientRequest has responded, failed or been destroyed, and
    [writeHead] was called once if they are, never otherwise. *)
Definition pinv (st : pstate) : Prop :=
  headersSent (res_of st) = (responded st || errored st || destroyed st) /\
  heads (res_of st) = (if headersSent (res_of st) then 1 else 0)%nat.

(** ** Lemmas *)

Lemma answer_fresh (c : Z) (h : jsobj string) (b : body) (r : ServerResponse) :
  headersSent r = false -> answer c h b r = Some (mkRes true (Some c) h b (S (heads r))).
Proof. intros H. unfold answer, writeHead. rewrite H. reflexivity. Qed.

Lemma guarded_answer_sent (c : Z) (b : body) (r : ServerResponse) :
  headersSent r = true -> guarded_answer c b r = r.
Proof. intros H. unfold guarded_answer. rewrite H. reflexivity. Qed.

Lemma guarded_answer_fresh (c : Z) (b : body) (r : ServerResponse) :
  headersSent r = false ->
  guarded_answer c b r = mkRes true (Some c) error_headers b (S (heads r)).
Proof. intros H. unfold guarded_answer. rewrite H, answer_fresh by exact H. reflexivity. Qed.

(** A permitted response finds the headers unsent. *)
Lemma permitted_response_fresh (st : pstate) c h :
  pinv st -> permitted st (UpResponse c h) = true -> headersSent (res_of st) = false.
Proof.
  intros [Hs _] Hp. simpl in Hp. rewrite Hs.
  destruct (responded st), (errored st), (destroyed st); simpl in *; congruence.
Qed.

Lemma pinv_step (origin : string) (st st' : pstate) (ev : upstream_event) :
  pinv st -> permitted st ev = true -> proxy_handle origin ev st = Some st' -> pinv st'.
Proof.
  destruct st as [[hs sa ho bo he] rp er de].
  intros [Hs Hh] Hp Hstep; simpl in *; subst hs he.
  destruct ev as [c h|m c|], rp, er, de; simpl in Hp, Hstep; try discriminate;
    injection Hstep as <-; split; reflexivity.
Qed.

Lemma preach_pinv (origin : string) (st : pstate) : preach origin st -> pinv st.
Proof.
  induction 1 as [|st ev st' _ IH Hp Hstep]; [split; reflexivity|].
  exact (pinv_step origin st st' ev IH Hp Hstep).
Qed.

(** No permitted callback throws. *)
Lemma permitted_no_throw (origin : string) (st : pstate) (ev : upstream_event) :
  pinv st -> permitted st ev = true -> proxy_handle origin ev st <> None.
Proof.
  intros Hinv Hp. destruct ev as [c h|m c|]; simpl; try discriminate.
  unfold on_response. rewrite answer_fresh by exact (permitted_response_fresh st c h Hinv Hp).
  discriminate.
Qed.

Lemma run_upstream_reach (origin : string) (evs : list upstream_event) :
  forall st st', preach origin st -> run_upstream origin evs st = Some st' -> preach origin st'.
Proof.
  induction evs as [|ev evs IH]; simpl; intros st st' Hr Hrun; [congruence|].
  destruct (permitted st ev) eqn:Hp; [|discriminate].
  destruct (proxy_handle origin ev st) as [st1|] eqn:Hstep; [|discriminate].
  exact (IH st1 st' (preach_step origin st ev st1 Hr Hp Hstep) Hrun).
Qed.

(** Once the headers are sent, a permitted event leaves the status, the
    headers and the count of [writeHead] calls as they are. *)
Lemma step_keeps_answer (origin : string) (st st' : pstate) (ev : upstream_event) :
  pinv st -> headersSent (res_of st) = true ->
  permitted st ev = true -> proxy_handle origin ev st = Some st' ->
  headersSent (res_of st') = true /\ status (res_of st') = status (res_of st) /\
  heads (res_of st') = heads (res_of st).
Proof.
  intros Hinv Hs Hp Hstep. destruct ev as [c h|m c|]; simpl in Hstep.
  - rewrite (permitted_response_fresh st c h Hinv Hp) in Hs. discriminate.
  - injection Hstep as <-. simpl. rewrite guarded_answer_sent by exact Hs. auto.
  - injection Hstep as <-. simpl. rewrite guarded_answer_sent by exact Hs. auto.
Qed.

Lemma run_keeps_answer (origin : string) (evs : list upstream_event) :
  forall st st', preach origin st -> headersSent (res_of st) = true ->
  run_upstream origin evs st = Some st' ->
  headersSent (res_of st') = true /\ status (res_of st') = status (res_of st) /\
  heads (res_of st') = heads (res_of st).
Proof.
  induction evs as [|ev evs IH]; simpl; intros st st' Hr Hs Hrun; [injection Hrun as <-; auto|].
  destruct (permitted st ev) eqn:Hp; [|discriminate].
  destruct (proxy_handle origin ev st) as [st1|] eqn:Hstep; [|discriminate].
  destruct (step_keeps_answer origin st st1 ev (preach_pinv origin st Hr) Hs Hp Hstep)
    as (Hs1 & Hst1 & Hh1).
  destruct (IH st1 st' (preach_step origin st ev st1 Hr Hp Hstep) Hs1 Hrun) as (? & ? & ?).
  repeat split; congruence.
Qed.

Lemma obj_get_app {V} (k : string) (l1 l2 : jsobj V) :
  obj_get k (List.app l1 l2) = match obj_get k l1 with Some v => Some v | None => obj_get k l2 end.
Proof.
  induction l1 as [|[k' v'] l1 IH]; simpl; [reflexivity|].
  destruct (String.eqb k k'); [reflexivity|exact IH].
Qed.

(** Reading a spread object: the last assignment of the key wins. *)
Lemma obj_get_spread {V} (k : string) (over : jsobj V) :
  forall base, obj_get k (obj_spread base over) =
  match obj_get k (rev over) with Some v => Some v | None => obj_get k base end.
Proof.
  unfold obj_spread. induction over as [|[k' v'] over IH]; intros base; simpl; [reflexivity|].
  rewrite IH, obj_get_app. simpl.
  destruct (obj_get k (rev over)); [reflexivity|].
  destruct (String.eqb_spec k k') as [<-|]; [apply obj_get_set_eq|apply obj_get_set_ne; auto].
Qed.

Lemma copy_header_get_ne (from to_ j : string) (req : request) (h : jsobj string) :
  j <> to_ -> obj_get j (copy_header from to_ req h) = obj_get j h.
Proof.
  intros Hne. unfold copy_header.
  destruct (obj_get from (req_headers req)); [|reflexivity].
  destruct (str_truthy _); [apply obj_get_set_ne, Hne|reflexivity].
Qed.

Lemma copy_header_wf (from to_ : string) (req : request) (h : jsobj string) :
  obj_wf h -> obj_wf (copy_header from to_ req h).
Proof.
  intros Hh. unfold copy_header.
  destruct (obj_get from (req_headers req)); [destruct (str_truthy _)|]; auto with chart.
Qed.

Lemma obj_get_cors_none (k origin : string) :
  ~ In k [ACAO; ACAH; ACAM; ACAC] -> obj_get k (rev (cors_headers origin)) = None.
Proof.
  intros Hn. simpl.
  repeat match goal with
         | |- context [String.eqb k ?x] =>
             destruct (String.eqb_spec k x) as [->|]; [exfalso; apply Hn; simpl; tauto|]
         end; reflexivity.
Qed.

(** ** Properties *)

(** C36: Every request but a preflight is forwarded: to the Raydium
    service host when its path starts with /check-tx or /send-tx, to the
    Solana RPC otherwise, over HTTPS on port 443, with the path unchanged,
    a Host header naming the target, and a 30-second timeout. *)
Theorem proxy_routes_by_prefix (req : request) :
  method req <> "OPTIONS" ->
  let target := if String.prefix "/check-tx" (url req) || String.prefix "/send-tx" (url req)
                then "service-v1.raydium.io" else "api.mainnet-beta.solana.com" in
  handle_request req None = Some (Forwarded (forward req)) /\
  o_hostname (forward req) = target /\
  obj_get "Host" (o_headers (forward req)) = Some target /\
  o_path (forward req) = url req /\ o_port (forward req) = inr 443%Z /\
  o_client (forward req) = Https /\ o_timeout (forward req) = 30000%Z.
Proof.
  intros Hm target. unfold handle_request.
  destruct (String.eqb_spec (method req) "OPTIONS"); [contradiction|].
  split; [reflexivity|].
  unfold forward; cbn [o_hostname o_headers o_path o_port o_client o_timeout].
  unfold forward_headers. rewrite !copy_header_get_ne by discriminate.
  subst target. unfold targetUrl.
  destruct (String.prefix "/check-tx" (url req) || String.prefix "/send-tx" (url req));
    repeat split; reflexivity.
Qed.

(** C38: The preflight answer grants any requesting origin, with
    credentials: for every non-empty Origin header the relay answers 200
    with Access-Control-Allow-Origin set to that origin and
    Access-Control-Allow-Credentials "true". *)
Theorem preflight_grants_any_origin (req : request) (o : string) (e : option string) :
  method req = "OPTIONS" -> obj_get "origin" (req_headers req) = Some o -> o <> "" ->
  exists r, handle_request req e = Some (Answered r) /\ status r = Some 200%Z /\
    obj_get ACAO (headers_out r) = Some o /\ obj_get ACAC (headers_out r) = Some "true".
Proof.
  intros Hm Ho Hne. unfold handle_request. rewrite Hm. simpl.
  unfold cors_origin. rewrite Ho. simpl.
  destruct (String.eqb_spec o ""); [contradiction|].
  eexists. repeat split; reflexivity.
Qed.

(** C37: The headers of a forwarded response have each key once; the
    relay's Access-Control-Allow-Origin and -Credentials are set; the
    lower-case origin, headers and methods variants of the upstream are
    removed; every other upstream header passes through unchanged, the
    upstream's lower-case access-control-allow-credentials included. *)
Theorem response_headers_shape (origin : string) (h : jsobj string) :
  obj_wf h ->
  obj_wf (response_headers origin h) /\
  obj_get ACAO (response_headers origin h) = Some origin /\
  obj_get ACAC (response_headers origin h) = Some "true" /\
  obj_get "access-control-allow-origin" (response_headers origin h) = None /\
  obj_get "access-control-allow-headers" (response_headers origin h) = None /\
  obj_get "access-control-allow-methods" (response_headers origin h) = None /\
  (forall k, ~ In k [ACAO; ACAH; ACAM; ACAC; "access-control-allow-origin";
                     "access-control-allow-headers"; "access-control-allow-methods"] ->
     obj_get k (response_headers origin h) = obj_get k h).
Proof.
  intros Hwf. unfold response_headers.
  split; [auto with chart|].
  split; [rewrite !obj_get_del_ne, obj_get_spread by discriminate; reflexivity|].
  split; [rewrite !obj_get_del_ne, obj_get_spread by discriminate; reflexivity|].
  split; [rewrite !obj_get_del_ne by discriminate; apply obj_get_del_eq|].
  split; [rewrite obj_get_del_ne by discriminate; apply obj_get_del_eq|].
  split; [apply obj_get_del_eq|].
  intros k Hk.
  rewrite !obj_get_del_ne by (intros ->; apply Hk; simpl; auto 10).
  rewrite obj_get_spread, obj_get_cors_none; [reflexivity|].
  intros Hin. apply Hk. simpl in *. tauto.
Qed.

(** C34: In every state the upstream callbacks can reach, in any order
    Node's ClientRequest may emit them, the status line was written at
    most once, it was written exactly when the upstream responded, failed
    or timed out, and no permitted callback throws
    ERR_HTTP_HEADERS_SENT: the unguarded write of the response callback is
    safe because Node emits no response after an error or a destroy. *)
Theorem proxy_writes_head_once (origin : string) (st : pstate) :
  preach origin st ->
  (heads (res_of st) <= 1)%nat /\
  (headersSent (res_of st) = true <->
     responded st = true \/ errored st = true \/ destroyed st = true) /\
  (forall ev, permitted st ev = true -> proxy_handle origin ev st <> None).
Proof.
  intros Hr. pose proof (preach_pinv origin st Hr) as Hinv.
  split; [|split; [|intros ev; apply permitted_no_throw, Hinv]];
    destruct Hinv as [Hs Hh]; rewrite Hh || rewrite Hs.
  - destruct (headersSent (res_of st)); lia.
  - destruct (responded st), (errored st), (destroyed st); simpl; intuition congruence.
Qed.

(** C35: Whatever Node emits, the client is answered: after the first
    upstream event (the 30-second timeout guarantees one) the status line
    is written exactly once, with the upstream's status for a response,
    500 for an error and 504 for a timeout, and no later event changes it. *)
Theorem proxy_answers_first_event (origin : string) (ev : upstream_event)
  (evs : list upstream_event) (st : pstate) :
  run_upstream origin (ev :: evs) pstate_init = Some st ->
  heads (res_of st) = 1%nat /\ status (res_of st) = Some (first_status ev).
Proof.
  intros Hrun. simpl in Hrun.
  destruct (proxy_handle origin ev pstate_init) as [st1|] eqn:Hstep;
    [|destruct ev; discriminate].
  assert (Hp : permitted pstate_init ev = true) by (destruct ev; reflexivity).
  rewrite Hp in Hrun.
  pose proof (preach_step origin pstate_init ev st1 (preach_init origin) Hp Hstep) as Hr1.
  assert (H1 : headersSent (res_of st1) = true /\ heads (res_of st1) = 1%nat /\
               status (res_of st1) = Some (first_status ev))
    by (destruct ev; simpl in Hstep; injection Hstep as <-; repeat split).
  destruct H1 as (Hs1 & Hh1 & Hst1).
  destruct (run_keeps_answer origin evs st1 st Hr1 Hs1 Hrun) as (_ & -> & ->). auto.
Qed.

(** ** Witnesses *)

Lemma proxy_routes_by_prefix_witness :
  method sample_post <> "OPTIONS" /\
  o_hostname (forward sample_post) = "service-v1.raydium.io".
Proof.
  split; [discriminate|].
  destruct (proxy_routes_by_prefix sample_post ltac:(discriminate)) as (_ & H & _).
  exact H.
Defined.

Lemma preflight_grants_any_origin_witness :
  exists r, handle_request sample_preflight None = Some (Answered r) /\ status r = Some 200%Z /\
    obj_get ACAO (headers_out r) = Some "https://evil.example" /\
    obj_get ACAC (headers_out r) = Some "true".
Proof.
  exact (preflight_grants_any_origin sample_preflight "https://evil.example" None
           eq_refl eq_refl ltac:(discriminate)).
Defined.

Lemma response_headers_shape_witness :
  obj_wf [("access-control-allow-credentials", "false"); ("content-length", "2")] /\
  obj_get "access-control-allow-credentials"
    (response_headers "https://evil.example"
       [("access-control-allow-credentials", "false"); ("content-length", "2")]) = Some "false".
Proof.
  assert (Hwf : obj_wf [("access-control-allow-credentials", "false"); ("content-length", "2")]).
  { unfold obj_wf. simpl. constructor; [simpl; intros [H|[]]; discriminate|].
    constructor; [intros []|constructor]. }
  split; [exact Hwf|].
  destruct (response_headers_shape "https://evil.example" _ Hwf) as (_ & _ & _ & _ & _ & _ & H).
  apply H. simpl. intuition discriminate.
Defined.

Lemma proxy_writes_head_once_witness :
  run_upstream "*" [UpTimeout; UpError "socket hang up" (Some "ECONNRESET")] pstate_init =
    Some (on_error "socket hang up" (Some "ECONNRESET") (on_timeout pstate_init)) /\
  (heads (res_of (on_error "socket hang up" (Some "ECONNRESET") (on_timeout pstate_init))) <= 1)%nat.
Proof.
  split; [reflexivity|].
  refine (proj1 (proxy_writes_head_once "*" _ _)).
  apply (run_upstream_reach "*" [UpTimeout; UpError "socket hang up" (Some "ECONNRESET")]
           pstate_init); [constructor|reflexivity].
Defined.

Lemma proxy_answers_first_event_witness :
  run_upstream "*" [UpTimeout; UpError "socket hang up" None] pstate_init =
    Some (on_error "socket hang up" None (on_timeout pstate_init)) /\
  status (res_of (on_error "socket hang up" None (on_timeout pstate_init))) = Some 504%Z.
Proof.
  split; [reflexivity|].
  exact (proj2 (proxy_answers_first_event "*" UpTimeout [UpError "socket hang up" None]
                 (on_error "socket hang up" None (on_timeout pstate_init)) eq_refl)).
Defined.

End Proxy.
