(* ===== verification/TxService.v ===== *)
(** * The transaction service client (src/src/api/txService.ts)

    Two calls that post a wallet's transactions to the Raydium service and
    never reject: [validateTxData] posts to the local relay
    (http://localhost:3000/check-tx, which proxy.js forwards) and
    [extendTxData] posts to the configured service host.  Each builds a
    JSON body from the app store, awaits the POST and returns its result,
    or, in its [catch], a failure record.  The app store is a record
    argument, the user agent's device type an input, the HTTP client a
    function from the request to a resolved value or a rejection; the
    request actually sent is returned with the result. *)

From Stdlib Require Import ZArith List Bool String Lia.
From S2P Require Import Prelude.
Import ListNotations.

Module TxService.

Open Scope string_scope.

Record rpc_node := mkRpc { rpc_url : string; rpc_name : string }.

(** The wallet adapter: its name, and for a WalletConnect adapter its
    private [_wallet] ([None] when unset) with the peer metadata name of
    its session, if any. *)
Record adapter := mkAdapter {
  adapter_name : string;
  wc_wallet : option (option string)
}.

(** The fields of [useAppStore.getState()] the calls read. *)
Record app_state := mkApp {
  rpcs : list rpc_node;
  rpcNodeUrl : string;
  wallet_adapter : option adapter;
  SERVICE_1_BASE_HOST : string
}.

(** JSON values of the request bodies; [JUndef] is a field whose value is
    [undefined], which JSON.stringify drops. *)
Inductive json := JStr (s : string) | JNum (z : Z) | JStrs (l : list string) | JUndef.

Definition stringify (o : jsobj json) : jsobj json :=
  filter (fun kv => match snd kv with JUndef => false | _ => true end) o.

(** A POST as sent: URL and serialized body. *)
Record post_req := mkPost { post_url : string; post_body : jsobj json }.

(** The outcome of [axios.post]: its resolved value or a rejection with
    the error's [message]. *)
Inductive reply (A : Type) := Resolved (a : A) | Rejected (message : option string).
Arguments Resolved {A} a.
Arguments Rejected {A} message.

Record CheckTxResponse := mkCheck { c_id : string; c_success : bool; c_msg : option string }.

Record TxExtendResponse := mkExtend {
  e_id : string; e_success : bool; e_data : list string; e_msg : option string
}.

(** The props of validateTxData. *)
Record tx_props := mkProps { data : list string; preData : list string; userSignTime : Z }.

(** The message of the TypeError raised by [._wallet._session] when
    [_wallet] is not set. *)
Definition type_error_message : string :=
  "Cannot read properties of undefined (reading '_session')".

(** [rpcs.find((r) => r.url === rpcNodeUrl)?.name || 'userChange'] *)
Definition rpc_label (st : app_state) : string :=
  or_str (option_map rpc_name (find (fun r => String.eqb (rpc_url r) (rpcNodeUrl st)) (rpcs st)))
    "userChange".

(** [adapter?.name === 'WalletConnect' ? adapter._wallet._session?.peer?.metadata?.name
    : undefined]; [inl] is the TypeError. *)
Definition metaData (a : option adapter) : string + json :=
  match a with
  | Some ad =>
      if String.eqb (adapter_name ad) "WalletConnect" then
        match wc_wallet ad with
        | None => inl type_error_message
        | Some (Some name) => inr (JStr name)
        | Some None => inr JUndef
        end
      else inr JUndef
  | None => inr JUndef
  end.

Definition VALIDATE_URL := "http://localhost:3000/check-tx".

(** validateTxData (lines 10-37): [deviceType] is
    [parseUserAgent(...).device.type]; [post] is the HTTP client. *)
Definition validateTxData (st : app_state) (deviceType : option string) (props : tx_props)
  (post : post_req -> reply CheckTxResponse) : list post_req * CheckTxResponse :=
  let fail m := mkCheck "" false (Some (or_str m "validate tx failed")) in
  let adapter := wallet_adapter st in
  let walletName := or_str (option_map adapter_name adapter) "unknown" in
  match metaData adapter with
  | inl err => ([], fail (Some err))
  | inr md =>
      let body :=
        obj_spread
          [("walletName", JStr walletName); ("metaData", md);
           ("deviceType", JStr (or_str deviceType "pc")); ("rpc", JStr (rpc_label st))]
          [("data", JStrs (data props)); ("preData", JStrs (preData props));
           ("userSignTime", JNum (userSignTime props))] in
      let req := mkPost VALIDATE_URL (stringify body) in
      match post req with
      | Resolved r => ([req], r)
      | Rejected m => ([req], fail m)
      end
  end.

(** extendTxData (lines 45-66). *)
Definition extendTxData (st : app_state) (txData : list string)
  (post : post_req -> reply TxExtendResponse) : list post_req * TxExtendResponse :=
  let req :=
    mkPost (String.append (SERVICE_1_BASE_HOST st) "/ins-extend")
      (stringify [("walletName", JStr (or_str (option_map adapter_name (wallet_adapter st)) "unknown"));
                  ("data", JStrs txData)]) in
  match post req with
  | Resolved r => ([req], r)
  | Rejected m => ([req], mkExtend "" false [] (Some (or_str m "extend tx failed")))
  end.

Definition sample_app : app_state :=
  mkApp [mkRpc "https://rpc.example" "Example"] "https://rpc.example"
    (Some (mkAdapter "Phantom" None)) "https://service.example".

Definition sample_props : tx_props := mkProps ["tx1"] ["pre1"] 1700000000.

(** ** Lemmas *)

Lemma or_str_nonempty (o : option string) (d : string) :
  d <> "" -> or_str o d <> "".
Proof.
  intros Hd. destruct o as [s|]; simpl; [|exact Hd].
  destruct (String.eqb_spec s ""); congruence.
Qed.

(** ** Properties *)

(** C39: Neither call rejects on a failed POST: a rejection yields the
    failure record, with an empty id, success false, the error's message
    or the call's default message, never an empty message. *)
Theorem txService_rejection_record (st : app_state) (dt : option string) (props : tx_props)
  (txData : list string) (m : option string) :
  metaData (wallet_adapter st) <> inl type_error_message ->
  let '(_, r) := validateTxData st dt props (fun _ => Rejected m) in
  let '(_, e) := extendTxData st txData (fun _ => Rejected m) in
  c_id r = "" /\ c_success r = false /\ c_msg r = Some (or_str m "validate tx failed") /\
  e_id e = "" /\ e_success e = false /\ e_data e = [] /\
  e_msg e = Some (or_str m "extend tx failed") /\
  or_str m "validate tx failed" <> "" /\ or_str m "extend tx failed" <> "".
Proof.
  intros Hmd. unfold validateTxData, extendTxData.
  destruct (metaData (wallet_adapter st)) as [e|md] eqn:E.
  - destruct (String.eqb_spec e type_error_message) as [->|Hne]; [contradiction|].
    exfalso. unfold metaData in E.
    destruct (wallet_adapter st) as [ad|]; [|discriminate].
    destruct (String.eqb _ _); [|discriminate].
    destruct (wc_wallet ad) as [[]|]; congruence.
  - repeat split; apply or_str_nonempty; discriminate.
Qed.

(** C40: A WalletConnect adapter whose [_wallet] is not set makes
    validateTxData fail before sending anything: [._wallet._session]
    has no optional chaining on [_wallet], the TypeError is caught, and
    the result is a failure carrying its message. *)
Theorem validateTxData_walletconnect_unset (st : app_state) (dt : option string)
  (props : tx_props) (post : post_req -> reply CheckTxResponse) (ad : adapter) :
  wallet_adapter st = Some ad -> adapter_name ad = "WalletConnect" -> wc_wallet ad = None ->
  validateTxData st dt props post = ([], mkCheck "" false (Some type_error_message)).
Proof.
  intros Ha Hn Hw. unfold validateTxData, metaData. rewrite Ha, Hn, Hw. reflexivity.
Qed.

(** ** Witnesses *)

Lemma txService_rejection_record_witness :
  metaData (wallet_adapter sample_app) <> inl type_error_message /\
  let '(_, r) := validateTxData sample_app None sample_props (fun _ => Rejected None) in
  c_msg r = Some "validate tx failed".
Proof.
  assert (H : metaData (wallet_adapter sample_app) <> inl type_error_message) by discriminate.
  split; [exact H|].
  pose proof (txService_rejection_record sample_app None sample_props [] None H) as Hr.
  simpl in Hr |- *. destruct Hr as (_ & _ & Hm & _). exact Hm.
Defined.

Lemma validateTxData_walletconnect_unset_witness :
  validateTxData
    (mkApp [] "" (Some (mkAdapter "WalletConnect" None)) "") (Some "mobile") sample_props
    (fun _ => Resolved (mkCheck "id" true None)) =
  ([], mkCheck "" false (Some type_error_message)).
Proof.
  exact (validateTxData_walletconnect_unset (mkApp [] "" (Some (mkAdapter "WalletConnect" None)) "")
           (Some "mobile") sample_props (fun _ => Resolved (mkCheck "id" true None))
           (mkAdapter "WalletConnect" None) eq_refl eq_refl eq_refl).
Defined.

End TxService.
